(** * IHMC message interface

    A shallow embedding of the two translation units of the repository:

    - [ihmc_utils/ihmc_msg_utilities.cpp] (namespace [IHMCMsgUtils]): the
      functions that fill IHMC controller messages from a configuration
      vector, and
    - [ihmc_nodes/ihmc_interface_node.cpp] (class [IHMCInterfaceNode]): the
      callbacks, the derived flags and the two publishing methods, together
      with the body of the loop of [main].

    C++ [int] is [Z], [double] is a binary64 [float], [std::vector] and
    Eigen's dynamic vector are lists, [std::map] is a [gmap].  An [int]
    assigned to an 8-bit message field is narrowed to the field.  A message that
    the C++ code receives by reference and fills in is a function from the
    message before the call to the message after it.  Reading or writing a
    vector outside its bounds has no defined behaviour in C++; the embedding
    stops there with a [fault]. *)

From Stdlib Require Import ZArith String List Bool Lia PrimFloat.
From stdpp Require Import base option list gmap strings.

Set Warnings "-inexact-float".
Open Scope Z_scope.

(** ** Scalars and vectors *)

Abbreviation double := float (only parsing).
(** [dynacore::Vector], Eigen's [VectorXd]. *)
Abbreviation Vector := (list float) (only parsing).

(** [dynacore::Vect3] and [tf::Vector3]. *)
Record Vect3 := mkVect3 { v_x : float; v_y : float; v_z : float }.

(** [dynacore::Quaternion] and [tf::Quaternion]. *)
Record Quaternion := mkQuaternion
  { q_x : float; q_y : float; q_z : float; q_w : float }.

(** [tf::Matrix3x3], three rows. *)
Record tf_Matrix3x3 := mkBasis { row0 : Vect3; row1 : Vect3; row2 : Vect3 }.

(** [tf::Transform]. *)
Record tf_Transform := mkTransform
  { m_basis : tf_Matrix3x3; m_origin : Vect3 }.

(** ** Undefined behaviour and the two effects of the code *)

Inductive fault : Type :=
| name_out_of_range (i : nat)
    (** [js_msg.name[i]] with [i] not below [js_msg.name.size()] *)
| coefficient_out_of_range (i : Z).
    (** [v[i]] on an Eigen vector with [i] outside [0 .. v.size()-1] *)

Inductive outcome (A : Type) : Type :=
| Done (a : A)
| Undefined (f : fault).
Arguments Done {A} a.
Arguments Undefined {A} f.

Definition is_done {A} (o : outcome A) : bool :=
  match o with Done _ => true | Undefined _ => false end.

Definition obind {A B} (o : outcome A) (k : A -> outcome B) : outcome B :=
  match o with
  | Done a => k a
  | Undefined f => Undefined f
  end.

(** Code that also reads [std::chrono::system_clock]: the state is the number
    of readings taken so far. *)
Definition timed (A : Type) : Type := nat -> outcome (A * nat).

Definition tret {A} (a : A) : timed A := fun k => Done (a, k).

Definition tbind {A B} (m : timed A) (f : A -> timed B) : timed B :=
  fun k => match m k with
           | Done (a, k') => f a k'
           | Undefined e => Undefined e
           end.

Definition lift {A} (o : outcome A) : timed A :=
  fun k => match o with
           | Done a => Done (a, k)
           | Undefined e => Undefined e
           end.

Declare Scope outcome_scope.
Delimit Scope outcome_scope with outcome.
Declare Scope timed_scope.
Delimit Scope timed_scope with timed.
Notation "'let!' x ':=' e 'in' k" := (obind e (fun x => k))
  (at level 10, x pattern, e at level 100, k at level 200) : outcome_scope.
Notation "'let!' x ':=' e 'in' k" := (tbind e (fun x => k))
  (at level 10, x pattern, e at level 100, k at level 200) : timed_scope.

(** Eigen coefficient access [v[i]], read and write. *)
Definition coeff (v : Vector) (i : Z) : outcome float :=
  if (0 <=? i) && (i <? Z.of_nat (length v))
  then match v !! Z.to_nat i with
       | Some x => Done x
       | None => Undefined (coefficient_out_of_range i)
       end
  else Undefined (coefficient_out_of_range i).

Definition set_coeff (v : Vector) (i : Z) (x : float) : outcome Vector :=
  if (0 <=? i) && (i <? Z.of_nat (length v))
  then Done (<[Z.to_nat i := x]> v)
  else Undefined (coefficient_out_of_range i).

(** [v.resize(n); v.setZero()]. *)
Definition resize_setZero (n : Z) : Vector := repeat 0%float (Z.to_nat n).

(** An [int] assigned to an 8-bit field: the low eight bits are kept and read
    back in two's complement ([int8_t]) or as they are ([uint8_t]). *)
Definition narrow8 (signed : bool) (x : Z) : Z :=
  if signed then (x + 128) mod 256 - 128 else x mod 256.

(** ** Collaborators outside the repository *)

(** The constants of [Valkyrie_Definition.h] that the code uses: sizes, slots
    of the configuration vector, link identifiers, and the map from joint
    names to slots. *)
Class ValkyrieDefinition := {
  num_q : Z;
  num_qdot : Z;
  num_virtual : Z;
  num_act_joint : Z;
  virtual_X : Z; virtual_Y : Z; virtual_Z : Z;
  virtual_Rx : Z; virtual_Ry : Z; virtual_Rz : Z; virtual_Rw : Z;
  leftShoulderPitch : Z; leftShoulderRoll : Z; leftShoulderYaw : Z;
  leftElbowPitch : Z; leftForearmYaw : Z;
  rightShoulderPitch : Z; rightShoulderRoll : Z; rightShoulderYaw : Z;
  rightElbowPitch : Z; rightForearmYaw : Z;
  lowerNeckPitch : Z; neckYaw : Z; upperNeckPitch : Z;
  torsoYaw : Z; torsoPitch : Z; torsoRoll : Z;
  link_pelvis : Z; link_torso : Z;
  link_rightCOP_Frame : Z; link_leftCOP_Frame : Z;
  link_rightPalm : Z; link_leftPalm : Z; link_head : Z;
  joint_names_to_indices : gmap string Z
}.

(** What the code calls in tf, dynacore, the robot model, the generated
    message headers and the system clock. *)
Class Collaborators := {
  (** [tf::Matrix3x3::setRotation] and [getRotation] *)
  tf_setRotation : Quaternion -> tf_Matrix3x3;
  tf_getRotation : tf_Matrix3x3 -> Quaternion;
  (** [dynacore::convert] from a tf quaternion *)
  dynacore_convert : Quaternion -> Quaternion;
  (** [Valkyrie_Model::UpdateSystem(q, qdot)] followed by [getOri(link, _)] *)
  Valkyrie_Model_getOri : Vector -> Vector -> Z -> Quaternion;
  (** the [k]-th reading of [std::chrono::system_clock::now()], nanoseconds *)
  system_clock_now : nat -> Z;
  (** whether the 8-bit fields of the generated message headers
      ([execution_mode], [robot_side]) are [int8_t] rather than [uint8_t] *)
  byte_fields_signed : bool;
  (** constants of [controller_msgs::GoHomeMessage] *)
  HUMANOID_BODY_PART_ARM : Z;
  HUMANOID_BODY_PART_CHEST : Z;
  HUMANOID_BODY_PART_PELVIS : Z;
  ROBOT_SIDE_LEFT : Z;
  ROBOT_SIDE_RIGHT : Z
}.

(** ** Messages

    One module per message type; [init] is the message as its generated
    constructor leaves it (numbers zero, flags false, sequences empty). *)

Module Point.
Record t := mk { x : float; y : float; z : float }.
Definition init : t := mk 0 0 0.
End Point.

Module Vector3.
Record t := mk { x : float; y : float; z : float }.
Definition init : t := mk 0 0 0.
End Vector3.

Module QuaternionMsg.
Record t := mk { x : float; y : float; z : float; w : float }.
Definition init : t := mk 0 0 0 0.
End QuaternionMsg.

Module Pose.
Record t := mk { position : Point.t; orientation : QuaternionMsg.t }.
Definition init : t := mk Point.init QuaternionMsg.init.
End Pose.

Module QueueableMessage.
Record t := mk {
  sequence_id : Z;
  execution_mode : Z;
  message_id : Z;
  previous_message_id : Z;
  stream_integration_duration : float;
  timestamp : Z
}.
Definition init : t := mk 0 0 0 0 0 0.
End QueueableMessage.

Module FrameInformation.
Record t := mk {
  sequence_id : Z;
  trajectory_reference_frame_id : Z;
  data_reference_frame_id : Z
}.
Definition init : t := mk 0 0 0.
End FrameInformation.

Module SelectionMatrix3DMessage.
Record t := mk {
  sequence_id : Z;
  selection_frame_id : Z;
  x_selected : bool; y_selected : bool; z_selected : bool
}.
Definition init : t := mk 0 0 false false false.
End SelectionMatrix3DMessage.

Module WeightMatrix3DMessage.
Record t := mk {
  sequence_id : Z;
  weight_frame_id : Z;
  x_weight : float; y_weight : float; z_weight : float
}.
Definition init : t := mk 0 0 0 0 0.
End WeightMatrix3DMessage.

Module TrajectoryPoint1DMessage.
Record t := mk {
  sequence_id : Z;
  time : float;
  position : float;
  velocity : float
}.
Definition init : t := mk 0 0 0 0.
End TrajectoryPoint1DMessage.

Module OneDoFJointTrajectoryMessage.
Record t := mk {
  sequence_id : Z;
  weight : float;
  trajectory_points : list TrajectoryPoint1DMessage.t
}.
Definition init : t := mk 0 0 [].
End OneDoFJointTrajectoryMessage.

Module JointspaceTrajectoryMessage.
Record t := mk {
  sequence_id : Z;
  queueing_properties : QueueableMessage.t;
  joint_trajectory_messages : list OneDoFJointTrajectoryMessage.t
}.
Definition init : t := mk 0 QueueableMessage.init [].
End JointspaceTrajectoryMessage.

Module ArmTrajectoryMessage.
Record t := mk {
  sequence_id : Z;
  robot_side : Z;
  force_execution : bool;
  jointspace_trajectory : JointspaceTrajectoryMessage.t
}.
Definition init : t := mk 0 0 false JointspaceTrajectoryMessage.init.
End ArmTrajectoryMessage.

Module NeckTrajectoryMessage.
Record t := mk {
  sequence_id : Z;
  jointspace_trajectory : JointspaceTrajectoryMessage.t
}.
Definition init : t := mk 0 JointspaceTrajectoryMessage.init.
End NeckTrajectoryMessage.

Module SpineTrajectoryMessage.
Record t := mk {
  sequence_id : Z;
  jointspace_trajectory : JointspaceTrajectoryMessage.t
}.
Definition init : t := mk 0 JointspaceTrajectoryMessage.init.
End SpineTrajectoryMessage.

Module SO3TrajectoryPointMessage.
Record t := mk {
  sequence_id : Z;
  time : float;
  orientation : QuaternionMsg.t;
  angular_velocity : Vector3.t
}.
Definition init : t := mk 0 0 QuaternionMsg.init Vector3.init.
End SO3TrajectoryPointMessage.

Module SE3TrajectoryPointMessage.
Record t := mk {
  sequence_id : Z;
  time : float;
  position : Point.t;
  orientation : QuaternionMsg.t;
  linear_velocity : Vector3.t;
  angular_velocity : Vector3.t
}.
Definition init : t :=
  mk 0 0 Point.init QuaternionMsg.init Vector3.init Vector3.init.
End SE3TrajectoryPointMessage.

Module SO3TrajectoryMessage.
Record t := mk {
  sequence_id : Z;
  use_custom_control_frame : bool;
  control_frame_pose : Pose.t;
  queueing_properties : QueueableMessage.t;
  frame_information : FrameInformation.t;
  selection_matrix : SelectionMatrix3DMessage.t;
  weight_matrix : WeightMatrix3DMessage.t;
  taskspace_trajectory_points : list SO3TrajectoryPointMessage.t
}.
Definition init : t :=
  mk 0 false Pose.init QueueableMessage.init FrameInformation.init
     SelectionMatrix3DMessage.init WeightMatrix3DMessage.init [].
End SO3TrajectoryMessage.

Module SE3TrajectoryMessage.
Record t := mk {
  sequence_id : Z;
  use_custom_control_frame : bool;
  control_frame_pose : Pose.t;
  queueing_properties : QueueableMessage.t;
  frame_information : FrameInformation.t;
  angular_selection_matrix : SelectionMatrix3DMessage.t;
  linear_selection_matrix : SelectionMatrix3DMessage.t;
  angular_weight_matrix : WeightMatrix3DMessage.t;
  linear_weight_matrix : WeightMatrix3DMessage.t;
  taskspace_trajectory_points : list SE3TrajectoryPointMessage.t
}.
Definition init : t :=
  mk 0 false Pose.init QueueableMessage.init FrameInformation.init
     SelectionMatrix3DMessage.init SelectionMatrix3DMessage.init
     WeightMatrix3DMessage.init WeightMatrix3DMessage.init [].
End SE3TrajectoryMessage.

Module ChestTrajectoryMessage.
Record t := mk {
  sequence_id : Z;
  so3_trajectory : SO3TrajectoryMessage.t
}.
Definition init : t := mk 0 SO3TrajectoryMessage.init.
End ChestTrajectoryMessage.

Module PelvisTrajectoryMessage.
Record t := mk {
  sequence_id : Z;
  force_execution : bool;
  enable_user_pelvis_control : bool;
  enable_user_pelvis_control_during_walking : bool;
  se3_trajectory : SE3TrajectoryMessage.t
}.
Definition init : t := mk 0 false false false SE3TrajectoryMessage.init.
End PelvisTrajectoryMessage.

Module FootTrajectoryMessage.
Record t := mk {
  sequence_id : Z;
  robot_side : Z;
  se3_trajectory : SE3TrajectoryMessage.t
}.
Definition init : t := mk 0 0 SE3TrajectoryMessage.init.
End FootTrajectoryMessage.

(** The sub-messages of the whole-body message that the code never touches
    (hands, head) are left out; feet and spine are kept because the source
    holds their assembly code, commented out. *)
Module WholeBodyTrajectoryMessage.
Record t := mk {
  sequence_id : Z;
  left_arm_trajectory_message : ArmTrajectoryMessage.t;
  right_arm_trajectory_message : ArmTrajectoryMessage.t;
  chest_trajectory_message : ChestTrajectoryMessage.t;
  spine_trajectory_message : SpineTrajectoryMessage.t;
  pelvis_trajectory_message : PelvisTrajectoryMessage.t;
  left_foot_trajectory_message : FootTrajectoryMessage.t;
  right_foot_trajectory_message : FootTrajectoryMessage.t;
  neck_trajectory_message : NeckTrajectoryMessage.t
}.
Definition init : t :=
  mk 0 ArmTrajectoryMessage.init ArmTrajectoryMessage.init
     ChestTrajectoryMessage.init SpineTrajectoryMessage.init
     PelvisTrajectoryMessage.init FootTrajectoryMessage.init
     FootTrajectoryMessage.init NeckTrajectoryMessage.init.
End WholeBodyTrajectoryMessage.

Module GoHomeMessage.
Record t := mk {
  sequence_id : Z;
  humanoid_body_part : Z;
  robot_side : Z;
  trajectory_time : float
}.
Definition init : t := mk 0 0 0 0.
End GoHomeMessage.

(** ** Message parameters

    The struct [IHMCMessageParameters] of [ihmc_msg_utilities.h], with the
    members that the two translation units read or write. *)

Module IHMCArmParams.
Record t := mk { force_execution : bool }.
End IHMCArmParams.

Module IHMCFrameParams.
Record t := mk {
  trajectory_reference_frame_id_pelviszup : Z;
  trajectory_reference_frame_id_world : Z;
  data_reference_frame_id_world : Z
}.
End IHMCFrameParams.

Module IHMCOneDoFJointParams.
Record t := mk { weight : float }.
End IHMCOneDoFJointParams.

Module IHMCPelvisParams.
Record t := mk {
  force_execution : bool;
  enable_user_pelvis_control : bool;
  enable_user_pelvis_control_during_walking : bool
}.
End IHMCPelvisParams.

Module IHMCQueueableParams.
Record t := mk {
  execution_mode : Z;
  message_id : Z;
  previous_message_id : Z;
  stream_integration_duration : float
}.
End IHMCQueueableParams.

Module IHMCSE3SO3Params.
Record t := mk { use_custom_control_frame : bool }.
End IHMCSE3SO3Params.

Module IHMCSelectionMatrixParams.
Record t := mk {
  selection_frame_id : Z;
  x_selected : bool; y_selected : bool; z_selected : bool
}.
End IHMCSelectionMatrixParams.

Module IHMCWeightMatrixParams.
Record t := mk {
  weight_frame_id : Z;
  x_weight : float; y_weight : float; z_weight : float
}.
End IHMCWeightMatrixParams.

Module IHMCTrajectoryPointParams.
Record t := mk { time : float }.
End IHMCTrajectoryPointParams.

Module IHMCGoHomeParams.
Record t := mk { trajectory_time : float }.
End IHMCGoHomeParams.

Module IHMCMessageParameters.
Record t := mk {
  sequence_id : Z;
  controlled_links : list Z;
  arm_params : IHMCArmParams.t;
  frame_params : IHMCFrameParams.t;
  onedof_joint_params : IHMCOneDoFJointParams.t;
  pelvis_params : IHMCPelvisParams.t;
  queueable_params : IHMCQueueableParams.t;
  se3so3_params : IHMCSE3SO3Params.t;
  selection_matrix_params : IHMCSelectionMatrixParams.t;
  weight_matrix_params : IHMCWeightMatrixParams.t;
  traj_point_params : IHMCTrajectoryPointParams.t;
  go_home_params : IHMCGoHomeParams.t
}.

(** Assignments to single members, as [publishWholeBodyMessage] makes them. *)
Definition set_controlled_links (l : list Z) (p : t) : t :=
  mk (sequence_id p) l (arm_params p) (frame_params p)
     (onedof_joint_params p) (pelvis_params p) (queueable_params p)
     (se3so3_params p) (selection_matrix_params p) (weight_matrix_params p)
     (traj_point_params p) (go_home_params p).

Definition set_queueable_params (qp : IHMCQueueableParams.t) (p : t) : t :=
  mk (sequence_id p) (controlled_links p) (arm_params p) (frame_params p)
     (onedof_joint_params p) (pelvis_params p) qp
     (se3so3_params p) (selection_matrix_params p) (weight_matrix_params p)
     (traj_point_params p) (go_home_params p).

Definition set_execution_mode (m : Z) (p : t) : t :=
  let qp := queueable_params p in
  set_queueable_params
    (IHMCQueueableParams.mk m (IHMCQueueableParams.message_id qp)
       (IHMCQueueableParams.previous_message_id qp)
       (IHMCQueueableParams.stream_integration_duration qp)) p.

Definition set_stream_integration_duration (d : float) (p : t) : t :=
  let qp := queueable_params p in
  set_queueable_params
    (IHMCQueueableParams.mk (IHMCQueueableParams.execution_mode qp)
       (IHMCQueueableParams.message_id qp)
       (IHMCQueueableParams.previous_message_id qp) d) p.

Definition set_time (tm : float) (p : t) : t :=
  mk (sequence_id p) (controlled_links p) (arm_params p) (frame_params p)
     (onedof_joint_params p) (pelvis_params p) (queueable_params p)
     (se3so3_params p) (selection_matrix_params p) (weight_matrix_params p)
     (IHMCTrajectoryPointParams.mk tm) (go_home_params p).
End IHMCMessageParameters.

(** The member initialisers of [IHMCMessageParameters], which
    [ihmc_msg_utilities.h] gives and the two translation units only use
    through a default-constructed [msg_params]. *)
Class MessageDefaults := {
  msg_params_default : IHMCMessageParameters.t
}.

(** ** [ROSMsgUtils] *)

Module ROSMsgUtils.
(** Modelled from the spec: [ROSMsgUtils::makePointMessage] is declared in a
    header that is not among the sources; the trajectory point reproduces the
    given position exactly. *)
Definition makePointMessage (pos : Vect3) (msg : Point.t) : Point.t :=
  Point.mk (v_x pos) (v_y pos) (v_z pos).

(** Modelled from the spec: [ROSMsgUtils::makeQuaternionMessage], as above
    for the orientation. *)
Definition makeQuaternionMessage (quat : Quaternion) (msg : QuaternionMsg.t)
  : QuaternionMsg.t :=
  QuaternionMsg.mk (q_x quat) (q_y quat) (q_z quat) (q_w quat).

(** Modelled from the spec: [ROSMsgUtils::makeZeroVector3Message]; linear and
    angular velocity of every trajectory point are zero. *)
Definition makeZeroVector3Message (msg : Vector3.t) : Vector3.t :=
  Vector3.mk 0 0 0.

(** Modelled from the spec: [ROSMsgUtils::makeZeroPoseMessage]; the source
    says it sets the pose to all zeros. *)
Definition makeZeroPoseMessage (msg : Pose.t) : Pose.t :=
  Pose.mk (Point.mk 0 0 0) (QuaternionMsg.mk 0 0 0 0).
End ROSMsgUtils.

(** ** [IHMCMsgUtils]: ihmc_msg_utilities.cpp *)

Module IHMCMsgUtils.
Section Utilities.
Context `{V : ValkyrieDefinition} `{C : Collaborators}.

Import IHMCMessageParameters.

(** One reading of the system clock. *)
Definition system_clock : timed Z :=
  fun k => Done (system_clock_now k, S k).

Definition makeIHMCFrameInformationMessage
    (frame_msg : FrameInformation.t)
    (trajectory_reference_frame_id data_reference_frame_id : Z)
    (msg_params : IHMCMessageParameters.t) : FrameInformation.t :=
  FrameInformation.mk (sequence_id msg_params)
    trajectory_reference_frame_id data_reference_frame_id.

Definition makeIHMCQueueableMessage (q_msg : QueueableMessage.t)
    (msg_params : IHMCMessageParameters.t) : timed QueueableMessage.t :=
  let qp := queueable_params msg_params in
  let mode := IHMCQueueableParams.execution_mode qp in
  let previous :=
    (* if queueing messages, set previous message id *)
    if mode =? 1 then IHMCQueueableParams.previous_message_id qp
    else QueueableMessage.previous_message_id q_msg in
  let duration :=
    (* if streaming messages, set integration duration *)
    if mode =? 2 then IHMCQueueableParams.stream_integration_duration qp
    else QueueableMessage.stream_integration_duration q_msg in
  (let! t := system_clock in
   tret (QueueableMessage.mk (sequence_id msg_params)
           (narrow8 byte_fields_signed mode)
           (IHMCQueueableParams.message_id qp) previous duration t))%timed.

Definition makeIHMCTrajectoryPoint1DMessage (q_joint : float)
    (point_msg : TrajectoryPoint1DMessage.t)
    (msg_params : IHMCMessageParameters.t) : TrajectoryPoint1DMessage.t :=
  TrajectoryPoint1DMessage.mk (sequence_id msg_params)
    (IHMCTrajectoryPointParams.time (traj_point_params msg_params))
    q_joint 0.

Definition makeIHMCOneDoFJointTrajectoryMessage (q_joint : float)
    (j_msg : OneDoFJointTrajectoryMessage.t)
    (msg_params : IHMCMessageParameters.t) : OneDoFJointTrajectoryMessage.t :=
  let point_msg :=
    makeIHMCTrajectoryPoint1DMessage q_joint TrajectoryPoint1DMessage.init
      msg_params in
  OneDoFJointTrajectoryMessage.mk (sequence_id msg_params)
    (IHMCOneDoFJointParams.weight (onedof_joint_params msg_params))
    ([] ++ [point_msg]).

Definition makeIHMCJointspaceTrajectoryMessage (q_joints : Vector)
    (js_msg : JointspaceTrajectoryMessage.t)
    (msg_params : IHMCMessageParameters.t)
  : timed JointspaceTrajectoryMessage.t :=
  (let! queueing :=
     makeIHMCQueueableMessage
       (JointspaceTrajectoryMessage.queueing_properties js_msg) msg_params in
   (* one OneDoFJointTrajectoryMessage per joint, pushed back in order *)
   tret (JointspaceTrajectoryMessage.mk (sequence_id msg_params) queueing
           (map (fun q_joint =>
                   makeIHMCOneDoFJointTrajectoryMessage q_joint
                     OneDoFJointTrajectoryMessage.init msg_params)
                q_joints)))%timed.

Definition makeIHMCArmTrajectoryMessage (q_joints : Vector)
    (arm_msg : ArmTrajectoryMessage.t) (robot_side : Z)
    (msg_params : IHMCMessageParameters.t) : timed ArmTrajectoryMessage.t :=
  (let! js :=
     makeIHMCJointspaceTrajectoryMessage q_joints
       (ArmTrajectoryMessage.jointspace_trajectory arm_msg) msg_params in
   tret (ArmTrajectoryMessage.mk (sequence_id msg_params)
           (narrow8 byte_fields_signed robot_side)
           (IHMCArmParams.force_execution (arm_params msg_params)) js))%timed.

Definition makeIHMCNeckTrajectoryMessage (q_joints : Vector)
    (neck_msg : NeckTrajectoryMessage.t)
    (msg_params : IHMCMessageParameters.t) : timed NeckTrajectoryMessage.t :=
  (let! js :=
     makeIHMCJointspaceTrajectoryMessage q_joints
       (NeckTrajectoryMessage.jointspace_trajectory neck_msg) msg_params in
   tret (NeckTrajectoryMessage.mk (sequence_id msg_params) js))%timed.

Definition makeIHMCSpineTrajectoryMessage (q_joints : Vector)
    (spine_msg : SpineTrajectoryMessage.t)
    (msg_params : IHMCMessageParameters.t) : timed SpineTrajectoryMessage.t :=
  (let! js :=
     makeIHMCJointspaceTrajectoryMessage q_joints
       (SpineTrajectoryMessage.jointspace_trajectory spine_msg) msg_params in
   tret (SpineTrajectoryMessage.mk (sequence_id msg_params) js))%timed.

Definition makeIHMCSelectionMatrix3DMessage
    (selmat_msg : SelectionMatrix3DMessage.t)
    (msg_params : IHMCMessageParameters.t) : SelectionMatrix3DMessage.t :=
  let sp := selection_matrix_params msg_params in
  SelectionMatrix3DMessage.mk (sequence_id msg_params)
    (IHMCSelectionMatrixParams.selection_frame_id sp)
    (IHMCSelectionMatrixParams.x_selected sp)
    (IHMCSelectionMatrixParams.y_selected sp)
    (IHMCSelectionMatrixParams.z_selected sp).

Definition makeIHMCWeightMatrix3DMessage
    (wmat_msg : WeightMatrix3DMessage.t)
    (msg_params : IHMCMessageParameters.t) : WeightMatrix3DMessage.t :=
  let wp := weight_matrix_params msg_params in
  WeightMatrix3DMessage.mk (sequence_id msg_params)
    (IHMCWeightMatrixParams.weight_frame_id wp)
    (IHMCWeightMatrixParams.x_weight wp)
    (IHMCWeightMatrixParams.y_weight wp)
    (IHMCWeightMatrixParams.z_weight wp).

Definition makeIHMCSE3TrajectoryPointMessage (pos : Vect3) (quat : Quaternion)
    (se3_point_msg : SE3TrajectoryPointMessage.t)
    (msg_params : IHMCMessageParameters.t) : SE3TrajectoryPointMessage.t :=
  SE3TrajectoryPointMessage.mk (sequence_id msg_params)
    (IHMCTrajectoryPointParams.time (traj_point_params msg_params))
    (ROSMsgUtils.makePointMessage pos
       (SE3TrajectoryPointMessage.position se3_point_msg))
    (ROSMsgUtils.makeQuaternionMessage quat
       (SE3TrajectoryPointMessage.orientation se3_point_msg))
    (ROSMsgUtils.makeZeroVector3Message
       (SE3TrajectoryPointMessage.linear_velocity se3_point_msg))
    (ROSMsgUtils.makeZeroVector3Message
       (SE3TrajectoryPointMessage.angular_velocity se3_point_msg)).

Definition makeIHMCSO3TrajectoryPointMessage (quat : Quaternion)
    (so3_point_msg : SO3TrajectoryPointMessage.t)
    (msg_params : IHMCMessageParameters.t) : SO3TrajectoryPointMessage.t :=
  SO3TrajectoryPointMessage.mk (sequence_id msg_params)
    (IHMCTrajectoryPointParams.time (traj_point_params msg_params))
    (ROSMsgUtils.makeQuaternionMessage quat
       (SO3TrajectoryPointMessage.orientation so3_point_msg))
    (ROSMsgUtils.makeZeroVector3Message
       (SO3TrajectoryPointMessage.angular_velocity so3_point_msg)).

Definition makeIHMCSE3TrajectoryMessage (pos : Vect3) (quat : Quaternion)
    (se3_msg : SE3TrajectoryMessage.t)
    (trajectory_reference_frame_id data_reference_frame_id : Z)
    (msg_params : IHMCMessageParameters.t) : timed SE3TrajectoryMessage.t :=
  (let! queueing :=
     makeIHMCQueueableMessage
       (SE3TrajectoryMessage.queueing_properties se3_msg) msg_params in
   let se3_point_msg :=
     makeIHMCSE3TrajectoryPointMessage pos quat
       SE3TrajectoryPointMessage.init msg_params in
   tret (SE3TrajectoryMessage.mk (sequence_id msg_params)
           (IHMCSE3SO3Params.use_custom_control_frame
              (se3so3_params msg_params))
           (ROSMsgUtils.makeZeroPoseMessage
              (SE3TrajectoryMessage.control_frame_pose se3_msg))
           queueing
           (makeIHMCFrameInformationMessage
              (SE3TrajectoryMessage.frame_information se3_msg)
              trajectory_reference_frame_id data_reference_frame_id
              msg_params)
           (makeIHMCSelectionMatrix3DMessage
              (SE3TrajectoryMessage.angular_selection_matrix se3_msg)
              msg_params)
           (makeIHMCSelectionMatrix3DMessage
              (SE3TrajectoryMessage.linear_selection_matrix se3_msg)
              msg_params)
           (makeIHMCWeightMatrix3DMessage
              (SE3TrajectoryMessage.angular_weight_matrix se3_msg)
              msg_params)
           (makeIHMCWeightMatrix3DMessage
              (SE3TrajectoryMessage.linear_weight_matrix se3_msg)
              msg_params)
           ([] ++ [se3_point_msg])))%timed.

Definition makeIHMCSO3TrajectoryMessage (quat : Quaternion)
    (so3_msg : SO3TrajectoryMessage.t)
    (trajectory_reference_frame_id data_reference_frame_id : Z)
    (msg_params : IHMCMessageParameters.t) : timed SO3TrajectoryMessage.t :=
  (let! queueing :=
     makeIHMCQueueableMessage
       (SO3TrajectoryMessage.queueing_properties so3_msg) msg_params in
   let so3_point_msg :=
     makeIHMCSO3TrajectoryPointMessage quat
       SO3TrajectoryPointMessage.init msg_params in
   tret (SO3TrajectoryMessage.mk (sequence_id msg_params)
           (IHMCSE3SO3Params.use_custom_control_frame
              (se3so3_params msg_params))
           (ROSMsgUtils.makeZeroPoseMessage
              (SO3TrajectoryMessage.control_frame_pose so3_msg))
           queueing
           (makeIHMCFrameInformationMessage
              (SO3TrajectoryMessage.frame_information so3_msg)
              trajectory_reference_frame_id data_reference_frame_id
              msg_params)
           (makeIHMCSelectionMatrix3DMessage
              (SO3TrajectoryMessage.selection_matrix so3_msg) msg_params)
           (makeIHMCWeightMatrix3DMessage
              (SO3TrajectoryMessage.weight_matrix so3_msg) msg_params)
           ([] ++ [so3_point_msg])))%timed.

Definition makeIHMCChestTrajectoryMessage (quat : Quaternion)
    (chest_msg : ChestTrajectoryMessage.t)
    (msg_params : IHMCMessageParameters.t) : timed ChestTrajectoryMessage.t :=
  let fp := frame_params msg_params in
  (let! so3 :=
     makeIHMCSO3TrajectoryMessage quat
       (ChestTrajectoryMessage.so3_trajectory chest_msg)
       (IHMCFrameParams.trajectory_reference_frame_id_pelviszup fp)
       (IHMCFrameParams.data_reference_frame_id_world fp) msg_params in
   tret (ChestTrajectoryMessage.mk (sequence_id msg_params) so3))%timed.

Definition makeIHMCFootTrajectoryMessage (pos : Vect3) (quat : Quaternion)
    (foot_msg : FootTrajectoryMessage.t) (robot_side : Z)
    (msg_params : IHMCMessageParameters.t) : timed FootTrajectoryMessage.t :=
  let fp := frame_params msg_params in
  (let! se3 :=
     makeIHMCSE3TrajectoryMessage pos quat
       (FootTrajectoryMessage.se3_trajectory foot_msg)
       (IHMCFrameParams.trajectory_reference_frame_id_world fp)
       (IHMCFrameParams.data_reference_frame_id_world fp) msg_params in
   tret (FootTrajectoryMessage.mk (sequence_id msg_params)
           (narrow8 byte_fields_signed robot_side) se3))%timed.

(** *** Helper functions *)

(** The loop of [selectRelevantJointsConfiguration]: [i] is the loop counter,
    [rest] the indices from position [i] on. *)
Fixpoint selectRelevantJoints_loop (q : Vector) (i : nat) (rest : list Z)
    (q_joints : Vector) : outcome Vector :=
  match rest with
  | [] => Done q_joints
  | idx :: rest' =>
      (let! x :=
         (* special index -1: joint not in the valkyrie definition *)
         (if idx =? -1 then Done 0%float else coeff q idx) in
       let! q_joints' := set_coeff q_joints (Z.of_nat i) x in
       selectRelevantJoints_loop q (S i) rest' q_joints')%outcome
  end.

Definition selectRelevantJointsConfiguration (q : Vector)
    (joint_indices : list Z) : outcome Vector :=
  selectRelevantJoints_loop q 0 joint_indices
    (resize_setZero (Z.of_nat (length joint_indices))).

Definition getRelevantJointIndicesPelvis : list Z :=
  [] ++ [virtual_X] ++ [virtual_Y] ++ [virtual_Z]
     ++ [virtual_Rx] ++ [virtual_Ry] ++ [virtual_Rz] ++ [virtual_Rw].

Definition getRelevantJointIndicesTorso : list Z :=
  [] ++ [torsoYaw] ++ [torsoPitch] ++ [torsoRoll].

Definition getRelevantJointIndicesLeftArm : list Z :=
  [] ++ [leftShoulderPitch] ++ [leftShoulderRoll] ++ [leftShoulderYaw]
     ++ [leftElbowPitch] ++ [leftForearmYaw]
     (* special joint index for the left wrist *)
     ++ [-1] ++ [-1].

Definition getRelevantJointIndicesNeck : list Z :=
  [] ++ [lowerNeckPitch] ++ [neckYaw] ++ [upperNeckPitch].

Definition getRelevantJointIndicesRightArm : list Z :=
  [] ++ [rightShoulderPitch] ++ [rightShoulderRoll] ++ [rightShoulderYaw]
     ++ [rightElbowPitch] ++ [rightForearmYaw]
     (* special joint index for the right wrist *)
     ++ [-1] ++ [-1].

Definition getChestOrientation (q : Vector) : Quaternion :=
  let qdot := resize_setZero num_qdot in
  Valkyrie_Model_getOri q qdot link_torso.

Definition getPelvisPose (q_joints : Vector) : outcome (Vect3 * Quaternion) :=
  (let! p0 := coeff q_joints 0 in
   let! p1 := coeff q_joints 1 in
   let! p2 := coeff q_joints 2 in
   let! r3 := coeff q_joints 3 in
   let! r4 := coeff q_joints 4 in
   let! r5 := coeff q_joints 5 in
   let! r6 := coeff q_joints 6 in
   Done (mkVect3 p0 p1 p2, mkQuaternion r3 r4 r5 r6))%outcome.

Definition checkControlledLink (controlled_links : list Z) (link_id : Z)
  : bool :=
  bool_decide (link_id ∈ controlled_links).

Definition makeIHMCPelvisTrajectoryMessage (q_joints : Vector)
    (pelvis_msg : PelvisTrajectoryMessage.t)
    (msg_params : IHMCMessageParameters.t)
  : timed PelvisTrajectoryMessage.t :=
  let pp := pelvis_params msg_params in
  let fp := frame_params msg_params in
  (let! pose := lift (getPelvisPose q_joints) in
   let pelvis_pos := fst pose in
   let pelvis_quat := snd pose in
   let! se3 :=
     makeIHMCSE3TrajectoryMessage pelvis_pos pelvis_quat
       (PelvisTrajectoryMessage.se3_trajectory pelvis_msg)
       (IHMCFrameParams.trajectory_reference_frame_id_world fp)
       (IHMCFrameParams.data_reference_frame_id_world fp) msg_params in
   tret (PelvisTrajectoryMessage.mk (sequence_id msg_params)
           (IHMCPelvisParams.force_execution pp)
           (IHMCPelvisParams.enable_user_pelvis_control pp)
           (IHMCPelvisParams.enable_user_pelvis_control_during_walking pp)
           se3))%timed.

(** *** The whole-body message

    Spine and feet keep what the message held: their assembly is commented
    out in the source. *)
Definition makeIHMCWholeBodyTrajectoryMessage (q : Vector)
    (wholebody_msg : WholeBodyTrajectoryMessage.t)
    (msg_params : IHMCMessageParameters.t)
  : timed WholeBodyTrajectoryMessage.t :=
  let links := controlled_links msg_params in
  let control_pelvis := checkControlledLink links link_pelvis in
  let control_chest := checkControlledLink links link_torso in
  let control_rfoot := checkControlledLink links link_rightCOP_Frame in
  let control_lfoot := checkControlledLink links link_leftCOP_Frame in
  let control_rarm := checkControlledLink links link_rightPalm in
  let control_larm := checkControlledLink links link_leftPalm in
  let control_neck := checkControlledLink links link_head in
  (let! larm :=
     (if control_larm then
        let! q_larm :=
          lift (selectRelevantJointsConfiguration q
                  getRelevantJointIndicesLeftArm) in
        makeIHMCArmTrajectoryMessage q_larm
          (WholeBodyTrajectoryMessage.left_arm_trajectory_message
             wholebody_msg) 0 msg_params
      else
        tret (WholeBodyTrajectoryMessage.left_arm_trajectory_message
                wholebody_msg)) in
   let! rarm :=
     (if control_rarm then
        let! q_rarm :=
          lift (selectRelevantJointsConfiguration q
                  getRelevantJointIndicesRightArm) in
        makeIHMCArmTrajectoryMessage q_rarm
          (WholeBodyTrajectoryMessage.right_arm_trajectory_message
             wholebody_msg) 1 msg_params
      else
        tret (WholeBodyTrajectoryMessage.right_arm_trajectory_message
                wholebody_msg)) in
   let! chest :=
     (if control_chest then
        makeIHMCChestTrajectoryMessage (getChestOrientation q)
          (WholeBodyTrajectoryMessage.chest_trajectory_message wholebody_msg)
          msg_params
      else
        tret (WholeBodyTrajectoryMessage.chest_trajectory_message
                wholebody_msg)) in
   let! pelvis :=
     (if control_pelvis then
        let! q_pelvis :=
          lift (selectRelevantJointsConfiguration q
                  getRelevantJointIndicesPelvis) in
        makeIHMCPelvisTrajectoryMessage q_pelvis
          (WholeBodyTrajectoryMessage.pelvis_trajectory_message wholebody_msg)
          msg_params
      else
        tret (WholeBodyTrajectoryMessage.pelvis_trajectory_message
                wholebody_msg)) in
   let! neck :=
     (if control_neck then
        let! q_neck :=
          lift (selectRelevantJointsConfiguration q
                  getRelevantJointIndicesNeck) in
        makeIHMCNeckTrajectoryMessage q_neck
          (WholeBodyTrajectoryMessage.neck_trajectory_message wholebody_msg)
          msg_params
      else
        tret (WholeBodyTrajectoryMessage.neck_trajectory_message
                wholebody_msg)) in
   tret (WholeBodyTrajectoryMessage.mk (sequence_id msg_params)
           larm rarm chest
           (WholeBodyTrajectoryMessage.spine_trajectory_message wholebody_msg)
           pelvis
           (WholeBodyTrajectoryMessage.left_foot_trajectory_message
              wholebody_msg)
           (WholeBodyTrajectoryMessage.right_foot_trajectory_message
              wholebody_msg)
           neck))%timed.

(** *** Go-home messages *)

Definition makeIHMCHomeLeftArmMessage (go_home_msg : GoHomeMessage.t)
    (msg_params : IHMCMessageParameters.t) : GoHomeMessage.t :=
  GoHomeMessage.mk (GoHomeMessage.sequence_id go_home_msg)
    HUMANOID_BODY_PART_ARM ROBOT_SIDE_LEFT
    (IHMCGoHomeParams.trajectory_time (go_home_params msg_params)).

Definition makeIHMCHomeRightArmMessage (go_home_msg : GoHomeMessage.t)
    (msg_params : IHMCMessageParameters.t) : GoHomeMessage.t :=
  GoHomeMessage.mk (GoHomeMessage.sequence_id go_home_msg)
    HUMANOID_BODY_PART_ARM ROBOT_SIDE_RIGHT
    (IHMCGoHomeParams.trajectory_time (go_home_params msg_params)).

Definition makeIHMCHomeChestMessage (go_home_msg : GoHomeMessage.t)
    (msg_params : IHMCMessageParameters.t) : GoHomeMessage.t :=
  GoHomeMessage.mk (GoHomeMessage.sequence_id go_home_msg)
    HUMANOID_BODY_PART_CHEST (GoHomeMessage.robot_side go_home_msg)
    (IHMCGoHomeParams.trajectory_time (go_home_params msg_params)).

Definition makeIHMCHomePelvisMessage (go_home_msg : GoHomeMessage.t)
    (msg_params : IHMCMessageParameters.t) : GoHomeMessage.t :=
  GoHomeMessage.mk (GoHomeMessage.sequence_id go_home_msg)
    HUMANOID_BODY_PART_PELVIS (GoHomeMessage.robot_side go_home_msg)
    (IHMCGoHomeParams.trajectory_time (go_home_params msg_params)).

(** *** Vocabulary of the properties *)

(** The target of a jointspace trajectory: the positions of its trajectory
    points, joint by joint. *)
Definition jointspace_target (js_msg : JointspaceTrajectoryMessage.t)
  : list float :=
  flat_map
    (fun j_msg =>
       map TrajectoryPoint1DMessage.position
         (OneDoFJointTrajectoryMessage.trajectory_points j_msg))
    (JointspaceTrajectoryMessage.joint_trajectory_messages js_msg).

Definition jointspace_times (js_msg : JointspaceTrajectoryMessage.t)
  : list float :=
  flat_map
    (fun j_msg =>
       map TrajectoryPoint1DMessage.time
         (OneDoFJointTrajectoryMessage.trajectory_points j_msg))
    (JointspaceTrajectoryMessage.joint_trajectory_messages js_msg).

(** The queueing properties of the sub-messages that the controlled links
    select: left arm, right arm, chest, pelvis, neck. *)
Definition queueing_properties_of (msg : WholeBodyTrajectoryMessage.t)
    (links : list Z) : list QueueableMessage.t :=
  (if checkControlledLink links link_leftPalm
   then [JointspaceTrajectoryMessage.queueing_properties
           (ArmTrajectoryMessage.jointspace_trajectory
              (WholeBodyTrajectoryMessage.left_arm_trajectory_message msg))]
   else [])
  ++ (if checkControlledLink links link_rightPalm
      then [JointspaceTrajectoryMessage.queueing_properties
              (ArmTrajectoryMessage.jointspace_trajectory
                 (WholeBodyTrajectoryMessage.right_arm_trajectory_message
                    msg))]
      else [])
  ++ (if checkControlledLink links link_torso
      then [SO3TrajectoryMessage.queueing_properties
              (ChestTrajectoryMessage.so3_trajectory
                 (WholeBodyTrajectoryMessage.chest_trajectory_message msg))]
      else [])
  ++ (if checkControlledLink links link_pelvis
      then [SE3TrajectoryMessage.queueing_properties
              (PelvisTrajectoryMessage.se3_trajectory
                 (WholeBodyTrajectoryMessage.pelvis_trajectory_message msg))]
      else [])
  ++ (if checkControlledLink links link_head
      then [JointspaceTrajectoryMessage.queueing_properties
              (NeckTrajectoryMessage.jointspace_trajectory
                 (WholeBodyTrajectoryMessage.neck_trajectory_message msg))]
      else []).

(** The time of every trajectory point of a whole-body message. *)
Definition trajectory_point_times (msg : WholeBodyTrajectoryMessage.t)
  : list float :=
  jointspace_times
    (ArmTrajectoryMessage.jointspace_trajectory
       (WholeBodyTrajectoryMessage.left_arm_trajectory_message msg))
  ++ jointspace_times
       (ArmTrajectoryMessage.jointspace_trajectory
          (WholeBodyTrajectoryMessage.right_arm_trajectory_message msg))
  ++ map SO3TrajectoryPointMessage.time
       (SO3TrajectoryMessage.taskspace_trajectory_points
          (ChestTrajectoryMessage.so3_trajectory
             (WholeBodyTrajectoryMessage.chest_trajectory_message msg)))
  ++ jointspace_times
       (SpineTrajectoryMessage.jointspace_trajectory
          (WholeBodyTrajectoryMessage.spine_trajectory_message msg))
  ++ map SE3TrajectoryPointMessage.time
       (SE3TrajectoryMessage.taskspace_trajectory_points
          (PelvisTrajectoryMessage.se3_trajectory
             (WholeBodyTrajectoryMessage.pelvis_trajectory_message msg)))
  ++ map SE3TrajectoryPointMessage.time
       (SE3TrajectoryMessage.taskspace_trajectory_points
          (FootTrajectoryMessage.se3_trajectory
             (WholeBodyTrajectoryMessage.left_foot_trajectory_message msg)))
  ++ map SE3TrajectoryPointMessage.time
       (SE3TrajectoryMessage.taskspace_trajectory_points
          (FootTrajectoryMessage.se3_trajectory
             (WholeBodyTrajectoryMessage.right_foot_trajectory_message msg)))
  ++ jointspace_times
       (NeckTrajectoryMessage.jointspace_trajectory
          (WholeBodyTrajectoryMessage.neck_trajectory_message msg)).

(** A queueable message filled from the parameters: the execution mode is
    theirs, narrowed to the field; the stream integration duration is theirs
    when their mode is 2 (stream) and otherwise what the message [q_msg] held
    before. *)
Definition queueable_as_params (msg_params : IHMCMessageParameters.t)
    (q_msg out : QueueableMessage.t) : Prop :=
  let qp := queueable_params msg_params in
  QueueableMessage.execution_mode out
  = narrow8 byte_fields_signed (IHMCQueueableParams.execution_mode qp)
  /\ QueueableMessage.stream_integration_duration out
     = (if IHMCQueueableParams.execution_mode qp =? 2
        then IHMCQueueableParams.stream_integration_duration qp
        else QueueableMessage.stream_integration_duration q_msg).

End Utilities.
End IHMCMsgUtils.

(** ** Messages received by the node *)

(** [geometry_msgs::TransformStamped], the [transform] member. *)
Record TransformStamped := mkTransformStamped
  { translation : Vect3; rotation : Quaternion }.

(** [std_msgs::Int32MultiArray], the [data] member. *)
Record Int32MultiArray := mkInt32MultiArray { arr_data : list Z }.

(** [sensor_msgs::JointState], the members the node reads. *)
Record JointState := mkJointState
  { name : list string; position : list float }.

(** ** [IHMCInterfaceNode]: ihmc_interface_node.cpp

    The members of the class that take part in the computation.  The two
    publishers are the sequences of messages handed to them so far; topic
    names and subscribers belong to the transport and are left out. *)

Module IHMCInterfaceNode.
Record t := mk {
  commands_from_controllers_ : bool;
  tf_pelvis_wrt_world_ : tf_Transform;
  controlled_links_ : list Z;
  q_joint_ : Vector;
  q_ : Vector;
  status_ : string;
  receive_pelvis_transform_ : bool;
  received_pelvis_transform_ : bool;
  receive_link_ids_ : bool;
  received_link_ids_ : bool;
  receive_joint_command_ : bool;
  received_joint_command_ : bool;
  publish_commands_ : bool;
  stop_node_ : bool;
  home_left_arm_ : bool;
  home_right_arm_ : bool;
  home_chest_ : bool;
  home_pelvis_ : bool;
  publish_go_home_command_ : bool;
  wholebody_pub_ : list WholeBodyTrajectoryMessage.t;
  go_home_pub_ : list GoHomeMessage.t
}.

(** Assignment to one member. *)
Definition set_tf_pelvis_wrt_world_ (v : tf_Transform) (n : t) : t :=
  mk (commands_from_controllers_ n) v (controlled_links_ n) (q_joint_ n)
    (q_ n) (status_ n) (receive_pelvis_transform_ n)
    (received_pelvis_transform_ n) (receive_link_ids_ n)
    (received_link_ids_ n) (receive_joint_command_ n)
    (received_joint_command_ n) (publish_commands_ n) (stop_node_ n)
    (home_left_arm_ n) (home_right_arm_ n) (home_chest_ n) (home_pelvis_ n)
    (publish_go_home_command_ n) (wholebody_pub_ n) (go_home_pub_ n).

Definition set_controlled_links_ (v : list Z) (n : t) : t :=
  mk (commands_from_controllers_ n) (tf_pelvis_wrt_world_ n) v (q_joint_ n)
    (q_ n) (status_ n) (receive_pelvis_transform_ n)
    (received_pelvis_transform_ n) (receive_link_ids_ n)
    (received_link_ids_ n) (receive_joint_command_ n)
    (received_joint_command_ n) (publish_commands_ n) (stop_node_ n)
    (home_left_arm_ n) (home_right_arm_ n) (home_chest_ n) (home_pelvis_ n)
    (publish_go_home_command_ n) (wholebody_pub_ n) (go_home_pub_ n).

Definition set_q_joint_ (v : Vector) (n : t) : t :=
  mk (commands_from_controllers_ n) (tf_pelvis_wrt_world_ n)
    (controlled_links_ n) v (q_ n) (status_ n) (receive_pelvis_transform_ n)
    (received_pelvis_transform_ n) (receive_link_ids_ n)
    (received_link_ids_ n) (receive_joint_command_ n)
    (received_joint_command_ n) (publish_commands_ n) (stop_node_ n)
    (home_left_arm_ n) (home_right_arm_ n) (home_chest_ n) (home_pelvis_ n)
    (publish_go_home_command_ n) (wholebody_pub_ n) (go_home_pub_ n).

Definition set_q_ (v : Vector) (n : t) : t :=
  mk (commands_from_controllers_ n) (tf_pelvis_wrt_world_ n)
    (controlled_links_ n) (q_joint_ n) v (status_ n)
    (receive_pelvis_transform_ n) (received_pelvis_transform_ n)
    (receive_link_ids_ n) (received_link_ids_ n) (receive_joint_command_ n)
    (received_joint_command_ n) (publish_commands_ n) (stop_node_ n)
    (home_left_arm_ n) (home_right_arm_ n) (home_chest_ n) (home_pelvis_ n)
    (publish_go_home_command_ n) (wholebody_pub_ n) (go_home_pub_ n).

Definition set_status_ (v : string) (n : t) : t :=
  mk (commands_from_controllers_ n) (tf_pelvis_wrt_world_ n)
    (controlled_links_ n) (q_joint_ n) (q_ n) v
    (receive_pelvis_transform_ n) (received_pelvis_transform_ n)
    (receive_link_ids_ n) (received_link_ids_ n) (receive_joint_command_ n)
    (received_joint_command_ n) (publish_commands_ n) (stop_node_ n)
    (home_left_arm_ n) (home_right_arm_ n) (home_chest_ n) (home_pelvis_ n)
    (publish_go_home_command_ n) (wholebody_pub_ n) (go_home_pub_ n).

Definition set_receive_pelvis_transform_ (v : bool) (n : t) : t :=
  mk (commands_from_controllers_ n) (tf_pelvis_wrt_world_ n)
    (controlled_links_ n) (q_joint_ n) (q_ n) (status_ n) v
    (received_pelvis_transform_ n) (receive_link_ids_ n)
    (received_link_ids_ n) (receive_joint_command_ n)
    (received_joint_command_ n) (publish_commands_ n) (stop_node_ n)
    (home_left_arm_ n) (home_right_arm_ n) (home_chest_ n) (home_pelvis_ n)
    (publish_go_home_command_ n) (wholebody_pub_ n) (go_home_pub_ n).

Definition set_received_pelvis_transform_ (v : bool) (n : t) : t :=
  mk (commands_from_controllers_ n) (tf_pelvis_wrt_world_ n)
    (controlled_links_ n) (q_joint_ n) (q_ n) (status_ n)
    (receive_pelvis_transform_ n) v (receive_link_ids_ n)
    (received_link_ids_ n) (receive_joint_command_ n)
    (received_joint_command_ n) (publish_commands_ n) (stop_node_ n)
    (home_left_arm_ n) (home_right_arm_ n) (home_chest_ n) (home_pelvis_ n)
    (publish_go_home_command_ n) (wholebody_pub_ n) (go_home_pub_ n).

Definition set_receive_link_ids_ (v : bool) (n : t) : t :=
  mk (commands_from_controllers_ n) (tf_pelvis_wrt_world_ n)
    (controlled_links_ n) (q_joint_ n) (q_ n) (status_ n)
    (receive_pelvis_transform_ n) (received_pelvis_transform_ n) v
    (received_link_ids_ n) (receive_joint_command_ n)
    (received_joint_command_ n) (publish_commands_ n) (stop_node_ n)
    (home_left_arm_ n) (home_right_arm_ n) (home_chest_ n) (home_pelvis_ n)
    (publish_go_home_command_ n) (wholebody_pub_ n) (go_home_pub_ n).

Definition set_received_link_ids_ (v : bool) (n : t) : t :=
  mk (commands_from_controllers_ n) (tf_pelvis_wrt_world_ n)
    (controlled_links_ n) (q_joint_ n) (q_ n) (status_ n)
    (receive_pelvis_transform_ n) (received_pelvis_transform_ n)
    (receive_link_ids_ n) v (receive_joint_command_ n)
    (received_joint_command_ n) (publish_commands_ n) (stop_node_ n)
    (home_left_arm_ n) (home_right_arm_ n) (home_chest_ n) (home_pelvis_ n)
    (publish_go_home_command_ n) (wholebody_pub_ n) (go_home_pub_ n).

Definition set_receive_joint_command_ (v : bool) (n : t) : t :=
  mk (commands_from_controllers_ n) (tf_pelvis_wrt_world_ n)
    (controlled_links_ n) (q_joint_ n) (q_ n) (status_ n)
    (receive_pelvis_transform_ n) (received_pelvis_transform_ n)
    (receive_link_ids_ n) (received_link_ids_ n) v
    (received_joint_command_ n) (publish_commands_ n) (stop_node_ n)
    (home_left_arm_ n) (home_right_arm_ n) (home_chest_ n) (home_pelvis_ n)
    (publish_go_home_command_ n) (wholebody_pub_ n) (go_home_pub_ n).

Definition set_received_joint_command_ (v : bool) (n : t) : t :=
  mk (commands_from_controllers_ n) (tf_pelvis_wrt_world_ n)
    (controlled_links_ n) (q_joint_ n) (q_ n) (status_ n)
    (receive_pelvis_transform_ n) (received_pelvis_transform_ n)
    (receive_link_ids_ n) (received_link_ids_ n) (receive_joint_command_ n)
    v (publish_commands_ n) (stop_node_ n) (home_left_arm_ n)
    (home_right_arm_ n) (home_chest_ n) (home_pelvis_ n)
    (publish_go_home_command_ n) (wholebody_pub_ n) (go_home_pub_ n).

Definition set_publish_commands_ (v : bool) (n : t) : t :=
  mk (commands_from_controllers_ n) (tf_pelvis_wrt_world_ n)
    (controlled_links_ n) (q_joint_ n) (q_ n) (status_ n)
    (receive_pelvis_transform_ n) (received_pelvis_transform_ n)
    (receive_link_ids_ n) (received_link_ids_ n) (receive_joint_command_ n)
    (received_joint_command_ n) v (stop_node_ n) (home_left_arm_ n)
    (home_right_arm_ n) (home_chest_ n) (home_pelvis_ n)
    (publish_go_home_command_ n) (wholebody_pub_ n) (go_home_pub_ n).

Definition set_stop_node_ (v : bool) (n : t) : t :=
  mk (commands_from_controllers_ n) (tf_pelvis_wrt_world_ n)
    (controlled_links_ n) (q_joint_ n) (q_ n) (status_ n)
    (receive_pelvis_transform_ n) (received_pelvis_transform_ n)
    (receive_link_ids_ n) (received_link_ids_ n) (receive_joint_command_ n)
    (received_joint_command_ n) (publish_commands_ n) v (home_left_arm_ n)
    (home_right_arm_ n) (home_chest_ n) (home_pelvis_ n)
    (publish_go_home_command_ n) (wholebody_pub_ n) (go_home_pub_ n).

Definition set_home_left_arm_ (v : bool) (n : t) : t :=
  mk (commands_from_controllers_ n) (tf_pelvis_wrt_world_ n)
    (controlled_links_ n) (q_joint_ n) (q_ n) (status_ n)
    (receive_pelvis_transform_ n) (received_pelvis_transform_ n)
    (receive_link_ids_ n) (received_link_ids_ n) (receive_joint_command_ n)
    (received_joint_command_ n) (publish_commands_ n) (stop_node_ n) v
    (home_right_arm_ n) (home_chest_ n) (home_pelvis_ n)
    (publish_go_home_command_ n) (wholebody_pub_ n) (go_home_pub_ n).

Definition set_home_right_arm_ (v : bool) (n : t) : t :=
  mk (commands_from_controllers_ n) (tf_pelvis_wrt_world_ n)
    (controlled_links_ n) (q_joint_ n) (q_ n) (status_ n)
    (receive_pelvis_transform_ n) (received_pelvis_transform_ n)
    (receive_link_ids_ n) (received_link_ids_ n) (receive_joint_command_ n)
    (received_joint_command_ n) (publish_commands_ n) (stop_node_ n)
    (home_left_arm_ n) v (home_chest_ n) (home_pelvis_ n)
    (publish_go_home_command_ n) (wholebody_pub_ n) (go_home_pub_ n).

Definition set_home_chest_ (v : bool) (n : t) : t :=
  mk (commands_from_controllers_ n) (tf_pelvis_wrt_world_ n)
    (controlled_links_ n) (q_joint_ n) (q_ n) (status_ n)
    (receive_pelvis_transform_ n) (received_pelvis_transform_ n)
    (receive_link_ids_ n) (received_link_ids_ n) (receive_joint_command_ n)
    (received_joint_command_ n) (publish_commands_ n) (stop_node_ n)
    (home_left_arm_ n) (home_right_arm_ n) v (home_pelvis_ n)
    (publish_go_home_command_ n) (wholebody_pub_ n) (go_home_pub_ n).

Definition set_home_pelvis_ (v : bool) (n : t) : t :=
  mk (commands_from_controllers_ n) (tf_pelvis_wrt_world_ n)
    (controlled_links_ n) (q_joint_ n) (q_ n) (status_ n)
    (receive_pelvis_transform_ n) (received_pelvis_transform_ n)
    (receive_link_ids_ n) (received_link_ids_ n) (receive_joint_command_ n)
    (received_joint_command_ n) (publish_commands_ n) (stop_node_ n)
    (home_left_arm_ n) (home_right_arm_ n) (home_chest_ n) v
    (publish_go_home_command_ n) (wholebody_pub_ n) (go_home_pub_ n).

Definition set_publish_go_home_command_ (v : bool) (n : t) : t :=
  mk (commands_from_controllers_ n) (tf_pelvis_wrt_world_ n)
    (controlled_links_ n) (q_joint_ n) (q_ n) (status_ n)
    (receive_pelvis_transform_ n) (received_pelvis_transform_ n)
    (receive_link_ids_ n) (received_link_ids_ n) (receive_joint_command_ n)
    (received_joint_command_ n) (publish_commands_ n) (stop_node_ n)
    (home_left_arm_ n) (home_right_arm_ n) (home_chest_ n) (home_pelvis_ n)
    v (wholebody_pub_ n) (go_home_pub_ n).

Definition set_wholebody_pub_ (v : list WholeBodyTrajectoryMessage.t) (n : t) : t :=
  mk (commands_from_controllers_ n) (tf_pelvis_wrt_world_ n)
    (controlled_links_ n) (q_joint_ n) (q_ n) (status_ n)
    (receive_pelvis_transform_ n) (received_pelvis_transform_ n)
    (receive_link_ids_ n) (received_link_ids_ n) (receive_joint_command_ n)
    (received_joint_command_ n) (publish_commands_ n) (stop_node_ n)
    (home_left_arm_ n) (home_right_arm_ n) (home_chest_ n) (home_pelvis_ n)
    (publish_go_home_command_ n) v (go_home_pub_ n).

Definition set_go_home_pub_ (v : list GoHomeMessage.t) (n : t) : t :=
  mk (commands_from_controllers_ n) (tf_pelvis_wrt_world_ n)
    (controlled_links_ n) (q_joint_ n) (q_ n) (status_ n)
    (receive_pelvis_transform_ n) (received_pelvis_transform_ n)
    (receive_link_ids_ n) (received_link_ids_ n) (receive_joint_command_ n)
    (received_joint_command_ n) (publish_commands_ n) (stop_node_ n)
    (home_left_arm_ n) (home_right_arm_ n) (home_chest_ n) (home_pelvis_ n)
    (publish_go_home_command_ n) (wholebody_pub_ n) v.

Section Node.
Context `{V : ValkyrieDefinition} `{C : Collaborators} `{D : MessageDefaults}.

(** *** Derived flags *)

Definition getStatus (n : t) : string := status_ n.

Definition getCommandsFromControllersFlag (n : t) : bool :=
  commands_from_controllers_ n.

Definition getPublishCommandsFlag (n : t) : bool := publish_commands_ n.

Definition updatePublishCommandsFlag (n : t) : t :=
  set_publish_commands_
    (received_pelvis_transform_ n && received_link_ids_ n
       && received_joint_command_ n) n.

Definition getStopNodeFlag (n : t) : bool := stop_node_ n.

Definition updateStopNodeFlag (n : t) : t :=
  set_stop_node_
    (negb (receive_pelvis_transform_ n) && negb (receive_joint_command_ n)) n.

Definition getPublishGoHomeCommandFlag (n : t) : bool :=
  publish_go_home_command_ n.

Definition updatePublishGoHomeCommandFlag (n : t) : t :=
  set_publish_go_home_command_
    (home_left_arm_ n || home_right_arm_ n || home_chest_ n
       || home_pelvis_ n) n.

(** *** Constructor

    [commands_from_controllers] is the value of the node parameter of that
    name and [tf0] what the default-constructed [tf::Transform] member
    holds.  The vectors start empty; every flag is assigned in the body. *)
Definition constructor (commands_from_controllers : bool)
    (tf0 : tf_Transform) : t :=
  let n :=
    mk commands_from_controllers tf0 [] [] [] ""
       false false false false false false false false
       false false false false false [] [] in
  let n :=
    if commands_from_controllers_ n then
      let n := set_receive_pelvis_transform_ false n in
      let n := set_receive_joint_command_ false n in
      let n := set_receive_link_ids_ false n in
      set_received_link_ids_ false n
    else
      let n := set_receive_pelvis_transform_ true n in
      let n := set_receive_joint_command_ true n in
      let n := set_receive_link_ids_ false n in
      let n := set_received_link_ids_ true n in
      (* will not wait for link ids, assume all links controlled *)
      set_controlled_links_
        ([] ++ [link_pelvis] ++ [link_torso] ++ [link_rightCOP_Frame]
            ++ [link_leftCOP_Frame] ++ [link_rightPalm] ++ [link_leftPalm]
            ++ [link_head]) n in
  let n := set_received_pelvis_transform_ false n in
  let n := set_received_joint_command_ false n in
  let n := set_publish_commands_ false n in
  let n := set_stop_node_ false n in
  let n := set_home_left_arm_ false n in
  let n := set_home_right_arm_ false n in
  let n := set_home_chest_ false n in
  let n := set_home_pelvis_ false n in
  let n := set_publish_go_home_command_ false n in
  set_status_ "" n.

(** *** Callbacks *)

Definition transformCallback (tf_msg : TransformStamped) (n : t) : t :=
  let n :=
    if receive_pelvis_transform_ n then
      let origin := mkVect3 (v_x (translation tf_msg))
                      (v_y (translation tf_msg)) (v_z (translation tf_msg)) in
      let quat_pelvis_wrt_world :=
        mkQuaternion (q_x (rotation tf_msg)) (q_y (rotation tf_msg))
          (q_z (rotation tf_msg)) (q_w (rotation tf_msg)) in
      let n :=
        set_tf_pelvis_wrt_world_
          (mkTransform (tf_setRotation quat_pelvis_wrt_world) origin) n in
      let n := set_received_pelvis_transform_ true n in
      if negb (commands_from_controllers_ n)
      then set_receive_pelvis_transform_ false n
      else n
    else n in
  updateStopNodeFlag (updatePublishCommandsFlag n).

Definition controlledLinkIdsCallback (arr_msg : Int32MultiArray) (n : t) : t :=
  let n :=
    if receive_link_ids_ n then
      let n := set_controlled_links_ ([] ++ arr_data arr_msg) n in
      let n := set_received_link_ids_ true n in
      if negb (commands_from_controllers_ n)
      then set_receive_link_ids_ false n
      else n
    else n in
  updateStopNodeFlag (updatePublishCommandsFlag n).

(** The loop of [jointCommandCallback]: it runs over the positions, [i] is
    the loop counter and [rest] the positions from [i] on; the name is read
    at the same index. *)
Fixpoint jointCommand_loop (names : list string) (i : nat)
    (rest : list float) (q_joint : Vector) : outcome Vector :=
  match rest with
  | [] => Done q_joint
  | position_i :: rest' =>
      match names !! i with
      | None => Undefined (name_out_of_range i)
      | Some name_i =>
          match joint_names_to_indices !! name_i with
          | Some index =>
              (* offset to ignore the virtual joints *)
              let jidx := index - num_virtual in
              (let! q_joint' := set_coeff q_joint jidx position_i in
               jointCommand_loop names (S i) rest' q_joint')%outcome
          | None =>
              (* not one of Valkyrie's action joints: ignored *)
              jointCommand_loop names (S i) rest' q_joint
          end
      end
  end.

Definition jointCommandCallback (js_msg : JointState) (n : t) : outcome t :=
  (let! n :=
     (if receive_joint_command_ n then
        let! q_joint :=
          jointCommand_loop (name js_msg) 0 (position js_msg)
            (resize_setZero num_act_joint) in
        let n := set_q_joint_ q_joint n in
        let n := set_received_joint_command_ true n in
        Done (if negb (commands_from_controllers_ n)
              then set_receive_joint_command_ false n
              else n)
      else Done n) in
   Done (updateStopNodeFlag (updatePublishCommandsFlag n)))%outcome.

Definition statusCallback (status_msg : string) (n : t) : t :=
  if String.eqb status_msg "STOP-LISTENING" then
    let n := set_status_ status_msg n in
    let n := set_receive_pelvis_transform_ false n in
    let n := set_received_pelvis_transform_ false n in
    let n := set_receive_link_ids_ false n in
    let n := set_received_link_ids_ false n in
    let n := set_receive_joint_command_ false n in
    let n := set_received_joint_command_ false n in
    updateStopNodeFlag (updatePublishCommandsFlag n)
  else if String.eqb status_msg "START-LISTENING" then
    let n := set_status_ status_msg n in
    let n := set_receive_pelvis_transform_ true n in
    let n := set_received_pelvis_transform_ false n in
    let n := set_receive_link_ids_ true n in
    let n := set_received_link_ids_ false n in
    let n := set_receive_joint_command_ true n in
    let n := set_received_joint_command_ false n in
    updateStopNodeFlag (updatePublishCommandsFlag n)
  else if String.eqb status_msg "HOME-LEFTARM" then
    let n := set_status_ status_msg n in
    let n := set_home_left_arm_ true n in
    updatePublishGoHomeCommandFlag n
  else if String.eqb status_msg "HOME-RIGHTARM" then
    let n := set_status_ status_msg n in
    let n := set_home_right_arm_ true n in
    updatePublishGoHomeCommandFlag n
  else if String.eqb status_msg "HOME-CHEST" then
    let n := set_status_ status_msg n in
    let n := set_home_chest_ true n in
    updatePublishGoHomeCommandFlag n
  else if String.eqb status_msg "HOME-PELVIS" then
    let n := set_status_ status_msg n in
    let n := set_home_pelvis_ true n in
    updatePublishGoHomeCommandFlag n
  else
    (* unrecognized status: a warning, nothing else *)
    n.

(** *** Publishing *)

(** The loop of [prepareConfigurationVector] over [q_joint_]. *)
Fixpoint prepareConfiguration_loop (i : nat) (rest : Vector) (q : Vector)
  : outcome Vector :=
  match rest with
  | [] => Done q
  | q_joint_i :: rest' =>
      let jidx := Z.of_nat i + num_virtual in
      (let! q' := set_coeff q jidx q_joint_i in
       prepareConfiguration_loop (S i) rest' q')%outcome
  end.

Definition prepareConfigurationVector (n : t) : outcome t :=
  let q := resize_setZero num_q in
  let pelvis_origin := m_origin (tf_pelvis_wrt_world_ n) in
  let pelvis_tfrotation := tf_getRotation (m_basis (tf_pelvis_wrt_world_ n)) in
  (let! q := set_coeff q virtual_X (v_x pelvis_origin) in
   let! q := set_coeff q virtual_Y (v_y pelvis_origin) in
   let! q := set_coeff q virtual_Z (v_z pelvis_origin) in
   let pelvis_rotation := dynacore_convert pelvis_tfrotation in
   let! q := set_coeff q virtual_Rx (q_x pelvis_rotation) in
   let! q := set_coeff q virtual_Ry (q_y pelvis_rotation) in
   let! q := set_coeff q virtual_Rz (q_z pelvis_rotation) in
   let! q := set_coeff q virtual_Rw (q_w pelvis_rotation) in
   let! q := prepareConfiguration_loop 0 (q_joint_ n) q in
   Done (set_q_ q n))%outcome.

Definition publishWholeBodyMessage (n : t) : timed t :=
  (let! n := lift (prepareConfigurationVector n) in
   let msg_params := msg_params_default in
   let msg_params :=
     IHMCMessageParameters.set_controlled_links (controlled_links_ n)
       msg_params in
   let msg_params :=
     if commands_from_controllers_ n then
       (* execution mode streaming (0 override; 1 queue; 2 stream) *)
       let p := IHMCMessageParameters.set_execution_mode 2 msg_params in
       let p :=
         IHMCMessageParameters.set_stream_integration_duration 0.13 p in
       IHMCMessageParameters.set_time 0.0 p
     else msg_params in
   let! wholebody_msg :=
     IHMCMsgUtils.makeIHMCWholeBodyTrajectoryMessage (q_ n)
       WholeBodyTrajectoryMessage.init msg_params in
   tret (set_wholebody_pub_ (wholebody_pub_ n ++ [wholebody_msg]) n))%timed.

Definition publishGoHomeMessage (n : t) : t :=
  let msg_params := msg_params_default in
  let n :=
    if home_left_arm_ n then
      let go_home_msg :=
        IHMCMsgUtils.makeIHMCHomeLeftArmMessage GoHomeMessage.init
          msg_params in
      let n := set_go_home_pub_ (go_home_pub_ n ++ [go_home_msg]) n in
      set_home_left_arm_ false n
    else n in
  let n :=
    if home_right_arm_ n then
      let go_home_msg :=
        IHMCMsgUtils.makeIHMCHomeRightArmMessage GoHomeMessage.init
          msg_params in
      let n := set_go_home_pub_ (go_home_pub_ n ++ [go_home_msg]) n in
      set_home_right_arm_ false n
    else n in
  let n :=
    if home_chest_ n then
      let go_home_msg :=
        IHMCMsgUtils.makeIHMCHomeChestMessage GoHomeMessage.init
          msg_params in
      let n := set_go_home_pub_ (go_home_pub_ n ++ [go_home_msg]) n in
      set_home_chest_ false n
    else n in
  let n :=
    if home_pelvis_ n then
      let go_home_msg :=
        IHMCMsgUtils.makeIHMCHomePelvisMessage GoHomeMessage.init
          msg_params in
      let n := set_go_home_pub_ (go_home_pub_ n ++ [go_home_msg]) n in
      set_home_pelvis_ false n
    else n in
  updatePublishGoHomeCommandFlag n.

(** *** The loop of [main]

    One pass through the body of [while( ros::ok() )] up to
    [ros::spinOnce()]; the boolean is [true] when the pass leaves the loop
    through [break]. *)
Definition main_loop_body (n : t) : timed (t * bool) :=
  if getCommandsFromControllersFlag n then
    (let! n :=
       (if getPublishCommandsFlag n then publishWholeBodyMessage n
        else tret n) in
     let n :=
       if getPublishGoHomeCommandFlag n then publishGoHomeMessage n
       else n in
     tret (n, false))%timed
  else if getPublishCommandsFlag n && getStopNodeFlag n then
    (let! n := publishWholeBodyMessage n in
     tret (n, true))%timed
  else tret (n, false).

(** *** Events

    What can happen to a node between its construction and its end: a
    message delivered to one of the four callbacks, or a call of one of the
    two publishing methods. *)
Inductive event : Type :=
| pose_update (tf_msg : TransformStamped)
| link_set_update (arr_msg : Int32MultiArray)
| joint_update (js_msg : JointState)
| status_signal (status_msg : string)
| whole_body_publication
| go_home_publication.

Definition handle (e : event) (n : t) : timed t :=
  match e with
  | pose_update tf_msg => tret (transformCallback tf_msg n)
  | link_set_update arr_msg => tret (controlledLinkIdsCallback arr_msg n)
  | joint_update js_msg => lift (jointCommandCallback js_msg n)
  | status_signal status_msg => tret (statusCallback status_msg n)
  | whole_body_publication => publishWholeBodyMessage n
  | go_home_publication => tret (publishGoHomeMessage n)
  end.

Fixpoint run (es : list event) (n : t) : timed t :=
  match es with
  | [] => tret n
  | e :: es' => (let! n' := handle e n in run es' n')%timed
  end.

(** The three update events of the readiness aggregation. *)
Definition is_update (e : event) : bool :=
  match e with
  | pose_update _ | link_set_update _ | joint_update _ => true
  | _ => false
  end.

(** *** Vocabulary of the properties *)

(** [publish_commands_] agrees with the three received flags. *)
Definition publish_flag_current (n : t) : Prop :=
  getPublishCommandsFlag n
  = received_pelvis_transform_ n && received_link_ids_ n
      && received_joint_command_ n.

(** [stop_node_] agrees with the two accepting flags it is computed from. *)
Definition stop_flag_current (n : t) : Prop :=
  getStopNodeFlag n
  = negb (receive_pelvis_transform_ n) && negb (receive_joint_command_ n).

(** The events whose handler ends by recomputing [stop_node_]: the three
    updates and the two listening signals.  The homing branches of
    [statusCallback] recompute [publish_go_home_command_] only, the last
    branch nothing. *)
Definition recomputes_stop_flag (e : event) : bool :=
  match e with
  | pose_update _ | link_set_update _ | joint_update _ => true
  | status_signal s =>
      String.eqb s "STOP-LISTENING" || String.eqb s "START-LISTENING"
  | whole_body_publication | go_home_publication => false
  end.

(** The home command of the spec: a body part, a side for the arms, and the
    trajectory duration of the default parameters.  What the code does not
    assign stays as in a fresh [GoHomeMessage]. *)
Definition HomeCommand (body_part : Z) (side : option Z) : GoHomeMessage.t :=
  GoHomeMessage.mk (GoHomeMessage.sequence_id GoHomeMessage.init) body_part
    (default (GoHomeMessage.robot_side GoHomeMessage.init) side)
    (IHMCGoHomeParams.trajectory_time
       (IHMCMessageParameters.go_home_params msg_params_default)).

(** [buildPending] of the spec: one home command per flagged body part, in
    the order left arm, right arm, chest, pelvis. *)
Definition buildPending (n : t) : list GoHomeMessage.t :=
  (if home_left_arm_ n
   then [HomeCommand HUMANOID_BODY_PART_ARM (Some ROBOT_SIDE_LEFT)] else [])
  ++ (if home_right_arm_ n
      then [HomeCommand HUMANOID_BODY_PART_ARM (Some ROBOT_SIDE_RIGHT)]
      else [])
  ++ (if home_chest_ n
      then [HomeCommand HUMANOID_BODY_PART_CHEST None] else [])
  ++ (if home_pelvis_ n
      then [HomeCommand HUMANOID_BODY_PART_PELVIS None] else []).

(** No body part is waiting to be homed. *)
Definition nothing_pending (n : t) : Prop :=
  home_left_arm_ n = false /\ home_right_arm_ n = false
  /\ home_chest_ n = false /\ home_pelvis_ n = false.

(** Every name of the list that the joint-name index knows has its slot in
    the joint region of the configuration vector. *)
Definition slots_in_joint_region (names : list string) : Prop :=
  Forall (fun name_i =>
            match joint_names_to_indices !! name_i with
            | Some index => num_virtual <= index < num_virtual + num_act_joint
            | None => True
            end) names.

(** The joint update of the spec, on the (name, value) pairs of the message:
    a name found in the joint-name index has its value written at its slot
    less the virtual-joint count, a name not found writes nothing. *)
Definition write_pair (q_joint : Vector) (pair : string * float) : Vector :=
  match joint_names_to_indices !! pair.1 with
  | Some index => <[Z.to_nat (index - num_virtual) := pair.2]> q_joint
  | None => q_joint
  end.

(** The writes start from a freshly zeroed vector of [num_act_joint]
    entries. *)
Definition full_replace (pairs : list (string * float)) : Vector :=
  foldl write_pair (resize_setZero num_act_joint) pairs.

(** The default parameters as the spec gives them for one-shot use:
    execution mode override (0) and trajectory-point time 1.0. *)
Definition one_shot_defaults : Prop :=
  IHMCQueueableParams.execution_mode
    (IHMCMessageParameters.queueable_params msg_params_default) = 0
  /\ IHMCTrajectoryPointParams.time
       (IHMCMessageParameters.traj_point_params msg_params_default)
     = 1.0%float.



End Node.
End IHMCInterfaceNode.

(** ** A concrete robot

    Instances on which the functions above can be evaluated. *)

Module Sample.
(** Modelled from the spec: the layout of the configuration vector, whose
    constants [Valkyrie_Definition.h] gives outside the sources.  The root
    pose (position x, y, z and orientation x, y, z, w) takes the first seven
    slots and the named joints follow from slot 7 on. *)
Definition valkyrie : ValkyrieDefinition := {|
  num_q := 35; num_qdot := 34; num_virtual := 7; num_act_joint := 28;
  virtual_X := 0; virtual_Y := 1; virtual_Z := 2;
  virtual_Rx := 3; virtual_Ry := 4; virtual_Rz := 5; virtual_Rw := 6;
  torsoYaw := 19; torsoPitch := 20; torsoRoll := 21;
  leftShoulderPitch := 22; leftShoulderRoll := 23; leftShoulderYaw := 24;
  leftElbowPitch := 25; leftForearmYaw := 26;
  lowerNeckPitch := 27; neckYaw := 28; upperNeckPitch := 29;
  rightShoulderPitch := 30; rightShoulderRoll := 31; rightShoulderYaw := 32;
  rightElbowPitch := 33; rightForearmYaw := 34;
  link_pelvis := 0; link_torso := 1;
  link_rightCOP_Frame := 2; link_leftCOP_Frame := 3;
  link_rightPalm := 4; link_leftPalm := 5; link_head := 6;
  joint_names_to_indices :=
    list_to_map
      [("leftHipYaw", 7); ("leftHipRoll", 8); ("leftHipPitch", 9);
       ("leftKneePitch", 10); ("leftAnklePitch", 11); ("leftAnkleRoll", 12);
       ("rightHipYaw", 13); ("rightHipRoll", 14); ("rightHipPitch", 15);
       ("rightKneePitch", 16); ("rightAnklePitch", 17);
       ("rightAnkleRoll", 18);
       ("torsoYaw", 19); ("torsoPitch", 20); ("torsoRoll", 21);
       ("leftShoulderPitch", 22); ("leftShoulderRoll", 23);
       ("leftShoulderYaw", 24); ("leftElbowPitch", 25);
       ("leftForearmYaw", 26);
       ("lowerNeckPitch", 27); ("neckYaw", 28); ("upperNeckPitch", 29);
       ("rightShoulderPitch", 30); ("rightShoulderRoll", 31);
       ("rightShoulderYaw", 32); ("rightElbowPitch", 33);
       ("rightForearmYaw", 34)]
|}.

(** Stand-ins for the collaborators: the rotation is kept in the first two
    rows of the basis, the chest orientation is the identity, the clock
    advances by one at each reading, the 8-bit fields are signed. *)
Definition collaborators : Collaborators := {|
  tf_setRotation quat :=
    mkBasis (mkVect3 (q_x quat) (q_y quat) (q_z quat))
            (mkVect3 (q_w quat) 0 0) (mkVect3 0 0 0);
  tf_getRotation basis :=
    mkQuaternion (v_x (row0 basis)) (v_y (row0 basis)) (v_z (row0 basis))
                 (v_x (row1 basis));
  dynacore_convert quat := quat;
  Valkyrie_Model_getOri _ _ _ := mkQuaternion 0 0 0 1;
  system_clock_now k := Z.of_nat k;
  byte_fields_signed := true;
  HUMANOID_BODY_PART_ARM := 0;
  HUMANOID_BODY_PART_CHEST := 1;
  HUMANOID_BODY_PART_PELVIS := 2;
  ROBOT_SIDE_LEFT := 0;
  ROBOT_SIDE_RIGHT := 1
|}.

(** Modelled from the spec: the default message parameters of
    [ihmc_msg_utilities.h], which is not among the sources.  One-shot use
    takes them unchanged: execution mode override (0), trajectory-point time
    1.0, all axes selected. *)
Definition defaults : MessageDefaults := {|
  msg_params_default :=
    IHMCMessageParameters.mk 1 []
      (IHMCArmParams.mk false)
      (IHMCFrameParams.mk 0 0 0)
      (IHMCOneDoFJointParams.mk 0)
      (IHMCPelvisParams.mk false false false)
      (IHMCQueueableParams.mk 0 1 0 0)
      (IHMCSE3SO3Params.mk false)
      (IHMCSelectionMatrixParams.mk 0 true true true)
      (IHMCWeightMatrixParams.mk 0 (-1) (-1) (-1))
      (IHMCTrajectoryPointParams.mk 1.0)
      (IHMCGoHomeParams.mk 3.0)
|}.

Definition tf0 : tf_Transform :=
  mkTransform (mkBasis (mkVect3 1 0 0) (mkVect3 0 1 0) (mkVect3 0 0 1))
              (mkVect3 0 0 0).

Definition pose_123 : TransformStamped :=
  mkTransformStamped (mkVect3 1 2 3) (mkQuaternion 0 0 0 1).

Definition elbows : JointState :=
  mkJointState ["leftElbowPitch"; "hokuyo_joint"; "rightElbowPitch"]
               [0.5; 9; -0.5]%float.

(** A configuration vector with root pose [1,2,3,0,0,0,1] and the left arm
    at [0.1, 0.2, 0.3, 0.4, 0.5]. *)
Definition q_sample : Vector :=
  ([1; 2; 3; 0; 0; 0; 1] ++ repeat 0 15
     ++ [0.1; 0.2; 0.3; 0.4; 0.5] ++ repeat 0 8)%float.
(** States of the one-shot node: after the pose, then after the joints. *)
Definition after_pose : IHMCInterfaceNode.t :=
  Eval vm_compute in
    @IHMCInterfaceNode.transformCallback collaborators pose_123
      (@IHMCInterfaceNode.constructor valkyrie false tf0).

Definition after_pose_and_joints : IHMCInterfaceNode.t :=
  Eval vm_compute in
    match @IHMCInterfaceNode.jointCommandCallback valkyrie elbows after_pose
    with
    | Done n => n
    | Undefined _ => after_pose
    end.

(** The controller-driven node after [STOP-LISTENING] and after
    [HOME-LEFTARM]. *)
Definition stopped : IHMCInterfaceNode.t :=
  Eval vm_compute in
    IHMCInterfaceNode.statusCallback "STOP-LISTENING"
      (@IHMCInterfaceNode.constructor valkyrie true tf0).

Definition homing_left_arm : IHMCInterfaceNode.t :=
  Eval vm_compute in
    IHMCInterfaceNode.statusCallback "HOME-LEFTARM"
      (@IHMCInterfaceNode.constructor valkyrie true tf0).
(** A joint update with two positions and one name. *)
Definition two_positions_one_name : JointState :=
  mkJointState ["leftElbowPitch"] [0.5; 0.25]%float.
(** The default parameters with all seven links controlled, and the
    whole-body message assembled from [q_sample] with them. *)
Definition params_all_links : IHMCMessageParameters.t :=
  IHMCMessageParameters.set_controlled_links [0; 1; 2; 3; 4; 5; 6]
    (@msg_params_default defaults).

Definition wholebody_sample : WholeBodyTrajectoryMessage.t :=
  Eval vm_compute in
    match @IHMCMsgUtils.makeIHMCWholeBodyTrajectoryMessage valkyrie
            collaborators q_sample WholeBodyTrajectoryMessage.init
            params_all_links 0%nat
    with
    | Done (msg, _) => msg
    | Undefined _ => WholeBodyTrajectoryMessage.init
    end.
(** The one-shot node as constructed, and after [publishWholeBodyMessage]
    is called on it. *)
Definition fresh_one_shot : IHMCInterfaceNode.t :=
  Eval vm_compute in @IHMCInterfaceNode.constructor valkyrie false tf0.

Definition published_unready : IHMCInterfaceNode.t :=
  Eval vm_compute in
    match @IHMCInterfaceNode.publishWholeBodyMessage valkyrie collaborators
            defaults fresh_one_shot 0%nat
    with
    | Done (n, _) => n
    | Undefined _ => fresh_one_shot
    end.

(** The controller-driven node after START-LISTENING, a pose, a link set and
    the joints, and after it published. *)
Definition streaming_ready : IHMCInterfaceNode.t :=
  Eval vm_compute in
    match
      @IHMCInterfaceNode.run valkyrie collaborators defaults
        [IHMCInterfaceNode.status_signal "START-LISTENING";
         IHMCInterfaceNode.pose_update pose_123;
         IHMCInterfaceNode.link_set_update (mkInt32MultiArray [0; 5]);
         IHMCInterfaceNode.joint_update elbows]
        (@IHMCInterfaceNode.constructor valkyrie true tf0) 0%nat
    with
    | Done (n, _) => n
    | Undefined _ => @IHMCInterfaceNode.constructor valkyrie true tf0
    end.

Definition streaming_published : IHMCInterfaceNode.t :=
  Eval vm_compute in
    match @IHMCInterfaceNode.publishWholeBodyMessage valkyrie collaborators
            defaults streaming_ready 0%nat
    with
    | Done (n, _) => n
    | Undefined _ => streaming_ready
    end.
End Sample.

(** ** Vocabulary of the further properties *)

Section Histories.
Context `{V : ValkyrieDefinition}.
Import IHMCInterfaceNode.

(** Whether a sequence of events holds an update of each kind. *)
Definition seen_pose (es : list event) : bool :=
  existsb (fun e => match e with pose_update _ => true | _ => false end) es.

Definition seen_links (es : list event) : bool :=
  existsb (fun e => match e with link_set_update _ => true | _ => false end)
    es.

Definition seen_joints (es : list event) : bool :=
  existsb (fun e => match e with joint_update _ => true | _ => false end) es.

Definition is_status_signal (e : event) : bool :=
  match e with status_signal _ => true | _ => false end.

(** Whether a status string occurs among the signals received. *)
Definition requested (part : string) (signals : list string) : bool :=
  existsb (String.eqb part) signals.

(** The status callback run over a sequence of signals, first to last. *)
Definition statusCallbacks (signals : list string) (n : t) : t :=
  foldl (fun n status_msg => statusCallback status_msg n) n signals.

(** The seven links that the constructor assumes for one-shot use. *)
Definition all_links : list Z :=
  [link_pelvis; link_torso; link_rightCOP_Frame; link_leftCOP_Frame;
   link_rightPalm; link_leftPalm; link_head].

(** The node accepts nothing and its two derived flags are up to date. *)
Definition closed (n : t) : Prop :=
  receive_pelvis_transform_ n = false
  /\ receive_link_ids_ n = false
  /\ receive_joint_command_ n = false
  /\ publish_flag_current n
  /\ getStopNodeFlag n = true.

(** The controller-driven node while it listens: all three kinds of update
    are accepted. *)
Definition listening (n : t) : Prop :=
  commands_from_controllers_ n = true
  /\ receive_pelvis_transform_ n = true
  /\ receive_link_ids_ n = true
  /\ receive_joint_command_ n = true.

(** The one-shot node between updates: a kind of update is accepted exactly
    while none of it has been received, and links are never accepted. *)
Definition one_shot_waiting (n : t) : Prop :=
  commands_from_controllers_ n = false
  /\ receive_pelvis_transform_ n = negb (received_pelvis_transform_ n)
  /\ receive_joint_command_ n = negb (received_joint_command_ n)
  /\ receive_link_ids_ n = false
  /\ received_link_ids_ n = true.

(** [publish_go_home_command_] agrees with the four homing flags. *)
Definition home_flag_current (n : t) : Prop :=
  getPublishGoHomeCommandFlag n
  = home_left_arm_ n || home_right_arm_ n || home_chest_ n || home_pelvis_ n.

End Histories.

Section Slots.
Context `{V : ValkyrieDefinition}.

(** The pair writes nowhere or at another slot than [index]. *)
Definition leaves_slot (index : Z) (pair : string * float) : Prop :=
  match joint_names_to_indices !! pair.1 with
  | Some index' => index' <> index
  | None => True
  end.

(** The seven root-pose slots are distinct and none of them is among the
    slots of the stored joints. *)
Definition root_slots_apart (q_joint : Vector) : Prop :=
  NoDup IHMCMsgUtils.getRelevantJointIndicesPelvis
  /\ Forall (fun slot =>
               ~ (num_virtual <= slot
                  < num_virtual + Z.of_nat (length q_joint)))
       IHMCMsgUtils.getRelevantJointIndicesPelvis.

End Slots.

Section Points.
Context `{V : ValkyrieDefinition}.

(** The number of trajectory points of a whole-body message assembled into
    a fresh message: seven for each arm, one for the chest, one for the
    pelvis and three for the neck, counting the parts whose link is
    controlled. *)
Definition expected_points (links : list Z) : nat :=
  (if IHMCMsgUtils.checkControlledLink links link_leftPalm then 7 else 0)
  + (if IHMCMsgUtils.checkControlledLink links link_rightPalm then 7 else 0)
  + (if IHMCMsgUtils.checkControlledLink links link_torso then 1 else 0)
  + (if IHMCMsgUtils.checkControlledLink links link_pelvis then 1 else 0)
  + (if IHMCMsgUtils.checkControlledLink links link_head then 3 else 0).

End Points.

(** ** Further concrete inputs *)

Module Scenario.
Import IHMCInterfaceNode.

Definition pose_456 : TransformStamped :=
  mkTransformStamped (mkVect3 4 5 6) (mkQuaternion 0 0 1 0).

Definition shoulders : JointState :=
  mkJointState ["leftShoulderPitch"; "rightShoulderPitch"]
               [0.25; 0.75]%float.

(** Updates of every kind, the pose twice. *)
Definition updates : list event :=
  [joint_update Sample.elbows; pose_update Sample.pose_123;
   link_set_update (mkInt32MultiArray [0; 5]); pose_update pose_456].

(** Updates of which the joint update has more positions than names. *)
Definition malformed_updates : list event :=
  [pose_update Sample.pose_123;
   joint_update Sample.two_positions_one_name;
   link_set_update (mkInt32MultiArray [0; 5])].

Definition signals : list string :=
  ["HOME-CHEST"; "START-LISTENING"; "HOME-LEFTARM"; "HOME-CHEST"].

(** The controller-driven node after START-LISTENING, and after the joints
    [Sample.elbows]. *)
Definition listening_node : t :=
  Eval vm_compute in
    statusCallback "START-LISTENING"
      (@constructor Sample.valkyrie true Sample.tf0).

Definition listening_joints : t :=
  Eval vm_compute in
    match @jointCommandCallback Sample.valkyrie Sample.elbows listening_node
    with
    | Done n => n
    | Undefined _ => listening_node
    end.

(** The one-shot node after the joints [Sample.elbows]. *)
Definition joints_first : t :=
  Eval vm_compute in
    match @jointCommandCallback Sample.valkyrie Sample.elbows
            Sample.fresh_one_shot
    with
    | Done n => n
    | Undefined _ => Sample.fresh_one_shot
    end.

(** Both nodes after [updates]. *)
Definition streaming_after_updates : t :=
  Eval vm_compute in
    match @run Sample.valkyrie Sample.collaborators Sample.defaults updates
            listening_node 0%nat
    with
    | Done (n, _) => n
    | Undefined _ => listening_node
    end.

Definition one_shot_after_updates : t :=
  Eval vm_compute in
    match @run Sample.valkyrie Sample.collaborators Sample.defaults updates
            Sample.fresh_one_shot 0%nat
    with
    | Done (n, _) => n
    | Undefined _ => Sample.fresh_one_shot
    end.

(** The node of [Sample.homing_left_arm] after START-LISTENING, and the
    controller-driven node after HOME-CHEST and a pose. *)
Definition homing_then_listening : t :=
  Eval vm_compute in
    statusCallback "START-LISTENING" Sample.homing_left_arm.

Definition chest_requested : t :=
  Eval vm_compute in
    match @run Sample.valkyrie Sample.collaborators Sample.defaults
            [status_signal "HOME-CHEST"; pose_update Sample.pose_123]
            (@constructor Sample.valkyrie true Sample.tf0) 0%nat
    with
    | Done (n, _) => n
    | Undefined _ => @constructor Sample.valkyrie true Sample.tf0
    end.

(** The ready one-shot node after one pass through the loop of [main]. *)
Definition one_shot_done : t :=
  Eval vm_compute in
    match @main_loop_body Sample.valkyrie Sample.collaborators
            Sample.defaults Sample.after_pose_and_joints 0%nat
    with
    | Done (n, _, _) => n
    | Undefined _ => Sample.after_pose_and_joints
    end.

(** The ready one-shot node after [prepareConfigurationVector]. *)
Definition prepared : t :=
  Eval vm_compute in
    match @prepareConfigurationVector Sample.valkyrie Sample.collaborators
            Sample.after_pose_and_joints
    with
    | Done n => n
    | Undefined _ => Sample.after_pose_and_joints
    end.

(** The one-shot node after a pose and [publishWholeBodyMessage]. *)
Definition pose_published : t :=
  Eval vm_compute in
    match @publishWholeBodyMessage Sample.valkyrie Sample.collaborators
            Sample.defaults Sample.after_pose 0%nat
    with
    | Done (n, _) => n
    | Undefined _ => Sample.after_pose
    end.

(** A configuration with the neck at [0.1, 0.2, 0.3] and the right arm at
    [0.6, 0.7, 0.8, 0.9, 1.0], and the whole-body message assembled from it
    with all links controlled. *)
Definition q_upper : Vector :=
  (repeat 0 27 ++ [0.1; 0.2; 0.3] ++ [0.6; 0.7; 0.8; 0.9; 1.0])%float.

Definition wholebody_upper : WholeBodyTrajectoryMessage.t :=
  Eval vm_compute in
    match @IHMCMsgUtils.makeIHMCWholeBodyTrajectoryMessage Sample.valkyrie
            Sample.collaborators q_upper WholeBodyTrajectoryMessage.init
            Sample.params_all_links 0%nat
    with
    | Done (msg, _) => msg
    | Undefined _ => WholeBodyTrajectoryMessage.init
    end.

(** The default parameters with the two foot frames controlled only. *)
Definition params_feet_only : IHMCMessageParameters.t :=
  IHMCMessageParameters.set_controlled_links [2; 3]
    (@msg_params_default Sample.defaults).

End Scenario.

(** * Properties *)

(** ** The readiness state machine *)

Section Readiness.
Context `{V : ValkyrieDefinition} `{C : Collaborators} `{D : MessageDefaults}.
Import IHMCInterfaceNode.

Lemma prepareConfigurationVector_shape n n' :
  prepareConfigurationVector n = Done n' -> exists q, n' = set_q_ q n.
Proof.
  unfold prepareConfigurationVector, obind. intros H.
  repeat match type of H with
         | match ?o with Done _ => _ | Undefined _ => _ end = _ =>
             destruct o; [|discriminate H]
         end.
  injection H as <-. eauto.
Qed.

Lemma publishWholeBodyMessage_shape n k n' k' :
  publishWholeBodyMessage n k = Done (n', k') ->
  exists q msg,
    prepareConfigurationVector n = Done (set_q_ q n)
    /\ n' = set_wholebody_pub_ (wholebody_pub_ n ++ [msg]) (set_q_ q n).
Proof.
  unfold publishWholeBodyMessage, tbind, lift. intros H.
  destruct (prepareConfigurationVector n) as [n1|] eqn:Hp; [|discriminate H].
  destruct (prepareConfigurationVector_shape _ _ Hp) as [q ->].
  match type of H with
  | match ?o with Done _ => _ | Undefined _ => _ end = _ =>
      destruct o as [[msg k1]|]; [|discriminate H]
  end.
  unfold tret in H. injection H as <- <-. exists q, msg. split; reflexivity.
Qed.

Lemma updates_make_publish_flag_current e n k n' k' :
  is_update e = true -> handle e n k = Done (n', k') ->
  publish_flag_current n'.
Proof.
  destruct e as [tf_msg|arr_msg|js_msg|s| |]; try discriminate; intros _.
  - unfold handle, tret. intros [= <- <-]. unfold transformCallback.
    destruct n as [cfc ? ? ? ? ? [] ? ? ? ? ? ? ? ? ? ? ? ? ? ?];
      destruct cfc; reflexivity.
  - unfold handle, tret. intros [= <- <-]. unfold controlledLinkIdsCallback.
    destruct n as [cfc ? ? ? ? ? ? ? [] ? ? ? ? ? ? ? ? ? ? ? ?];
      destruct cfc; reflexivity.
  - unfold handle, lift, jointCommandCallback, obind. intros H.
    destruct (receive_joint_command_ n) eqn:Hr.
    + destruct (jointCommand_loop _ _ _ _); [|discriminate H].
      injection H as <- <-. destruct n as [cfc ? ? ? ? ? ? ? ? ? ? ? ? ? ? ? ? ? ? ? ?];
        destruct cfc; reflexivity.
    + injection H as <- <-. destruct n; reflexivity.
Qed.

Lemma statusCallback_keeps_publish_flag_current s n :
  publish_flag_current n -> publish_flag_current (statusCallback s n).
Proof.
  unfold statusCallback, publish_flag_current.
  repeat (destruct (String.eqb s _)); destruct n; simpl; intros H;
    first [exact H | reflexivity].
Qed.

Lemma handle_keeps_publish_flag_current e n k n' k' :
  publish_flag_current n -> handle e n k = Done (n', k') ->
  publish_flag_current n'.
Proof.
  intros Hn H. destruct (is_update e) eqn:Hu.
  - eapply updates_make_publish_flag_current; eassumption.
  - destruct e as [tf_msg|arr_msg|js_msg|s| |]; try discriminate Hu.
    + injection H as <- <-. now apply statusCallback_keeps_publish_flag_current.
    + apply publishWholeBodyMessage_shape in H as (q & msg & _ & ->).
      destruct n; exact Hn.
    + injection H as <- <-. unfold publishGoHomeMessage.
      destruct n as [? ? ? ? ? ? ? ? ? ? ? ? ? ? [] [] [] [] ? ? ?]; exact Hn.
Qed.

Lemma constructor_publish_flag_current cfc tf0 :
  publish_flag_current (constructor cfc tf0).
Proof. destruct cfc; reflexivity. Qed.

Lemma run_keeps_publish_flag_current es : forall n k n' k',
  publish_flag_current n -> run es n k = Done (n', k') ->
  publish_flag_current n'.
Proof.
  induction es as [|e es IH]; intros n k n' k' Hn H.
  - injection H as <- <-. exact Hn.
  - cbn [run] in H. unfold tbind in H.
    destruct (handle e n k) as [[n1 k1]|] eqn:He; [|discriminate H].
    eapply IH; [|exact H].
    eapply handle_keeps_publish_flag_current; eassumption.
Qed.

Lemma recomputing_handlers_make_stop_flag_current e n k n' k' :
  recomputes_stop_flag e = true -> handle e n k = Done (n', k') ->
  stop_flag_current n'.
Proof.
  destruct e as [tf_msg|arr_msg|js_msg|s| |]; try discriminate; cbn.
  - intros _ [= <- <-]. unfold transformCallback.
    destruct n as [cfc ? ? ? ? ? [] ? ? ? ? ? ? ? ? ? ? ? ? ? ?];
      destruct cfc; reflexivity.
  - intros _ [= <- <-]. unfold controlledLinkIdsCallback.
    destruct n as [cfc ? ? ? ? ? ? ? [] ? ? ? ? ? ? ? ? ? ? ? ?];
      destruct cfc; reflexivity.
  - intros _. unfold lift, jointCommandCallback, obind. intros H.
    destruct (receive_joint_command_ n) eqn:Hr.
    + destruct (jointCommand_loop _ _ _ _); [|discriminate H].
      injection H as <- <-.
      destruct n as [cfc ? ? ? ? ? ? ? ? ? ? ? ? ? ? ? ? ? ? ? ?];
        destruct cfc; reflexivity.
    + injection H as <- <-. destruct n; reflexivity.
  - unfold tret, statusCallback. intros Hs [= <- <-].
    destruct (String.eqb s "STOP-LISTENING"); [destruct n; reflexivity|].
    destruct (String.eqb s "START-LISTENING"); [destruct n; reflexivity|].
    discriminate Hs.
Qed.

Lemma stop_flag_ignores_link_accepting e n k n' k' b :
  recomputes_stop_flag e = true -> handle e n k = Done (n', k') ->
  exists n'', handle e (set_receive_link_ids_ b n) k = Done (n'', k')
              /\ getStopNodeFlag n'' = getStopNodeFlag n'.
Proof.
  destruct e as [tf_msg|arr_msg|js_msg|s| |]; try discriminate; cbn.
  - intros _ [= <- <-]. eexists; split; [reflexivity|].
    unfold transformCallback.
    destruct n as [cfc ? ? ? ? ? [] ? ? ? ? ? ? ? ? ? ? ? ? ? ?];
      destruct cfc; reflexivity.
  - intros _ [= <- <-]. eexists; split; [reflexivity|].
    unfold controlledLinkIdsCallback.
    destruct n as [cfc ? ? ? ? ? ? ? [] ? ? ? ? ? ? ? ? ? ? ? ?];
      destruct cfc, b; reflexivity.
  - intros _. unfold lift, jointCommandCallback, obind.
    destruct n as [cfc ? ? ? ? ? ? ? ? ? [] ? ? ? ? ? ? ? ? ? ?]; cbn.
    + destruct (jointCommand_loop _ _ _ _); [|discriminate].
      intros [= <- <-]. eexists; split; [reflexivity|].
      destruct cfc; reflexivity.
    + intros [= <- <-]. eexists; split; reflexivity.
  - unfold tret, statusCallback. intros Hs [= <- <-].
    eexists; split; [reflexivity|].
    destruct (String.eqb s "STOP-LISTENING"); [destruct n; reflexivity|].
    destruct (String.eqb s "START-LISTENING"); [destruct n; reflexivity|].
    discriminate Hs.
Qed.

Lemma other_handlers_keep_stop_flag e n k n' k' :
  recomputes_stop_flag e = false -> handle e n k = Done (n', k') ->
  getStopNodeFlag n' = getStopNodeFlag n.
Proof.
  destruct e as [tf_msg|arr_msg|js_msg|s| |]; try discriminate; cbn.
  - unfold tret, statusCallback. intros Hs [= <- <-].
    apply orb_false_elim in Hs as [-> ->].
    repeat (destruct (String.eqb s _)); destruct n; reflexivity.
  - intros _ H.
    apply publishWholeBodyMessage_shape in H as (q & msg & _ & ->).
    destruct n; reflexivity.
  - intros _ [= <- <-]. unfold publishGoHomeMessage.
    destruct n as [? ? ? ? ? ? ? ? ? ? ? ? ? ? [] [] [] [] ? ? ?]; reflexivity.
Qed.

Lemma other_handlers_keep_accepting e n k n' k' :
  recomputes_stop_flag e = false -> handle e n k = Done (n', k') ->
  receive_pelvis_transform_ n' = receive_pelvis_transform_ n
  /\ receive_joint_command_ n' = receive_joint_command_ n
  /\ receive_link_ids_ n' = receive_link_ids_ n.
Proof.
  destruct e as [tf_msg|arr_msg|js_msg|s| |]; try discriminate; cbn.
  - unfold tret, statusCallback. intros Hs [= <- <-].
    apply orb_false_elim in Hs as [-> ->].
    repeat (destruct (String.eqb s _)); destruct n; repeat split.
  - intros _ H.
    apply publishWholeBodyMessage_shape in H as (q & msg & _ & ->).
    destruct n; repeat split.
  - intros _ [= <- <-]. unfold publishGoHomeMessage.
    destruct n as [? ? ? ? ? ? ? ? ? ? ? ? ? ? [] [] [] [] ? ? ?];
      repeat split.
Qed.

Lemma handle_keeps_stop_flag_current e n k n' k' :
  stop_flag_current n -> handle e n k = Done (n', k') ->
  stop_flag_current n'.
Proof.
  intros Hn H. destruct (recomputes_stop_flag e) eqn:He.
  - eapply recomputing_handlers_make_stop_flag_current; eassumption.
  - pose proof (other_handlers_keep_stop_flag _ _ _ _ _ He H) as Hs.
    pose proof (other_handlers_keep_accepting _ _ _ _ _ He H)
      as (Hp & Hj & _).
    unfold stop_flag_current in *. rewrite Hs, Hp, Hj. exact Hn.
Qed.

Lemma run_keeps_stop_flag_current es : forall n k n' k',
  stop_flag_current n -> run es n k = Done (n', k') ->
  stop_flag_current n'.
Proof.
  induction es as [|e es IH]; intros n k n' k' Hn H.
  - injection H as <- <-. exact Hn.
  - cbn [run] in H. unfold tbind in H.
    destruct (handle e n k) as [[n1 k1]|] eqn:He; [|discriminate H].
    eapply IH; [|exact H].
    eapply handle_keeps_stop_flag_current; eassumption.
Qed.

Lemma run_makes_stop_flag_current es : forall n k n' k',
  existsb recomputes_stop_flag es = true -> run es n k = Done (n', k') ->
  stop_flag_current n'.
Proof.
  induction es as [|e es IH]; intros n k n' k' Hes H; [discriminate Hes|].
  cbn [run existsb] in H, Hes. unfold tbind in H.
  destruct (handle e n k) as [[n1 k1]|] eqn:He; [|discriminate H].
  destruct (recomputes_stop_flag e) eqn:Hr.
  - eapply run_keeps_stop_flag_current; [|exact H].
    eapply recomputing_handlers_make_stop_flag_current; eassumption.
  - eapply IH; eassumption.
Qed.

(** Before the first event that recomputes [stop_node_], the flag and the
    two accepting flags it is computed from are as they were. *)
Lemma run_without_recomputing es : forall n k n' k',
  existsb recomputes_stop_flag es = false -> run es n k = Done (n', k') ->
  getStopNodeFlag n' = getStopNodeFlag n
  /\ receive_pelvis_transform_ n' = receive_pelvis_transform_ n
  /\ receive_joint_command_ n' = receive_joint_command_ n.
Proof.
  induction es as [|e es IH]; intros n k n' k' Hes H.
  - injection H as <- <-. repeat split.
  - cbn [run existsb] in H, Hes. unfold tbind in H.
    apply orb_false_elim in Hes as [Hr Hes].
    destruct (handle e n k) as [[n1 k1]|] eqn:He; [|discriminate H].
    destruct (IH _ _ _ _ Hes H) as (Hs & Hp & Hj).
    pose proof (other_handlers_keep_stop_flag _ _ _ _ _ Hr He) as Hs1.
    pose proof (other_handlers_keep_accepting _ _ _ _ _ Hr He)
      as (Hp1 & Hj1 & _).
    rewrite Hs, Hp, Hj. auto.
Qed.

Lemma stop_flag_current_iff n :
  stop_flag_current n
  <-> (getStopNodeFlag n = true
       <-> receive_pelvis_transform_ n = false
           /\ receive_joint_command_ n = false).
Proof.
  unfold stop_flag_current.
  destruct (getStopNodeFlag n), (receive_pelvis_transform_ n),
    (receive_joint_command_ n); cbn; intuition congruence.
Qed.

End Readiness.

Section ReadinessClaims.
Context `{V : ValkyrieDefinition} `{C : Collaborators} `{D : MessageDefaults}.
Import IHMCInterfaceNode.

Lemma publish_flag_current_iff n :
  publish_flag_current n ->
  getPublishCommandsFlag n = true
  <-> received_pelvis_transform_ n = true /\ received_link_ids_ n = true
      /\ received_joint_command_ n = true.
Proof.
  unfold publish_flag_current. intros ->.
  rewrite !andb_true_iff. tauto.
Qed.

(** C1.  After the handler of a pose, link-set or joint update returns, from
    any state, [getPublishCommandsFlag] is true exactly when the three
    received flags are all true, so it is false while only a part of them
    is.  The same holds in every state the node reaches from its constructor
    through any sequence of events, status signals and publications
    included.  (The pose and link-set handlers always return; when the joint
    handler returns is the subject of C10.) *)
Theorem canPublish_iff_all_received :
  (forall e n k n' k',
      is_update e = true -> handle e n k = Done (n', k') ->
      getPublishCommandsFlag n' = true
      <-> received_pelvis_transform_ n' = true
          /\ received_link_ids_ n' = true
          /\ received_joint_command_ n' = true)
  /\ (forall cfc tf0 es k n' k',
         run es (constructor cfc tf0) k = Done (n', k') ->
         getPublishCommandsFlag n' = true
         <-> received_pelvis_transform_ n' = true
             /\ received_link_ids_ n' = true
             /\ received_joint_command_ n' = true).
Proof.
  split.
  - intros e n k n' k' Hu H. apply publish_flag_current_iff.
    eapply updates_make_publish_flag_current; eassumption.
  - intros cfc tf0 es k n' k' H. apply publish_flag_current_iff.
    eapply run_keeps_publish_flag_current; [|exact H].
    apply constructor_publish_flag_current.
Qed.

(** C2, amended.  [getStopNodeFlag] is true exactly when
    [receive_pelvis_transform_] and [receive_joint_command_] are both false
    - after the handler of a pose, link-set or joint update, or of the
      status signal STOP-LISTENING or START-LISTENING, returns, from any
      state, and with a value that is the same whatever [receive_link_ids_]
      held before the handler ran;
    - after any handler or publishing method returns, when it held before:
      a homing signal, an unrecognized signal and the two publishing methods
      leave [stop_node_] and the three accepting flags as they were;
    - hence in every state that the node reaches from its constructor in
      one-shot use, and in every state that the controller-driven node
      reaches once one of the events of the first item has been handled.
    It fails in the remaining reachable states and only there: those of the
    controller-driven node before the first such event, where [stop_node_]
    is false and both accepting flags are false. *)
Theorem shouldStop_after_recomputing_handlers :
  (forall e n k n' k',
      recomputes_stop_flag e = true -> handle e n k = Done (n', k') ->
      getStopNodeFlag n' = true
      <-> receive_pelvis_transform_ n' = false
          /\ receive_joint_command_ n' = false)
  /\ (forall e n k n' k' b,
         recomputes_stop_flag e = true -> handle e n k = Done (n', k') ->
         exists n'',
           handle e (set_receive_link_ids_ b n) k = Done (n'', k')
           /\ getStopNodeFlag n'' = getStopNodeFlag n')
  /\ (forall e n k n' k',
         recomputes_stop_flag e = false -> handle e n k = Done (n', k') ->
         getStopNodeFlag n' = getStopNodeFlag n
         /\ receive_pelvis_transform_ n' = receive_pelvis_transform_ n
         /\ receive_joint_command_ n' = receive_joint_command_ n
         /\ receive_link_ids_ n' = receive_link_ids_ n)
  /\ (forall e n k n' k',
         handle e n k = Done (n', k') ->
         (getStopNodeFlag n = true
          <-> receive_pelvis_transform_ n = false
              /\ receive_joint_command_ n = false) ->
         getStopNodeFlag n' = true
         <-> receive_pelvis_transform_ n' = false
             /\ receive_joint_command_ n' = false)
  /\ (forall cfc tf0 es k n' k',
         run es (constructor cfc tf0) k = Done (n', k') ->
         ((getStopNodeFlag n' = true
           <-> receive_pelvis_transform_ n' = false
               /\ receive_joint_command_ n' = false)
          <-> cfc = false \/ existsb recomputes_stop_flag es = true)
         /\ (cfc = true -> existsb recomputes_stop_flag es = false ->
             getStopNodeFlag n' = false
             /\ receive_pelvis_transform_ n' = false
             /\ receive_joint_command_ n' = false)).
Proof.
  split; [|split; [|split; [|split]]].
  - intros e n k n' k' He H. apply stop_flag_current_iff.
    eapply recomputing_handlers_make_stop_flag_current; eassumption.
  - intros. eapply stop_flag_ignores_link_accepting; eassumption.
  - intros e n k n' k' He H. split.
    + eapply other_handlers_keep_stop_flag; eassumption.
    + eapply other_handlers_keep_accepting; eassumption.
  - intros e n k n' k' H Hn. apply stop_flag_current_iff.
    apply stop_flag_current_iff in Hn.
    eapply handle_keeps_stop_flag_current; eassumption.
  - intros cfc tf0 es k n' k' H.
    assert (Hstale : cfc = true ->
                     existsb recomputes_stop_flag es = false ->
                     getStopNodeFlag n' = false
                     /\ receive_pelvis_transform_ n' = false
                     /\ receive_joint_command_ n' = false).
    { intros -> Hes.
      destruct (run_without_recomputing _ _ _ _ _ Hes H) as (-> & -> & ->).
      repeat split. }
    split; [|exact Hstale].
    rewrite <- stop_flag_current_iff. split.
    + intros Hcur. destruct cfc; [|left; reflexivity].
      destruct (existsb recomputes_stop_flag es) eqn:Hes;
        [right; reflexivity|].
      destruct (Hstale eq_refl eq_refl) as (Hs & Hp & Hj).
      unfold stop_flag_current in Hcur. rewrite Hs, Hp, Hj in Hcur.
      discriminate Hcur.
    + intros [-> | Hes].
      * eapply run_keeps_stop_flag_current; [|exact H]. reflexivity.
      * eapply run_makes_stop_flag_current; eassumption.
Qed.

(** C8.  From any state, the status signal STOP-LISTENING leaves the three
    accepting flags and the three received flags false, the publish flag
    false and the stop flag true. *)
Theorem stop_listening_resets n :
  let n' := statusCallback "STOP-LISTENING" n in
  receive_pelvis_transform_ n' = false
  /\ receive_joint_command_ n' = false
  /\ receive_link_ids_ n' = false
  /\ received_pelvis_transform_ n' = false
  /\ received_joint_command_ n' = false
  /\ received_link_ids_ n' = false
  /\ getPublishCommandsFlag n' = false
  /\ getStopNodeFlag n' = true.
Proof. destruct n. cbv. repeat split. Qed.

Lemma publishGoHomeMessage_spec n :
  publishGoHomeMessage n
  = set_publish_go_home_command_ false
      (set_home_pelvis_ false
         (set_home_chest_ false
            (set_home_right_arm_ false
               (set_home_left_arm_ false
                  (set_go_home_pub_ (go_home_pub_ n ++ buildPending n) n))))).
Proof.
  unfold publishGoHomeMessage, buildPending.
  destruct n as [? ? ? ? ? ? ? ? ? ? ? ? ? ? [] [] [] [] ? ? ?]; cbn;
    rewrite <- ?app_assoc, ?app_nil_r; reflexivity.
Qed.

(** C9.  [publishGoHomeMessage] publishes, after what was published before,
    one home command per flagged body part in the order left arm, right arm,
    chest, pelvis; it leaves the four homing flags and
    [publish_go_home_command_] false.  When nothing is pending, the signal
    HOME-LEFTARM followed by one call publishes the single command
    (arm, left), and a second call publishes nothing. *)
Theorem publishGoHomeMessage_builds_pending :
  (forall n,
      let n' := publishGoHomeMessage n in
      go_home_pub_ n' = go_home_pub_ n ++ buildPending n
      /\ nothing_pending n'
      /\ getPublishGoHomeCommandFlag n' = false)
  /\ (forall n,
         nothing_pending n ->
         let n1 := statusCallback "HOME-LEFTARM" n in
         let n2 := publishGoHomeMessage n1 in
         let n3 := publishGoHomeMessage n2 in
         getPublishGoHomeCommandFlag n1 = true
         /\ go_home_pub_ n2
            = go_home_pub_ n
                ++ [HomeCommand HUMANOID_BODY_PART_ARM (Some ROBOT_SIDE_LEFT)]
         /\ buildPending n2 = []
         /\ go_home_pub_ n3 = go_home_pub_ n2
         /\ getPublishGoHomeCommandFlag n3 = false).
Proof.
  split.
  - intros n. cbv zeta. rewrite publishGoHomeMessage_spec.
    destruct n; repeat split.
  - intros n (Hl & Hr & Hc & Hp). cbv zeta.
    rewrite !publishGoHomeMessage_spec.
    destruct n; cbn in Hl, Hr, Hc, Hp; subst; cbn.
    rewrite app_nil_r. repeat split.
Qed.

End ReadinessClaims.

Lemma canPublish_iff_all_received_witness :
  (IHMCInterfaceNode.is_update
     (IHMCInterfaceNode.joint_update Sample.elbows) = true
   /\ @IHMCInterfaceNode.handle Sample.valkyrie Sample.collaborators
        Sample.defaults (IHMCInterfaceNode.joint_update Sample.elbows)
        Sample.after_pose 0%nat
      = Done (Sample.after_pose_and_joints, 0%nat)
   /\ @IHMCInterfaceNode.run Sample.valkyrie Sample.collaborators
        Sample.defaults
        [IHMCInterfaceNode.pose_update Sample.pose_123;
         IHMCInterfaceNode.status_signal "HOME-CHEST"]
        (@IHMCInterfaceNode.constructor Sample.valkyrie false Sample.tf0)
        0%nat
      = Done (IHMCInterfaceNode.statusCallback "HOME-CHEST" Sample.after_pose,
              0%nat))
  /\ (IHMCInterfaceNode.getPublishCommandsFlag Sample.after_pose_and_joints
      = true
      <-> IHMCInterfaceNode.received_pelvis_transform_
            Sample.after_pose_and_joints = true
          /\ IHMCInterfaceNode.received_link_ids_
               Sample.after_pose_and_joints = true
          /\ IHMCInterfaceNode.received_joint_command_
               Sample.after_pose_and_joints = true)
  /\ (IHMCInterfaceNode.getPublishCommandsFlag
        (IHMCInterfaceNode.statusCallback "HOME-CHEST" Sample.after_pose)
      = true
      <-> IHMCInterfaceNode.received_pelvis_transform_
            (IHMCInterfaceNode.statusCallback "HOME-CHEST" Sample.after_pose)
          = true
          /\ IHMCInterfaceNode.received_link_ids_
               (IHMCInterfaceNode.statusCallback "HOME-CHEST"
                  Sample.after_pose) = true
          /\ IHMCInterfaceNode.received_joint_command_
               (IHMCInterfaceNode.statusCallback "HOME-CHEST"
                  Sample.after_pose) = true).
Proof.
  assert (H : @IHMCInterfaceNode.handle Sample.valkyrie Sample.collaborators
                Sample.defaults (IHMCInterfaceNode.joint_update Sample.elbows)
                Sample.after_pose 0%nat
              = Done (Sample.after_pose_and_joints, 0%nat))
    by (vm_compute; reflexivity).
  assert (R : @IHMCInterfaceNode.run Sample.valkyrie Sample.collaborators
                Sample.defaults
                [IHMCInterfaceNode.pose_update Sample.pose_123;
                 IHMCInterfaceNode.status_signal "HOME-CHEST"]
                (@IHMCInterfaceNode.constructor Sample.valkyrie false
                   Sample.tf0) 0%nat
              = Done (IHMCInterfaceNode.statusCallback "HOME-CHEST"
                        Sample.after_pose, 0%nat))
    by (vm_compute; reflexivity).
  split; [split; [reflexivity | split; [exact H | exact R]]|].
  split.
  - exact (proj1 (@canPublish_iff_all_received Sample.valkyrie
                    Sample.collaborators Sample.defaults)
             (IHMCInterfaceNode.joint_update Sample.elbows)
             Sample.after_pose 0%nat Sample.after_pose_and_joints 0%nat
             eq_refl H).
  - exact (proj2 (@canPublish_iff_all_received Sample.valkyrie
                    Sample.collaborators Sample.defaults)
             false Sample.tf0 _ 0%nat _ 0%nat R).
Defined.

(** C2 as stated fails on the status handler: on the node as constructed for
    controller-driven use, both accepting flags are false and [stop_node_]
    is false, and the signal HOME-LEFTARM changes none of them. *)
Lemma shouldStop_stale_after_homing_signal :
  @IHMCInterfaceNode.handle Sample.valkyrie Sample.collaborators
    Sample.defaults (IHMCInterfaceNode.status_signal "HOME-LEFTARM")
    (@IHMCInterfaceNode.constructor Sample.valkyrie true Sample.tf0) 0%nat
  = Done (Sample.homing_left_arm, 0%nat)
  /\ ~ (IHMCInterfaceNode.getStopNodeFlag Sample.homing_left_arm = true
        <-> IHMCInterfaceNode.receive_pelvis_transform_
              Sample.homing_left_arm = false
            /\ IHMCInterfaceNode.receive_joint_command_
                 Sample.homing_left_arm = false).
Proof.
  split; [vm_compute; reflexivity|].
  intros [_ H]. specialize (H (conj eq_refl eq_refl)). discriminate H.
Qed.

Lemma shouldStop_after_recomputing_handlers_witness :
  (IHMCInterfaceNode.recomputes_stop_flag
     (IHMCInterfaceNode.status_signal "STOP-LISTENING") = true
   /\ IHMCInterfaceNode.handle (V:=Sample.valkyrie)
        (C:=Sample.collaborators) (D:=Sample.defaults)
        (IHMCInterfaceNode.status_signal "STOP-LISTENING")
        (IHMCInterfaceNode.constructor (V:=Sample.valkyrie) true Sample.tf0)
        0%nat
      = Done (Sample.stopped, 0%nat)
   /\ IHMCInterfaceNode.recomputes_stop_flag
        (IHMCInterfaceNode.status_signal "HOME-LEFTARM") = false
   /\ IHMCInterfaceNode.handle (V:=Sample.valkyrie)
        (C:=Sample.collaborators) (D:=Sample.defaults)
        (IHMCInterfaceNode.status_signal "HOME-LEFTARM")
        (IHMCInterfaceNode.constructor (V:=Sample.valkyrie) true Sample.tf0)
        0%nat
      = Done (Sample.homing_left_arm, 0%nat)
   /\ IHMCInterfaceNode.run (V:=Sample.valkyrie)
        (C:=Sample.collaborators) (D:=Sample.defaults)
        [IHMCInterfaceNode.status_signal "HOME-CHEST";
         IHMCInterfaceNode.pose_update Sample.pose_123]
        (IHMCInterfaceNode.constructor (V:=Sample.valkyrie) true Sample.tf0)
        0%nat
      = Done (Scenario.chest_requested, 0%nat))
  /\ (IHMCInterfaceNode.getStopNodeFlag Sample.stopped = true
      <-> IHMCInterfaceNode.receive_pelvis_transform_ Sample.stopped = false
          /\ IHMCInterfaceNode.receive_joint_command_ Sample.stopped = false)
  /\ IHMCInterfaceNode.getStopNodeFlag Sample.homing_left_arm
     = IHMCInterfaceNode.getStopNodeFlag
         (IHMCInterfaceNode.constructor (V:=Sample.valkyrie) true Sample.tf0)
  /\ ((IHMCInterfaceNode.getStopNodeFlag Sample.homing_left_arm = true
       <-> IHMCInterfaceNode.receive_pelvis_transform_ Sample.homing_left_arm
           = false
           /\ IHMCInterfaceNode.receive_joint_command_
                Sample.homing_left_arm = false)
      <-> true = false
         \/ existsb IHMCInterfaceNode.recomputes_stop_flag
              [IHMCInterfaceNode.status_signal "HOME-LEFTARM"] = true)
  /\ (IHMCInterfaceNode.getStopNodeFlag Scenario.chest_requested = true
      <-> IHMCInterfaceNode.receive_pelvis_transform_
            Scenario.chest_requested = false
          /\ IHMCInterfaceNode.receive_joint_command_
               Scenario.chest_requested = false).
Proof.
  assert (H : IHMCInterfaceNode.handle (V:=Sample.valkyrie)
                (C:=Sample.collaborators) (D:=Sample.defaults)
                (IHMCInterfaceNode.status_signal "STOP-LISTENING")
                (IHMCInterfaceNode.constructor (V:=Sample.valkyrie) true
                   Sample.tf0) 0%nat
              = Done (Sample.stopped, 0%nat))
    by (vm_compute; reflexivity).
  assert (G : IHMCInterfaceNode.handle (V:=Sample.valkyrie)
                (C:=Sample.collaborators) (D:=Sample.defaults)
                (IHMCInterfaceNode.status_signal "HOME-LEFTARM")
                (IHMCInterfaceNode.constructor (V:=Sample.valkyrie) true
                   Sample.tf0) 0%nat
              = Done (Sample.homing_left_arm, 0%nat))
    by (vm_compute; reflexivity).
  assert (G' : IHMCInterfaceNode.run (V:=Sample.valkyrie)
                 (C:=Sample.collaborators) (D:=Sample.defaults)
                 [IHMCInterfaceNode.status_signal "HOME-LEFTARM"]
                 (IHMCInterfaceNode.constructor (V:=Sample.valkyrie) true
                    Sample.tf0) 0%nat
               = Done (Sample.homing_left_arm, 0%nat))
    by (vm_compute; reflexivity).
  assert (R : IHMCInterfaceNode.run (V:=Sample.valkyrie)
                (C:=Sample.collaborators) (D:=Sample.defaults)
                [IHMCInterfaceNode.status_signal "HOME-CHEST";
                 IHMCInterfaceNode.pose_update Sample.pose_123]
                (IHMCInterfaceNode.constructor (V:=Sample.valkyrie) true
                   Sample.tf0) 0%nat
              = Done (Scenario.chest_requested, 0%nat))
    by (vm_compute; reflexivity).
  pose proof (shouldStop_after_recomputing_handlers (V:=Sample.valkyrie)
                (C:=Sample.collaborators) (D:=Sample.defaults))
    as (T1 & _ & T3 & _ & T5).
  split; [repeat split; first [exact H | exact G | exact R]|].
  split; [|split; [|split]].
  - exact (T1 (IHMCInterfaceNode.status_signal "STOP-LISTENING")
              (IHMCInterfaceNode.constructor (V:=Sample.valkyrie) true
                 Sample.tf0)
              0%nat Sample.stopped 0%nat eq_refl H).
  - exact (proj1 (T3 (IHMCInterfaceNode.status_signal "HOME-LEFTARM")
                     (IHMCInterfaceNode.constructor (V:=Sample.valkyrie) true
                        Sample.tf0)
                     0%nat Sample.homing_left_arm 0%nat eq_refl G)).
  - exact (proj1 (T5 true Sample.tf0
                     [IHMCInterfaceNode.status_signal "HOME-LEFTARM"]
                     0%nat Sample.homing_left_arm 0%nat G')).
  - exact (proj2 (proj1 (T5 true Sample.tf0 _ 0%nat
                            Scenario.chest_requested 0%nat R))
             (or_intror eq_refl)).
Defined.

Lemma publishGoHomeMessage_builds_pending_witness :
  @IHMCInterfaceNode.nothing_pending
    (@IHMCInterfaceNode.constructor Sample.valkyrie true Sample.tf0)
  /\ IHMCInterfaceNode.go_home_pub_
       (@IHMCInterfaceNode.publishGoHomeMessage Sample.collaborators
          Sample.defaults Sample.homing_left_arm)
     = [GoHomeMessage.mk 0 0 0 3.0].
Proof.
  assert (H : @IHMCInterfaceNode.nothing_pending
                (@IHMCInterfaceNode.constructor Sample.valkyrie true
                   Sample.tf0))
    by (repeat split).
  split; [exact H|].
  pose proof (proj2 (publishGoHomeMessage_builds_pending
                       (C:=Sample.collaborators) (D:=Sample.defaults))
                (@IHMCInterfaceNode.constructor Sample.valkyrie true
                   Sample.tf0) H) as (_ & P & _).
  exact P.
Defined.

(** ** The joint update *)

Section JointUpdates.
Context `{V : ValkyrieDefinition} `{C : Collaborators} `{D : MessageDefaults}.
Import IHMCInterfaceNode.

Lemma length_resize_setZero n : length (resize_setZero n) = Z.to_nat n.
Proof. unfold resize_setZero. apply repeat_length. Qed.

Lemma set_coeff_in_range (v : Vector) i x :
  0 <= i < Z.of_nat (length v) ->
  set_coeff v i x = Done (<[Z.to_nat i := x]> v).
Proof.
  intros [H0 H1]. unfold set_coeff.
  apply Z.leb_le in H0. apply Z.ltb_lt in H1. now rewrite H0, H1.
Qed.

Lemma set_coeff_inv (v v' : Vector) i x :
  set_coeff v i x = Done v' ->
  v' = <[Z.to_nat i := x]> v /\ 0 <= i < Z.of_nat (length v).
Proof.
  unfold set_coeff.
  destruct (0 <=? i) eqn:H0; [|discriminate].
  destruct (i <? Z.of_nat (length v)) eqn:H1; [|discriminate].
  intros [= <-]. apply Z.leb_le in H0. apply Z.ltb_lt in H1. auto.
Qed.

Lemma coeff_in_range (v : Vector) i x :
  0 <= i -> v !! Z.to_nat i = Some x -> coeff v i = Done x.
Proof.
  intros H0 Hx. unfold coeff.
  assert (H1 : i < Z.of_nat (length v)).
  { apply lookup_lt_Some in Hx. lia. }
  apply Z.leb_le in H0. apply Z.ltb_lt in H1. now rewrite H0, H1, Hx.
Qed.

(** With enough names and every known name in the joint region, the loop
    returns, and what it returns is the fold of [write_pair]. *)
Lemma jointCommand_loop_spec (names : list string) : forall rest i q_joint,
  slots_in_joint_region names ->
  (i + length rest <= length names)%nat ->
  length q_joint = Z.to_nat num_act_joint ->
  jointCommand_loop names i rest q_joint
  = Done (foldl write_pair q_joint (zip (drop i names) rest)).
Proof.
  intros rest. induction rest as [|x rest IH]; intros i q_joint Hs Hl Hq.
  - cbn. now rewrite zip_with_nil_r.
  - cbn [jointCommand_loop length] in *.
    destruct (names !! i) as [name_i|] eqn:Hn.
    2:{ apply lookup_ge_None in Hn. lia. }
    rewrite (drop_S _ _ _ Hn). cbn [zip_with foldl].
    unfold write_pair at 2. cbn [fst snd].
    destruct (joint_names_to_indices !! name_i) as [index|] eqn:Hi.
    + assert (Hr : num_virtual <= index < num_virtual + num_act_joint).
      { pose proof (Forall_lookup_1 _ _ _ _ Hs Hn) as Hr.
        cbv beta in Hr. now rewrite Hi in Hr. }
      rewrite set_coeff_in_range by (rewrite Hq; lia). cbn [obind].
      apply IH; [exact Hs | lia | now rewrite length_insert].
    + apply IH; [exact Hs | lia | exact Hq].
Qed.

(** Whenever the loop returns, what it returns is the fold of
    [write_pair]. *)
Lemma jointCommand_loop_done (names : list string) :
  forall rest i q_joint q_joint',
    jointCommand_loop names i rest q_joint = Done q_joint' ->
    q_joint' = foldl write_pair q_joint (zip (drop i names) rest).
Proof.
  intros rest. induction rest as [|x rest IH]; intros i q_joint q_joint' H.
  - cbn in H. injection H as <-. now rewrite zip_with_nil_r.
  - cbn [jointCommand_loop] in H.
    destruct (names !! i) as [name_i|] eqn:Hn; [|discriminate H].
    rewrite (drop_S _ _ _ Hn). cbn [zip_with foldl].
    unfold write_pair at 2. cbn [fst snd].
    destruct (joint_names_to_indices !! name_i) as [index|].
    + unfold obind in H.
      destruct (set_coeff q_joint (index - num_virtual) x) as [q1|] eqn:Hw;
        [|discriminate H].
      apply set_coeff_inv in Hw as [-> _]. now apply IH.
    + now apply IH.
Qed.

(** With enough names, the loop never reads a name out of range. *)
Lemma jointCommand_loop_names_in_range (names : list string) :
  forall rest i q_joint f,
    (i + length rest <= length names)%nat ->
    jointCommand_loop names i rest q_joint = Undefined f ->
    exists j, f = coefficient_out_of_range j.
Proof.
  intros rest. induction rest as [|x rest IH]; intros i q_joint f Hl H.
  - discriminate H.
  - cbn [jointCommand_loop length] in *.
    destruct (names !! i) as [name_i|] eqn:Hn.
    2:{ apply lookup_ge_None in Hn. lia. }
    destruct (joint_names_to_indices !! name_i) as [index|].
    + unfold set_coeff, obind in H.
      destruct (_ && _).
      * eapply IH; [|exact H]. lia.
      * injection H as <-. eauto.
    + eapply IH; [|exact H]. lia.
Qed.

(** With more positions than names, the loop does not return. *)
Lemma jointCommand_loop_short_names (names : list string) :
  forall rest i q_joint,
    (i <= length names < i + length rest)%nat ->
    is_done (jointCommand_loop names i rest q_joint) = false.
Proof.
  intros rest. induction rest as [|x rest IH]; intros i q_joint Hl.
  - cbn in Hl. lia.
  - cbn [jointCommand_loop length] in *.
    destruct (names !! i) as [name_i|] eqn:Hn; [|reflexivity].
    apply lookup_lt_Some in Hn.
    destruct (joint_names_to_indices !! name_i) as [index|].
    + unfold obind. destruct (set_coeff _ _ _); [|reflexivity].
      apply IH. lia.
    + apply IH. lia.
Qed.

(** With more positions than names and every known name in the joint region,
    the loop stops at the first index past the names. *)
Lemma jointCommand_loop_stops_past_names (names : list string) :
  forall rest i q_joint,
    slots_in_joint_region names ->
    (i <= length names < i + length rest)%nat ->
    length q_joint = Z.to_nat num_act_joint ->
    jointCommand_loop names i rest q_joint
    = Undefined (name_out_of_range (length names)).
Proof.
  intros rest. induction rest as [|x rest IH]; intros i q_joint Hs Hl Hq.
  - cbn in Hl. lia.
  - cbn [jointCommand_loop length] in *.
    destruct (names !! i) as [name_i|] eqn:Hn.
    2:{ apply lookup_ge_None in Hn. do 2 f_equal. lia. }
    pose proof (lookup_lt_Some _ _ _ Hn) as Hlt.
    destruct (joint_names_to_indices !! name_i) as [index|] eqn:Hi.
    + assert (Hr : num_virtual <= index < num_virtual + num_act_joint).
      { pose proof (Forall_lookup_1 _ _ _ _ Hs Hn) as Hr.
        cbv beta in Hr. now rewrite Hi in Hr. }
      rewrite set_coeff_in_range by (rewrite Hq; lia). cbn [obind].
      apply IH; [exact Hs | lia | now rewrite length_insert].
    + apply IH; [exact Hs | lia | exact Hq].
Qed.


Lemma length_foldl_write_pair pairs : forall q_joint,
  length (foldl write_pair q_joint pairs) = length q_joint.
Proof.
  induction pairs as [|pair pairs IH]; intros q_joint; [reflexivity|].
  cbn [foldl]. rewrite IH. unfold write_pair.
  destruct (joint_names_to_indices !! pair.1); [apply length_insert|].
  reflexivity.
Qed.

(** The handler on a message inside its domain. *)
Lemma jointCommandCallback_returns js_msg n :
  receive_joint_command_ n = true ->
  slots_in_joint_region (name js_msg) ->
  (length (position js_msg) <= length (name js_msg))%nat ->
  jointCommandCallback js_msg n
  = Done (updateStopNodeFlag
            (updatePublishCommandsFlag
               (let n1 :=
                  set_received_joint_command_ true
                    (set_q_joint_
                       (full_replace (zip (name js_msg) (position js_msg)))
                       n) in
                if negb (commands_from_controllers_ n1)
                then set_receive_joint_command_ false n1 else n1))).
Proof.
  intros Hr Hs Hl. unfold jointCommandCallback. rewrite Hr.
  rewrite (jointCommand_loop_spec (name js_msg) (position js_msg) 0
             (resize_setZero num_act_joint) Hs)
    by first [cbn; lia | apply length_resize_setZero].
  rewrite drop_0. reflexivity.
Qed.


(** C10.  While the node accepts joints, the loop of the joint handler
    reads [js_msg.name[i]] for every index [i] of the positions.  With at
    least as many names as positions no name is read out of range; with
    fewer names the handler never returns.  When every known name has its
    slot in the joint region, the handler returns exactly when there are at
    least as many names as positions, and otherwise stops reading the name
    at the first index past the names. *)
Theorem joint_update_needs_as_many_names js_msg n :
  receive_joint_command_ n = true ->
  ((length (position js_msg) <= length (name js_msg))%nat ->
   forall f, jointCommandCallback js_msg n = Undefined f ->
             exists j, f = coefficient_out_of_range j)
  /\ ((length (name js_msg) < length (position js_msg))%nat ->
      is_done (jointCommandCallback js_msg n) = false)
  /\ (slots_in_joint_region (name js_msg) ->
      is_done (jointCommandCallback js_msg n) = true
      <-> (length (position js_msg) <= length (name js_msg))%nat)
  /\ (slots_in_joint_region (name js_msg) ->
      (length (name js_msg) < length (position js_msg))%nat ->
      jointCommandCallback js_msg n
      = Undefined (name_out_of_range (length (name js_msg)))).
Proof.
  intros Hr.
  assert (Hshort : (length (name js_msg) < length (position js_msg))%nat ->
                   is_done (jointCommandCallback js_msg n) = false).
  { intros Hl. unfold jointCommandCallback. rewrite Hr.
    pose proof (jointCommand_loop_short_names (name js_msg)
                  (position js_msg) 0 (resize_setZero num_act_joint)) as H.
    destruct (jointCommand_loop _ _ _ _); [|reflexivity].
    cbn in H. discriminate H. lia. }
  split; [|split; [exact Hshort|split]].
  - intros Hl f. unfold jointCommandCallback. rewrite Hr.
    destruct (jointCommand_loop _ _ _ _) eqn:Hloop; [discriminate|].
    cbn [obind]. intros [= <-].
    eapply jointCommand_loop_names_in_range; [|exact Hloop]. cbn. lia.
  - intros Hs. split.
    + intros Hd.
      destruct (le_lt_dec (length (position js_msg)) (length (name js_msg)))
        as [Hle|Hlt]; [exact Hle|].
      rewrite (Hshort Hlt) in Hd. discriminate Hd.
    + intros Hl.
      rewrite (jointCommandCallback_returns js_msg n Hr Hs Hl).
      reflexivity.
  - intros Hs Hl. unfold jointCommandCallback. rewrite Hr.
    rewrite (jointCommand_loop_stops_past_names (name js_msg)
               (position js_msg) 0 (resize_setZero num_act_joint) Hs)
      by first [cbn; lia | apply length_resize_setZero].
    reflexivity.
Qed.

End JointUpdates.


Lemma joint_update_needs_as_many_names_witness :
  (IHMCInterfaceNode.receive_joint_command_ Sample.after_pose = true
   /\ (length (name Sample.two_positions_one_name)
       < length (position Sample.two_positions_one_name))%nat
   /\ IHMCInterfaceNode.slots_in_joint_region (V:=Sample.valkyrie)
        (name Sample.two_positions_one_name))
  /\ is_done (IHMCInterfaceNode.jointCommandCallback (V:=Sample.valkyrie)
                Sample.two_positions_one_name Sample.after_pose) = false
  /\ IHMCInterfaceNode.jointCommandCallback (V:=Sample.valkyrie)
       Sample.two_positions_one_name Sample.after_pose
     = Undefined (name_out_of_range 1).
Proof.
  assert (Hl : (length (name Sample.two_positions_one_name)
                < length (position Sample.two_positions_one_name))%nat)
    by (cbn; lia).
  assert (Hs : IHMCInterfaceNode.slots_in_joint_region (V:=Sample.valkyrie)
                 (name Sample.two_positions_one_name)).
  { unfold IHMCInterfaceNode.slots_in_joint_region.
    repeat (apply Forall_cons; split); [..|apply Forall_nil];
      vm_compute; try split; congruence. }
  pose proof (joint_update_needs_as_many_names (V:=Sample.valkyrie)
                Sample.two_positions_one_name Sample.after_pose eq_refl)
    as (_ & T2 & _ & T4).
  split; [split; [reflexivity | split; [exact Hl | exact Hs]]|].
  split; [exact (T2 Hl) | exact (T4 Hs Hl)].
Defined.

(** ** Command assembly *)

Section Assembly.
Context `{V : ValkyrieDefinition} `{C : Collaborators}.
Import IHMCMsgUtils.

Lemma coeff_done_nonneg (v : Vector) i x : coeff v i = Done x -> 0 <= i.
Proof.
  unfold coeff. destruct (0 <=? i) eqn:H0; [|discriminate].
  intros _. now apply Z.leb_le.
Qed.

(** The loop fills the entries from [i] on and keeps those before. *)
Lemma selectRelevantJoints_loop_spec (q : Vector) :
  forall rest vals i q_joints,
    Forall2 (fun idx x =>
               (if idx =? -1 then Done 0%float else coeff q idx) = Done x)
            rest vals ->
    length q_joints = (i + length rest)%nat ->
    selectRelevantJoints_loop q i rest q_joints
    = Done (take i q_joints ++ vals).
Proof.
  intros rest. induction rest as [|idx rest IH]; intros vals i q_joints Hv Hl.
  - apply Forall2_nil_inv_l in Hv as ->. cbn in *.
    rewrite app_nil_r, take_ge by lia. reflexivity.
  - apply Forall2_cons_inv_l in Hv as (x & vals' & Hx & Hv & ->).
    cbn [selectRelevantJoints_loop length] in *. rewrite Hx. cbn [obind].
    rewrite set_coeff_in_range by lia. cbn [obind].
    rewrite Nat2Z.id.
    rewrite (IH vals' (S i)); [|exact Hv|rewrite length_insert; lia].
    f_equal.
    rewrite (take_S_r _ _ x).
    + rewrite take_insert_ge by lia. now rewrite <- app_assoc.
    + apply list_lookup_insert_eq. lia.
Qed.

Lemma selectRelevantJointsConfiguration_spec (q : Vector) joint_indices vals :
  Forall2 (fun idx x =>
             (if idx =? -1 then Done 0%float else coeff q idx) = Done x)
          joint_indices vals ->
  selectRelevantJointsConfiguration q joint_indices = Done vals.
Proof.
  intros Hv. unfold selectRelevantJointsConfiguration.
  rewrite (selectRelevantJoints_loop_spec q joint_indices vals 0); [|exact Hv|].
  - reflexivity.
  - rewrite length_resize_setZero, Nat2Z.id. reflexivity.
Qed.

Lemma makeIHMCQueueableMessage_done q_msg msg_params k :
  exists out,
    makeIHMCQueueableMessage q_msg msg_params k = Done (out, S k)
    /\ queueable_as_params msg_params q_msg out.
Proof. eexists. split; [reflexivity|]. split; reflexivity. Qed.

Lemma jointspace_target_map msg_params (q_joints : Vector) :
  flat_map
    (fun j_msg =>
       map TrajectoryPoint1DMessage.position
         (OneDoFJointTrajectoryMessage.trajectory_points j_msg))
    (map (fun q_joint =>
            makeIHMCOneDoFJointTrajectoryMessage q_joint
              OneDoFJointTrajectoryMessage.init msg_params) q_joints)
  = q_joints.
Proof.
  induction q_joints as [|x l IH]; [reflexivity|].
  cbn [map flat_map]. rewrite IH. reflexivity.
Qed.

Lemma jointspace_times_map msg_params (q_joints : Vector) :
  Forall (fun tm =>
            tm = IHMCTrajectoryPointParams.time
                   (IHMCMessageParameters.traj_point_params msg_params))
    (flat_map
       (fun j_msg =>
          map TrajectoryPoint1DMessage.time
            (OneDoFJointTrajectoryMessage.trajectory_points j_msg))
       (map (fun q_joint =>
               makeIHMCOneDoFJointTrajectoryMessage q_joint
                 OneDoFJointTrajectoryMessage.init msg_params) q_joints)).
Proof.
  induction q_joints as [|x l IH]; [constructor|].
  cbn [map flat_map]. apply Forall_app. split; [|exact IH].
  repeat constructor.
Qed.

Lemma makeIHMCJointspaceTrajectoryMessage_done q_joints js_msg msg_params k :
  exists out,
    makeIHMCJointspaceTrajectoryMessage q_joints js_msg msg_params k
    = Done (out, S k)
    /\ queueable_as_params msg_params
         (JointspaceTrajectoryMessage.queueing_properties js_msg)
         (JointspaceTrajectoryMessage.queueing_properties out)
    /\ jointspace_target out = q_joints
    /\ Forall (fun tm =>
                 tm = IHMCTrajectoryPointParams.time
                        (IHMCMessageParameters.traj_point_params msg_params))
         (jointspace_times out).
Proof.
  eexists. split; [reflexivity|].
  split; [split; reflexivity|].
  split; [apply jointspace_target_map | apply jointspace_times_map].
Qed.

Lemma makeIHMCArmTrajectoryMessage_done q_joints arm_msg side msg_params k :
  exists out,
    makeIHMCArmTrajectoryMessage q_joints arm_msg side msg_params k
    = Done (out, S k)
    /\ queueable_as_params msg_params
         (JointspaceTrajectoryMessage.queueing_properties
            (ArmTrajectoryMessage.jointspace_trajectory arm_msg))
         (JointspaceTrajectoryMessage.queueing_properties
            (ArmTrajectoryMessage.jointspace_trajectory out))
    /\ jointspace_target (ArmTrajectoryMessage.jointspace_trajectory out)
       = q_joints
    /\ Forall (fun tm =>
                 tm = IHMCTrajectoryPointParams.time
                        (IHMCMessageParameters.traj_point_params msg_params))
         (jointspace_times (ArmTrajectoryMessage.jointspace_trajectory out)).
Proof.
  eexists. split; [reflexivity|].
  split; [split; reflexivity|].
  split; [apply jointspace_target_map | apply jointspace_times_map].
Qed.

Lemma makeIHMCNeckTrajectoryMessage_done q_joints neck_msg msg_params k :
  exists out,
    makeIHMCNeckTrajectoryMessage q_joints neck_msg msg_params k
    = Done (out, S k)
    /\ queueable_as_params msg_params
         (JointspaceTrajectoryMessage.queueing_properties
            (NeckTrajectoryMessage.jointspace_trajectory neck_msg))
         (JointspaceTrajectoryMessage.queueing_properties
            (NeckTrajectoryMessage.jointspace_trajectory out))
    /\ Forall (fun tm =>
                 tm = IHMCTrajectoryPointParams.time
                        (IHMCMessageParameters.traj_point_params msg_params))
         (jointspace_times (NeckTrajectoryMessage.jointspace_trajectory out)).
Proof.
  eexists. split; [reflexivity|].
  split; [split; reflexivity | apply jointspace_times_map].
Qed.

Lemma makeIHMCChestTrajectoryMessage_done quat chest_msg msg_params k :
  exists out,
    makeIHMCChestTrajectoryMessage quat chest_msg msg_params k
    = Done (out, S k)
    /\ queueable_as_params msg_params
         (SO3TrajectoryMessage.queueing_properties
            (ChestTrajectoryMessage.so3_trajectory chest_msg))
         (SO3TrajectoryMessage.queueing_properties
            (ChestTrajectoryMessage.so3_trajectory out))
    /\ map SO3TrajectoryPointMessage.time
         (SO3TrajectoryMessage.taskspace_trajectory_points
            (ChestTrajectoryMessage.so3_trajectory out))
       = [IHMCTrajectoryPointParams.time
            (IHMCMessageParameters.traj_point_params msg_params)].
Proof.
  eexists. split; [reflexivity|]. split; [split; reflexivity | reflexivity].
Qed.

(** The pelvis message carries one trajectory point, whose position and
    orientation are the first seven entries of the vector it is given. *)
Lemma makeIHMCPelvisTrajectoryMessage_done q_joints pelvis_msg msg_params k
    pos quat :
  getPelvisPose q_joints = Done (pos, quat) ->
  exists out,
    makeIHMCPelvisTrajectoryMessage q_joints pelvis_msg msg_params k
    = Done (out, S k)
    /\ queueable_as_params msg_params
         (SE3TrajectoryMessage.queueing_properties
            (PelvisTrajectoryMessage.se3_trajectory pelvis_msg))
         (SE3TrajectoryMessage.queueing_properties
            (PelvisTrajectoryMessage.se3_trajectory out))
    /\ SE3TrajectoryMessage.taskspace_trajectory_points
         (PelvisTrajectoryMessage.se3_trajectory out)
       = [SE3TrajectoryPointMessage.mk
            (IHMCMessageParameters.sequence_id msg_params)
            (IHMCTrajectoryPointParams.time
               (IHMCMessageParameters.traj_point_params msg_params))
            (Point.mk (v_x pos) (v_y pos) (v_z pos))
            (QuaternionMsg.mk (q_x quat) (q_y quat) (q_z quat) (q_w quat))
            (Vector3.mk 0 0 0) (Vector3.mk 0 0 0)].
Proof.
  intros Hp. unfold makeIHMCPelvisTrajectoryMessage, tbind, lift.
  rewrite Hp. eexists. split; [reflexivity|].
  split; [split; reflexivity | reflexivity].
Qed.

Lemma makeIHMCPelvisTrajectoryMessage_inv q_joints pelvis_msg msg_params k
    out k' :
  makeIHMCPelvisTrajectoryMessage q_joints pelvis_msg msg_params k
  = Done (out, k') ->
  exists pos quat, getPelvisPose q_joints = Done (pos, quat).
Proof.
  unfold makeIHMCPelvisTrajectoryMessage, tbind, lift.
  destruct (getPelvisPose q_joints) as [[pos quat]|]; [eauto|discriminate].
Qed.

(** What each part of an assembled whole-body message comes from. *)
Lemma makeIHMCWholeBodyTrajectoryMessage_parts q wb msg_params k msg k' :
  makeIHMCWholeBodyTrajectoryMessage q wb msg_params k = Done (msg, k') ->
  let links := IHMCMessageParameters.controlled_links msg_params in
  (if checkControlledLink links link_leftPalm
   then exists q_larm k0 k1,
       selectRelevantJointsConfiguration q getRelevantJointIndicesLeftArm
       = Done q_larm
       /\ makeIHMCArmTrajectoryMessage q_larm
            (WholeBodyTrajectoryMessage.left_arm_trajectory_message wb) 0
            msg_params k0
          = Done (WholeBodyTrajectoryMessage.left_arm_trajectory_message msg,
                  k1)
   else WholeBodyTrajectoryMessage.left_arm_trajectory_message msg
        = WholeBodyTrajectoryMessage.left_arm_trajectory_message wb)
  /\ (if checkControlledLink links link_rightPalm
      then exists q_rarm k0 k1,
          selectRelevantJointsConfiguration q getRelevantJointIndicesRightArm
          = Done q_rarm
          /\ makeIHMCArmTrajectoryMessage q_rarm
               (WholeBodyTrajectoryMessage.right_arm_trajectory_message wb) 1
               msg_params k0
             = Done
                 (WholeBodyTrajectoryMessage.right_arm_trajectory_message msg,
                  k1)
      else WholeBodyTrajectoryMessage.right_arm_trajectory_message msg
           = WholeBodyTrajectoryMessage.right_arm_trajectory_message wb)
  /\ (if checkControlledLink links link_torso
      then exists k0 k1,
          makeIHMCChestTrajectoryMessage (getChestOrientation q)
            (WholeBodyTrajectoryMessage.chest_trajectory_message wb)
            msg_params k0
          = Done (WholeBodyTrajectoryMessage.chest_trajectory_message msg, k1)
      else WholeBodyTrajectoryMessage.chest_trajectory_message msg
           = WholeBodyTrajectoryMessage.chest_trajectory_message wb)
  /\ (if checkControlledLink links link_pelvis
      then exists q_pelvis k0 k1,
          selectRelevantJointsConfiguration q getRelevantJointIndicesPelvis
          = Done q_pelvis
          /\ makeIHMCPelvisTrajectoryMessage q_pelvis
               (WholeBodyTrajectoryMessage.pelvis_trajectory_message wb)
               msg_params k0
             = Done (WholeBodyTrajectoryMessage.pelvis_trajectory_message msg,
                     k1)
      else WholeBodyTrajectoryMessage.pelvis_trajectory_message msg
           = WholeBodyTrajectoryMessage.pelvis_trajectory_message wb)
  /\ (if checkControlledLink links link_head
      then exists q_neck k0 k1,
          selectRelevantJointsConfiguration q getRelevantJointIndicesNeck
          = Done q_neck
          /\ makeIHMCNeckTrajectoryMessage q_neck
               (WholeBodyTrajectoryMessage.neck_trajectory_message wb)
               msg_params k0
             = Done (WholeBodyTrajectoryMessage.neck_trajectory_message msg,
                     k1)
      else WholeBodyTrajectoryMessage.neck_trajectory_message msg
           = WholeBodyTrajectoryMessage.neck_trajectory_message wb)
  /\ WholeBodyTrajectoryMessage.spine_trajectory_message msg
     = WholeBodyTrajectoryMessage.spine_trajectory_message wb
  /\ WholeBodyTrajectoryMessage.left_foot_trajectory_message msg
     = WholeBodyTrajectoryMessage.left_foot_trajectory_message wb
  /\ WholeBodyTrajectoryMessage.right_foot_trajectory_message msg
     = WholeBodyTrajectoryMessage.right_foot_trajectory_message wb.
Proof.
  intros H links. subst links.
  unfold makeIHMCWholeBodyTrajectoryMessage, tbind, lift, tret in H.
  repeat
    match type of H with
    | context [checkControlledLink ?l ?x] =>
        let b := fresh "control" in
        destruct (checkControlledLink l x) eqn:b; cbv beta iota in H
    | context [selectRelevantJointsConfiguration ?a ?b] =>
        destruct (selectRelevantJointsConfiguration a b) eqn:?;
          cbv beta iota in H; [|discriminate H]
    | context [makeIHMCArmTrajectoryMessage ?a ?b ?c ?d ?e] =>
        destruct (makeIHMCArmTrajectoryMessage a b c d e) as [[? ?]|] eqn:?;
          cbv beta iota in H; [|discriminate H]
    | context [makeIHMCChestTrajectoryMessage ?a ?b ?c ?d] =>
        destruct (makeIHMCChestTrajectoryMessage a b c d) as [[? ?]|] eqn:?;
          cbv beta iota in H; [|discriminate H]
    | context [makeIHMCPelvisTrajectoryMessage ?a ?b ?c ?d] =>
        destruct (makeIHMCPelvisTrajectoryMessage a b c d) as [[? ?]|] eqn:?;
          cbv beta iota in H; [|discriminate H]
    | context [makeIHMCNeckTrajectoryMessage ?a ?b ?c ?d] =>
        destruct (makeIHMCNeckTrajectoryMessage a b c d) as [[? ?]|] eqn:?;
          cbv beta iota in H; [|discriminate H]
    end;
    injection H as <- <-; cbn [WholeBodyTrajectoryMessage.left_arm_trajectory_message
      WholeBodyTrajectoryMessage.right_arm_trajectory_message
      WholeBodyTrajectoryMessage.chest_trajectory_message
      WholeBodyTrajectoryMessage.pelvis_trajectory_message
      WholeBodyTrajectoryMessage.neck_trajectory_message
      WholeBodyTrajectoryMessage.spine_trajectory_message
      WholeBodyTrajectoryMessage.left_foot_trajectory_message
      WholeBodyTrajectoryMessage.right_foot_trajectory_message];
    repeat split; eauto 6.
Qed.

Lemma selected_values (q : Vector) joint_indices :
  Forall (fun idx => idx = -1 \/ 0 <= idx < Z.of_nat (length q))
    joint_indices ->
  exists vals,
    Forall2 (fun idx x =>
               (if idx =? -1 then Done 0%float else coeff q idx) = Done x)
            joint_indices vals.
Proof.
  induction 1 as [|idx l Hidx _ (vals & IH)]; [exists []; constructor|].
  destruct (Z.eqb_spec idx (-1)) as [->|Hne].
  - exists (0%float :: vals). constructor; [reflexivity | exact IH].
  - destruct Hidx as [?|Hr]; [contradiction|].
    destruct (lookup_lt_is_Some_2 q (Z.to_nat idx)) as [x Hx]; [lia|].
    exists (x :: vals). constructor; [|exact IH].
    apply Z.eqb_neq in Hne. rewrite Hne.
    apply coeff_in_range; [lia | exact Hx].
Qed.

Lemma selectRelevantJointsConfiguration_total (q : Vector) joint_indices :
  Forall (fun idx => idx = -1 \/ 0 <= idx < Z.of_nat (length q))
    joint_indices ->
  exists vals,
    selectRelevantJointsConfiguration q joint_indices = Done vals
    /\ length vals = length joint_indices.
Proof.
  intros H. destruct (selected_values q joint_indices H) as (vals & Hv).
  exists vals. split; [now apply selectRelevantJointsConfiguration_spec|].
  symmetry. eapply Forall2_length; exact Hv.
Qed.



(** C5.  Selection by an index list puts 0.0 at every sentinel index -1 and
    the coefficient of the configuration at every other index.  For a
    configuration whose five left-arm slots hold [a, b, c, d, e], the
    selection by the left-arm indices is [a, b, c, d, e, 0, 0]; the arm
    message built from it has that seven-element jointspace target, and so
    has the left arm of every whole-body message assembled from the
    configuration with the left palm among the controlled links. *)
Theorem left_arm_target_pads_wrist (q : Vector) a b c d e :
  coeff q leftShoulderPitch = Done a ->
  coeff q leftShoulderRoll = Done b ->
  coeff q leftShoulderYaw = Done c ->
  coeff q leftElbowPitch = Done d ->
  coeff q leftForearmYaw = Done e ->
  let target := [a; b; c; d; e; 0; 0]%float in
  (forall joint_indices vals,
      Forall2 (fun idx x =>
                 (if idx =? -1 then Done 0%float else coeff q idx) = Done x)
              joint_indices vals ->
      selectRelevantJointsConfiguration q joint_indices = Done vals)
  /\ selectRelevantJointsConfiguration q getRelevantJointIndicesLeftArm
     = Done target
  /\ (forall arm_msg side msg_params k,
         exists out,
           makeIHMCArmTrajectoryMessage target arm_msg side msg_params k
           = Done (out, S k)
           /\ jointspace_target
                (ArmTrajectoryMessage.jointspace_trajectory out) = target)
  /\ (forall wb msg_params k msg k',
         checkControlledLink
           (IHMCMessageParameters.controlled_links msg_params) link_leftPalm
         = true ->
         makeIHMCWholeBodyTrajectoryMessage q wb msg_params k
         = Done (msg, k') ->
         jointspace_target
           (ArmTrajectoryMessage.jointspace_trajectory
              (WholeBodyTrajectoryMessage.left_arm_trajectory_message msg))
         = target).
Proof.
  intros Ha Hb Hc Hd He target.
  assert (Hsel : selectRelevantJointsConfiguration q
                   getRelevantJointIndicesLeftArm = Done target).
  { apply selectRelevantJointsConfiguration_spec.
    unfold getRelevantJointIndicesLeftArm, target. cbn [app].
    repeat constructor;
      match goal with
      | |- (if ?i =? -1 then _ else _) = Done ?x =>
          assert (0 <= i) by (eapply coeff_done_nonneg; eassumption);
          destruct (Z.eqb_spec i (-1)); [lia | assumption]
      end. }
  split; [apply selectRelevantJointsConfiguration_spec|].
  split; [exact Hsel|]. split.
  - intros arm_msg side msg_params k.
    destruct (makeIHMCArmTrajectoryMessage_done target arm_msg side
                msg_params k) as (out & Hout & _ & Ht & _).
    eauto.
  - intros wb msg_params k msg k' Hlink H.
    apply makeIHMCWholeBodyTrajectoryMessage_parts in H as (Hl & _).
    rewrite Hlink in Hl. destruct Hl as (q_larm & k0 & k1 & Hq & Hm).
    rewrite Hsel in Hq. injection Hq as <-.
    destruct (makeIHMCArmTrajectoryMessage_done target
                (WholeBodyTrajectoryMessage.left_arm_trajectory_message wb)
                0 msg_params k0) as (out & Hout & _ & Ht & _).
    rewrite Hout in Hm. injection Hm as <- _. exact Ht.
Qed.

(** C6.  The pelvis part takes its pose from the seven root-pose slots
    [virtual_X] .. [virtual_Rw] of the configuration and from nothing else:
    when they hold [px, py, pz, rx, ry, rz, rw], the selection by the pelvis
    indices is that list, and the pelvis message of a whole-body message
    assembled with the pelvis link controlled has exactly one trajectory
    point, with position (px, py, pz) and orientation (rx, ry, rz, rw).
    Where the root pose takes the first seven slots, as in the spec, this is
    so for every configuration that starts with these seven values; root
    pose [1,2,3,0,0,0,1] gives position (1,2,3) and orientation (0,0,0,1). *)
Theorem pelvis_pose_from_root_slots :
  let point msg_params px py pz rx ry rz rw :=
    SE3TrajectoryPointMessage.mk
      (IHMCMessageParameters.sequence_id msg_params)
      (IHMCTrajectoryPointParams.time
         (IHMCMessageParameters.traj_point_params msg_params))
      (Point.mk px py pz) (QuaternionMsg.mk rx ry rz rw)
      (Vector3.mk 0 0 0) (Vector3.mk 0 0 0) in
  let reads (q : Vector) px py pz rx ry rz rw :=
    selectRelevantJointsConfiguration q getRelevantJointIndicesPelvis
    = Done [px; py; pz; rx; ry; rz; rw]
    /\ forall wb msg_params k msg k',
        checkControlledLink
          (IHMCMessageParameters.controlled_links msg_params) link_pelvis
        = true ->
        makeIHMCWholeBodyTrajectoryMessage q wb msg_params k
        = Done (msg, k') ->
        SE3TrajectoryMessage.taskspace_trajectory_points
          (PelvisTrajectoryMessage.se3_trajectory
             (WholeBodyTrajectoryMessage.pelvis_trajectory_message msg))
        = [point msg_params px py pz rx ry rz rw] in
  (forall (q : Vector) px py pz rx ry rz rw,
      coeff q virtual_X = Done px ->
      coeff q virtual_Y = Done py ->
      coeff q virtual_Z = Done pz ->
      coeff q virtual_Rx = Done rx ->
      coeff q virtual_Ry = Done ry ->
      coeff q virtual_Rz = Done rz ->
      coeff q virtual_Rw = Done rw ->
      reads q px py pz rx ry rz rw)
  /\ (forall px py pz rx ry rz rw (joints : Vector),
         [virtual_X; virtual_Y; virtual_Z;
          virtual_Rx; virtual_Ry; virtual_Rz; virtual_Rw]
         = [0; 1; 2; 3; 4; 5; 6] ->
         reads ([px; py; pz; rx; ry; rz; rw] ++ joints)
           px py pz rx ry rz rw).
Proof.
  intros point reads.
  assert (General : forall (q : Vector) px py pz rx ry rz rw,
             coeff q virtual_X = Done px ->
             coeff q virtual_Y = Done py ->
             coeff q virtual_Z = Done pz ->
             coeff q virtual_Rx = Done rx ->
             coeff q virtual_Ry = Done ry ->
             coeff q virtual_Rz = Done rz ->
             coeff q virtual_Rw = Done rw ->
             reads q px py pz rx ry rz rw).
  { intros q px py pz rx ry rz rw Hx Hy Hz Hrx Hry Hrz Hrw.
    assert (Hsel : selectRelevantJointsConfiguration q
                     getRelevantJointIndicesPelvis
                   = Done [px; py; pz; rx; ry; rz; rw]).
    { apply selectRelevantJointsConfiguration_spec.
      unfold getRelevantJointIndicesPelvis. cbn [app].
      repeat constructor;
        match goal with
        | |- (if ?i =? -1 then _ else _) = Done ?x =>
            assert (0 <= i) by (eapply coeff_done_nonneg; eassumption);
            destruct (Z.eqb_spec i (-1)); [lia | assumption]
        end. }
    split; [exact Hsel|].
    intros wb msg_params k msg k' Hlink H.
    apply makeIHMCWholeBodyTrajectoryMessage_parts in H
      as (_ & _ & _ & Hp & _).
    rewrite Hlink in Hp. destruct Hp as (q_pelvis & k0 & k1 & Hq & Hm).
    rewrite Hsel in Hq. injection Hq as <-.
    destruct (makeIHMCPelvisTrajectoryMessage_done
                [px; py; pz; rx; ry; rz; rw]
                (WholeBodyTrajectoryMessage.pelvis_trajectory_message wb)
                msg_params k0 (mkVect3 px py pz) (mkQuaternion rx ry rz rw)
                eq_refl) as (out & Hout & _ & Hpt).
    rewrite Hout in Hm. injection Hm as <- _. exact Hpt. }
  split; [exact General|].
  intros px py pz rx ry rz rw joints [= Hx Hy Hz Hrx Hry Hrz Hrw].
  apply General;
    rewrite ?Hx, ?Hy, ?Hz, ?Hrx, ?Hry, ?Hrz, ?Hrw;
    (apply coeff_in_range; [lia | reflexivity]).
Qed.

End Assembly.

Lemma left_arm_target_pads_wrist_witness :
  (coeff Sample.q_sample (leftShoulderPitch (ValkyrieDefinition:=Sample.valkyrie))
   = Done 0.1%float
   /\ coeff Sample.q_sample (leftShoulderRoll (ValkyrieDefinition:=Sample.valkyrie))
      = Done 0.2%float
   /\ coeff Sample.q_sample (leftShoulderYaw (ValkyrieDefinition:=Sample.valkyrie))
      = Done 0.3%float
   /\ coeff Sample.q_sample (leftElbowPitch (ValkyrieDefinition:=Sample.valkyrie))
      = Done 0.4%float
   /\ coeff Sample.q_sample (leftForearmYaw (ValkyrieDefinition:=Sample.valkyrie))
      = Done 0.5%float
   /\ IHMCMsgUtils.checkControlledLink
        (IHMCMessageParameters.controlled_links Sample.params_all_links)
        (link_leftPalm (ValkyrieDefinition:=Sample.valkyrie)) = true
   /\ IHMCMsgUtils.makeIHMCWholeBodyTrajectoryMessage (V:=Sample.valkyrie)
        (C:=Sample.collaborators) Sample.q_sample
        WholeBodyTrajectoryMessage.init Sample.params_all_links 0%nat
      = Done (Sample.wholebody_sample, 5%nat))
  /\ IHMCMsgUtils.selectRelevantJointsConfiguration Sample.q_sample
       (IHMCMsgUtils.getRelevantJointIndicesLeftArm (V:=Sample.valkyrie))
     = Done [0.1; 0.2; 0.3; 0.4; 0.5; 0; 0]%float
  /\ IHMCMsgUtils.jointspace_target
       (ArmTrajectoryMessage.jointspace_trajectory
          (WholeBodyTrajectoryMessage.left_arm_trajectory_message
             Sample.wholebody_sample))
     = [0.1; 0.2; 0.3; 0.4; 0.5; 0; 0]%float.
Proof.
  assert (Hw : IHMCMsgUtils.makeIHMCWholeBodyTrajectoryMessage
                 (V:=Sample.valkyrie) (C:=Sample.collaborators)
                 Sample.q_sample WholeBodyTrajectoryMessage.init
                 Sample.params_all_links 0%nat
               = Done (Sample.wholebody_sample, 5%nat))
    by (vm_compute; reflexivity).
  pose proof (left_arm_target_pads_wrist (V:=Sample.valkyrie)
                (C:=Sample.collaborators) Sample.q_sample
                0.1 0.2 0.3 0.4 0.5 eq_refl eq_refl eq_refl eq_refl eq_refl)
    as (_ & Hsel & _ & Hwb).
  split; [repeat split; first [reflexivity | exact Hw]|].
  split; [exact Hsel|].
  exact (Hwb WholeBodyTrajectoryMessage.init Sample.params_all_links 0%nat
           Sample.wholebody_sample 5%nat eq_refl Hw).
Defined.

Lemma pelvis_pose_from_root_slots_witness :
  (coeff Sample.q_sample (virtual_X (ValkyrieDefinition:=Sample.valkyrie))
   = Done 1%float
   /\ coeff Sample.q_sample (virtual_Y (ValkyrieDefinition:=Sample.valkyrie))
      = Done 2%float
   /\ coeff Sample.q_sample (virtual_Z (ValkyrieDefinition:=Sample.valkyrie))
      = Done 3%float
   /\ coeff Sample.q_sample (virtual_Rx (ValkyrieDefinition:=Sample.valkyrie))
      = Done 0%float
   /\ coeff Sample.q_sample (virtual_Ry (ValkyrieDefinition:=Sample.valkyrie))
      = Done 0%float
   /\ coeff Sample.q_sample (virtual_Rz (ValkyrieDefinition:=Sample.valkyrie))
      = Done 0%float
   /\ coeff Sample.q_sample (virtual_Rw (ValkyrieDefinition:=Sample.valkyrie))
      = Done 1%float
   /\ [virtual_X (ValkyrieDefinition:=Sample.valkyrie);
       virtual_Y (ValkyrieDefinition:=Sample.valkyrie);
       virtual_Z (ValkyrieDefinition:=Sample.valkyrie);
       virtual_Rx (ValkyrieDefinition:=Sample.valkyrie);
       virtual_Ry (ValkyrieDefinition:=Sample.valkyrie);
       virtual_Rz (ValkyrieDefinition:=Sample.valkyrie);
       virtual_Rw (ValkyrieDefinition:=Sample.valkyrie)]
      = [0; 1; 2; 3; 4; 5; 6]
   /\ IHMCMsgUtils.checkControlledLink
        (IHMCMessageParameters.controlled_links Sample.params_all_links)
        (link_pelvis (ValkyrieDefinition:=Sample.valkyrie)) = true
   /\ IHMCMsgUtils.makeIHMCWholeBodyTrajectoryMessage (V:=Sample.valkyrie)
        (C:=Sample.collaborators) Sample.q_sample
        WholeBodyTrajectoryMessage.init Sample.params_all_links 0%nat
      = Done (Sample.wholebody_sample, 5%nat))
  /\ SE3TrajectoryMessage.taskspace_trajectory_points
       (PelvisTrajectoryMessage.se3_trajectory
          (WholeBodyTrajectoryMessage.pelvis_trajectory_message
             Sample.wholebody_sample))
     = [SE3TrajectoryPointMessage.mk 1 1.0 (Point.mk 1 2 3)
          (QuaternionMsg.mk 0 0 0 1) (Vector3.mk 0 0 0) (Vector3.mk 0 0 0)]
  /\ IHMCMsgUtils.selectRelevantJointsConfiguration
       ([1; 2; 3; 0; 0; 0; 1] ++ drop 7 Sample.q_sample)%float
       (IHMCMsgUtils.getRelevantJointIndicesPelvis (V:=Sample.valkyrie))
     = Done [1; 2; 3; 0; 0; 0; 1]%float.
Proof.
  assert (Hw : IHMCMsgUtils.makeIHMCWholeBodyTrajectoryMessage
                 (V:=Sample.valkyrie) (C:=Sample.collaborators)
                 Sample.q_sample WholeBodyTrajectoryMessage.init
                 Sample.params_all_links 0%nat
               = Done (Sample.wholebody_sample, 5%nat))
    by (vm_compute; reflexivity).
  pose proof (pelvis_pose_from_root_slots (V:=Sample.valkyrie)
                (C:=Sample.collaborators)) as (T1 & T2).
  pose proof (T1 Sample.q_sample 1 2 3 0 0 0 1
                eq_refl eq_refl eq_refl eq_refl eq_refl eq_refl eq_refl)%float
    as (_ & Hwb).
  pose proof (T2 1 2 3 0 0 0 1 (drop 7 Sample.q_sample) eq_refl)%float
    as (Hsel & _).
  split; [repeat split; first [reflexivity | exact Hw]|].
  split; [|exact Hsel].
  exact (Hwb WholeBodyTrajectoryMessage.init Sample.params_all_links 0%nat
           Sample.wholebody_sample 5%nat eq_refl Hw).
Defined.

(** ** Publishing *)

Section Publishing.
Context `{V : ValkyrieDefinition} `{C : Collaborators} `{D : MessageDefaults}.
Import IHMCInterfaceNode IHMCMsgUtils.

(** The whole-body message assembled into a fresh message: every part that
    the links select is filled from the parameters, and no other part holds
    a trajectory point. *)
Lemma wholebody_from_init q msg_params k msg k' :
  makeIHMCWholeBodyTrajectoryMessage q WholeBodyTrajectoryMessage.init
    msg_params k = Done (msg, k') ->
  Forall (queueable_as_params msg_params QueueableMessage.init)
    (queueing_properties_of msg
       (IHMCMessageParameters.controlled_links msg_params))
  /\ Forall (fun tm =>
               tm = IHMCTrajectoryPointParams.time
                      (IHMCMessageParameters.traj_point_params msg_params))
       (trajectory_point_times msg).
Proof.
  intros H.
  apply makeIHMCWholeBodyTrajectoryMessage_parts in H
    as (Hl & Hr & Hc & Hp & Hn & Hs & Hlf & Hrf).
  unfold queueing_properties_of, trajectory_point_times.
  rewrite Hs, Hlf, Hrf.
  assert (Larm :
    Forall (queueable_as_params msg_params QueueableMessage.init)
      (if checkControlledLink
            (IHMCMessageParameters.controlled_links msg_params) link_leftPalm
       then [JointspaceTrajectoryMessage.queueing_properties
               (ArmTrajectoryMessage.jointspace_trajectory
                  (WholeBodyTrajectoryMessage.left_arm_trajectory_message
                     msg))]
       else [])
    /\ Forall (fun tm =>
                 tm = IHMCTrajectoryPointParams.time
                        (IHMCMessageParameters.traj_point_params msg_params))
         (jointspace_times
            (ArmTrajectoryMessage.jointspace_trajectory
               (WholeBodyTrajectoryMessage.left_arm_trajectory_message
                  msg)))).
  { destruct (checkControlledLink _ link_leftPalm).
    - destruct Hl as (q_larm & k0 & k1 & _ & Hm).
      destruct (makeIHMCArmTrajectoryMessage_done q_larm
                  ArmTrajectoryMessage.init 0 msg_params k0)
        as (out & Hout & Hq & _ & Ht).
      change (WholeBodyTrajectoryMessage.left_arm_trajectory_message
                WholeBodyTrajectoryMessage.init)
        with ArmTrajectoryMessage.init in Hm.
      rewrite Hout in Hm. injection Hm as <- _.
      split; [constructor; [exact Hq | constructor] | exact Ht].
    - rewrite Hl. split; constructor. }
  assert (Rarm :
    Forall (queueable_as_params msg_params QueueableMessage.init)
      (if checkControlledLink
            (IHMCMessageParameters.controlled_links msg_params) link_rightPalm
       then [JointspaceTrajectoryMessage.queueing_properties
               (ArmTrajectoryMessage.jointspace_trajectory
                  (WholeBodyTrajectoryMessage.right_arm_trajectory_message
                     msg))]
       else [])
    /\ Forall (fun tm =>
                 tm = IHMCTrajectoryPointParams.time
                        (IHMCMessageParameters.traj_point_params msg_params))
         (jointspace_times
            (ArmTrajectoryMessage.jointspace_trajectory
               (WholeBodyTrajectoryMessage.right_arm_trajectory_message
                  msg)))).
  { destruct (checkControlledLink _ link_rightPalm).
    - destruct Hr as (q_rarm & k0 & k1 & _ & Hm).
      destruct (makeIHMCArmTrajectoryMessage_done q_rarm
                  ArmTrajectoryMessage.init 1 msg_params k0)
        as (out & Hout & Hq & _ & Ht).
      change (WholeBodyTrajectoryMessage.right_arm_trajectory_message
                WholeBodyTrajectoryMessage.init)
        with ArmTrajectoryMessage.init in Hm.
      rewrite Hout in Hm. injection Hm as <- _.
      split; [constructor; [exact Hq | constructor] | exact Ht].
    - rewrite Hr. split; constructor. }
  assert (Chest :
    Forall (queueable_as_params msg_params QueueableMessage.init)
      (if checkControlledLink
            (IHMCMessageParameters.controlled_links msg_params) link_torso
       then [SO3TrajectoryMessage.queueing_properties
               (ChestTrajectoryMessage.so3_trajectory
                  (WholeBodyTrajectoryMessage.chest_trajectory_message msg))]
       else [])
    /\ Forall (fun tm =>
                 tm = IHMCTrajectoryPointParams.time
                        (IHMCMessageParameters.traj_point_params msg_params))
         (map SO3TrajectoryPointMessage.time
            (SO3TrajectoryMessage.taskspace_trajectory_points
               (ChestTrajectoryMessage.so3_trajectory
                  (WholeBodyTrajectoryMessage.chest_trajectory_message
                     msg))))).
  { destruct (checkControlledLink _ link_torso).
    - destruct Hc as (k0 & k1 & Hm).
      destruct (makeIHMCChestTrajectoryMessage_done (getChestOrientation q)
                  ChestTrajectoryMessage.init msg_params k0)
        as (out & Hout & Hq & Ht).
      change (WholeBodyTrajectoryMessage.chest_trajectory_message
                WholeBodyTrajectoryMessage.init)
        with ChestTrajectoryMessage.init in Hm.
      rewrite Hout in Hm. injection Hm as <- _.
      split; [constructor; [exact Hq | constructor]
             | rewrite Ht; repeat constructor].
    - rewrite Hc. split; constructor. }
  assert (Pelvis :
    Forall (queueable_as_params msg_params QueueableMessage.init)
      (if checkControlledLink
            (IHMCMessageParameters.controlled_links msg_params) link_pelvis
       then [SE3TrajectoryMessage.queueing_properties
               (PelvisTrajectoryMessage.se3_trajectory
                  (WholeBodyTrajectoryMessage.pelvis_trajectory_message msg))]
       else [])
    /\ Forall (fun tm =>
                 tm = IHMCTrajectoryPointParams.time
                        (IHMCMessageParameters.traj_point_params msg_params))
         (map SE3TrajectoryPointMessage.time
            (SE3TrajectoryMessage.taskspace_trajectory_points
               (PelvisTrajectoryMessage.se3_trajectory
                  (WholeBodyTrajectoryMessage.pelvis_trajectory_message
                     msg))))).
  { destruct (checkControlledLink _ link_pelvis).
    - destruct Hp as (q_pelvis & k0 & k1 & _ & Hm).
      destruct (makeIHMCPelvisTrajectoryMessage_inv _ _ _ _ _ _ Hm)
        as (pos & quat & Hpose).
      destruct (makeIHMCPelvisTrajectoryMessage_done q_pelvis
                  PelvisTrajectoryMessage.init msg_params k0 pos quat Hpose)
        as (out & Hout & Hq & Ht).
      change (WholeBodyTrajectoryMessage.pelvis_trajectory_message
                WholeBodyTrajectoryMessage.init)
        with PelvisTrajectoryMessage.init in Hm.
      rewrite Hout in Hm. injection Hm as <- _.
      split; [constructor; [exact Hq | constructor]
             | rewrite Ht; repeat constructor].
    - rewrite Hp. split; constructor. }
  assert (Neck :
    Forall (queueable_as_params msg_params QueueableMessage.init)
      (if checkControlledLink
            (IHMCMessageParameters.controlled_links msg_params) link_head
       then [JointspaceTrajectoryMessage.queueing_properties
               (NeckTrajectoryMessage.jointspace_trajectory
                  (WholeBodyTrajectoryMessage.neck_trajectory_message msg))]
       else [])
    /\ Forall (fun tm =>
                 tm = IHMCTrajectoryPointParams.time
                        (IHMCMessageParameters.traj_point_params msg_params))
         (jointspace_times
            (NeckTrajectoryMessage.jointspace_trajectory
               (WholeBodyTrajectoryMessage.neck_trajectory_message msg)))).
  { destruct (checkControlledLink _ link_head).
    - destruct Hn as (q_neck & k0 & k1 & _ & Hm).
      destruct (makeIHMCNeckTrajectoryMessage_done q_neck
                  NeckTrajectoryMessage.init msg_params k0)
        as (out & Hout & Hq & Ht).
      change (WholeBodyTrajectoryMessage.neck_trajectory_message
                WholeBodyTrajectoryMessage.init)
        with NeckTrajectoryMessage.init in Hm.
      rewrite Hout in Hm. injection Hm as <- _.
      split; [constructor; [exact Hq | constructor] | exact Ht].
    - rewrite Hn. split; constructor. }
  destruct Larm, Rarm, Chest, Pelvis, Neck.
  split; repeat (apply Forall_app; split); first [assumption | constructor].
Qed.

(** [publishWholeBodyMessage] step by step. *)
Lemma publishWholeBodyMessage_inv n k n' k' :
  publishWholeBodyMessage n k = Done (n', k') ->
  exists q msg,
    makeIHMCWholeBodyTrajectoryMessage q WholeBodyTrajectoryMessage.init
      (let msg_params :=
         IHMCMessageParameters.set_controlled_links (controlled_links_ n)
           msg_params_default in
       if commands_from_controllers_ n
       then IHMCMessageParameters.set_time 0.0
              (IHMCMessageParameters.set_stream_integration_duration 0.13
                 (IHMCMessageParameters.set_execution_mode 2 msg_params))
       else msg_params) k
    = Done (msg, k')
    /\ n' = set_wholebody_pub_ (wholebody_pub_ n ++ [msg]) (set_q_ q n).
Proof.
  unfold publishWholeBodyMessage, tbind, lift. intros H.
  destruct (prepareConfigurationVector n) as [n1|] eqn:Hp; [|discriminate H].
  destruct (prepareConfigurationVector_shape _ _ Hp) as [q ->].
  exists q.
  replace (controlled_links_ (set_q_ q n)) with (controlled_links_ n) in H
    by (destruct n; reflexivity).
  replace (commands_from_controllers_ (set_q_ q n))
    with (commands_from_controllers_ n) in H by (destruct n; reflexivity).
  replace (q_ (set_q_ q n)) with q in H by (destruct n; reflexivity).
  cbv zeta in *.
  match type of H with
  | match ?o with Done _ => _ | Undefined _ => _ end = _ =>
      destruct o as [[msg k1]|]; [|discriminate H]
  end.
  unfold tret in H. injection H as <- <-. exists msg.
  split; [reflexivity|].
  destruct n; reflexivity.
Qed.







End Publishing.



(** * Further properties *)

(** ** Accepting and dropping updates *)

Section Acceptance.
Context `{V : ValkyrieDefinition} `{C : Collaborators} `{D : MessageDefaults}.
Import IHMCInterfaceNode.

Lemma closed_handle_update e n k :
  closed n -> is_update e = true -> handle e n k = Done (n, k).
Proof.
  intros (Hp & Hl & Hj & Hpub & Hstop) He.
  unfold publish_flag_current, getPublishCommandsFlag in Hpub.
  unfold getStopNodeFlag in Hstop.
  destruct e as [tf_msg|arr_msg|js_msg|s| |]; try discriminate He;
    cbn [handle]; unfold tret, lift, transformCallback,
      controlledLinkIdsCallback, jointCommandCallback, obind;
    rewrite ?Hp, ?Hl, ?Hj;
    destruct n; cbn in *; subst; reflexivity.
Qed.

Lemma stop_listening_closed n : closed (statusCallback "STOP-LISTENING" n).
Proof. destruct n. repeat split. Qed.

(** X1.  After STOP-LISTENING the node drops every update: any sequence of pose,
    link-set and joint updates, well-formed or not, returns and leaves the
    whole state as the signal left it. *)
Theorem stop_listening_drops_updates n es k :
  Forall (fun e => is_update e = true) es ->
  run es (statusCallback "STOP-LISTENING" n) k
  = Done (statusCallback "STOP-LISTENING" n, k).
Proof.
  intros Hes. pose proof (stop_listening_closed n) as Hc.
  generalize dependent (statusCallback "STOP-LISTENING" n). intros n0 Hc.
  induction Hes as [|e es He _ IH]; [reflexivity|].
  cbn [run]. unfold tbind. rewrite (closed_handle_update e n0 k Hc He).
  exact IH.
Qed.

(** X2.  In one-shot use each callback takes one message: once an update has been
    handled, a second update of the same kind changes nothing, whatever it
    holds. *)
Theorem one_shot_takes_first_update n :
  commands_from_controllers_ n = false ->
  (forall m1 m2,
      transformCallback m2 (transformCallback m1 n) = transformCallback m1 n)
  /\ (forall m1 m2,
         controlledLinkIdsCallback m2 (controlledLinkIdsCallback m1 n)
         = controlledLinkIdsCallback m1 n)
  /\ (forall m1 m2 n1,
         jointCommandCallback m1 n = Done n1 ->
         jointCommandCallback m2 n1 = Done n1).
Proof.
  intros Hc. split; [|split].
  - intros m1 m2. unfold transformCallback.
    destruct n as [cfc ? ? ? ? ? [] ? ? ? ? ? ? ? ? ? ? ? ? ? ?];
      cbn in Hc; subst cfc; reflexivity.
  - intros m1 m2. unfold controlledLinkIdsCallback.
    destruct n as [cfc ? ? ? ? ? ? ? [] ? ? ? ? ? ? ? ? ? ? ? ?];
      cbn in Hc; subst cfc; reflexivity.
  - intros m1 m2 n1. unfold jointCommandCallback, obind.
    destruct n as [cfc ? ? ? ? ? ? ? ? ? [] ? ? ? ? ? ? ? ? ? ?];
      cbn in Hc; subst cfc; cbn.
    + destruct (jointCommand_loop _ _ _ _); [|discriminate].
      intros [= <-]. reflexivity.
    + intros [= <-]. reflexivity.
Qed.

(** X3.  With commands coming from controllers the latest update replaces the
    one before: handling two updates of a kind leaves the state that the
    second alone would leave. *)
Theorem streaming_keeps_last_update n :
  commands_from_controllers_ n = true ->
  (forall m1 m2,
      transformCallback m2 (transformCallback m1 n) = transformCallback m2 n)
  /\ (forall m1 m2,
         controlledLinkIdsCallback m2 (controlledLinkIdsCallback m1 n)
         = controlledLinkIdsCallback m2 n)
  /\ (forall m1 m2 n1,
         jointCommandCallback m1 n = Done n1 ->
         jointCommandCallback m2 n1 = jointCommandCallback m2 n).
Proof.
  intros Hc. split; [|split].
  - intros m1 m2. unfold transformCallback.
    destruct n as [cfc ? ? ? ? ? [] ? ? ? ? ? ? ? ? ? ? ? ? ? ?];
      cbn in Hc; subst cfc; reflexivity.
  - intros m1 m2. unfold controlledLinkIdsCallback.
    destruct n as [cfc ? ? ? ? ? ? ? [] ? ? ? ? ? ? ? ? ? ? ? ?];
      cbn in Hc; subst cfc; reflexivity.
  - intros m1 m2 n1. unfold jointCommandCallback, obind.
    destruct n as [cfc ? ? ? ? ? ? ? ? ? [] ? ? ? ? ? ? ? ? ? ?];
      cbn in Hc; subst cfc; cbn.
    + destruct (jointCommand_loop (name m1) _ _ _); [|discriminate].
      intros [= <-]. cbn.
      destruct (jointCommand_loop (name m2) _ _ _); reflexivity.
    + intros [= <-]. reflexivity.
Qed.

End Acceptance.

(** ** Readiness over sequences of updates *)

Section Histories.
Context `{V : ValkyrieDefinition} `{C : Collaborators} `{D : MessageDefaults}.
Import IHMCInterfaceNode.

Lemma listening_handle_update e n k n' k' :
  listening n -> is_update e = true -> handle e n k = Done (n', k') ->
  listening n'
  /\ received_pelvis_transform_ n'
     = received_pelvis_transform_ n || seen_pose [e]
  /\ received_link_ids_ n' = received_link_ids_ n || seen_links [e]
  /\ received_joint_command_ n'
     = received_joint_command_ n || seen_joints [e]
  /\ publish_flag_current n'
  /\ getStopNodeFlag n' = false.
Proof.
  intros (Hc & Hp & Hl & Hj) He.
  destruct e as [tf_msg|arr_msg|js_msg|s| |]; try discriminate He;
    cbn [handle]; unfold tret, lift, transformCallback,
      controlledLinkIdsCallback, jointCommandCallback, obind,
      publish_flag_current, listening;
    rewrite ?Hp, ?Hl, ?Hj.
  - intros [= <- <-]. destruct n; cbn in *; subst; cbn.
    rewrite ?orb_true_r, ?orb_false_r. repeat split.
  - intros [= <- <-]. destruct n; cbn in *; subst; cbn.
    rewrite ?orb_true_r, ?orb_false_r. repeat split.
  - destruct (jointCommand_loop _ _ _ _); [|discriminate].
    intros [= <- <-]. destruct n; cbn in *; subst; cbn.
    rewrite ?orb_true_r, ?orb_false_r. repeat split.
Qed.

Lemma listening_run es : forall n k n' k',
  listening n -> publish_flag_current n -> getStopNodeFlag n = false ->
  Forall (fun e => is_update e = true) es ->
  run es n k = Done (n', k') ->
  received_pelvis_transform_ n'
  = received_pelvis_transform_ n || seen_pose es
  /\ received_link_ids_ n' = received_link_ids_ n || seen_links es
  /\ received_joint_command_ n'
     = received_joint_command_ n || seen_joints es
  /\ publish_flag_current n'
  /\ getStopNodeFlag n' = false.
Proof.
  induction es as [|e es IH]; intros n k n' k' Hn Hpub Hstop Hes H.
  - injection H as <- <-. cbn. rewrite !orb_false_r. auto.
  - apply Forall_cons in Hes as [He Hes].
    cbn [run] in H. unfold tbind in H.
    destruct (handle e n k) as [[n1 k1]|] eqn:H1; [|discriminate H].
    destruct (listening_handle_update e n k n1 k1 Hn He H1)
      as (Hn1 & Ep & El & Ej & Hpub1 & Hstop1).
    destruct (IH n1 k1 n' k' Hn1 Hpub1 Hstop1 Hes H)
      as (Fp & Fl & Fj & Hpub' & Hstop').
    rewrite Fp, Fl, Fj, Ep, El, Ej. cbn [seen_pose seen_links seen_joints
      existsb]. rewrite !orb_false_r, !orb_assoc. auto.
Qed.

(** X4.  After START-LISTENING on a controller-driven node, whatever updates
    arrive in whatever order and number, the node may publish exactly when
    at least one pose, one link set and one joint update have been handled;
    it never asks to stop. *)
Theorem streaming_ready_after_one_of_each n es k n' k' :
  commands_from_controllers_ n = true ->
  Forall (fun e => is_update e = true) es ->
  run es (statusCallback "START-LISTENING" n) k = Done (n', k') ->
  getPublishCommandsFlag n' = seen_pose es && seen_links es && seen_joints es
  /\ getStopNodeFlag n' = false.
Proof.
  intros Hc Hes H.
  destruct (listening_run es (statusCallback "START-LISTENING" n) k n' k')
    as (Fp & Fl & Fj & Hpub & Hstop); try assumption.
  - destruct n; cbn in Hc; subst. repeat split.
  - destruct n; reflexivity.
  - destruct n; reflexivity.
  - split; [|exact Hstop]. unfold publish_flag_current in Hpub.
    rewrite Hpub, Fp, Fl, Fj. destruct n; reflexivity.
Qed.

Lemma one_shot_handle_update e n k n' k' :
  one_shot_waiting n -> is_update e = true ->
  handle e n k = Done (n', k') ->
  one_shot_waiting n'
  /\ received_pelvis_transform_ n'
     = received_pelvis_transform_ n || seen_pose [e]
  /\ received_joint_command_ n'
     = received_joint_command_ n || seen_joints [e]
  /\ publish_flag_current n'
  /\ stop_flag_current n'.
Proof.
  intros (Hc & Hp & Hj & Hl & Hrl) He.
  destruct e as [tf_msg|arr_msg|js_msg|s| |]; try discriminate He;
    cbn [handle]; unfold tret, lift, transformCallback,
      controlledLinkIdsCallback, jointCommandCallback, obind,
      publish_flag_current, stop_flag_current, one_shot_waiting;
    rewrite ?Hp, ?Hl, ?Hj.
  - intros [= <- <-].
    destruct n as [? ? ? ? ? ? ? [] ? ? ? ? ? ? ? ? ? ? ? ? ?];
      cbn in *; subst; cbn; rewrite ?orb_false_r, ?orb_true_r;
      repeat split.
  - intros [= <- <-].
    destruct n as [? ? ? ? ? ? ? [] ? ? ? [] ? ? ? ? ? ? ? ? ?];
      cbn in *; subst; cbn; rewrite ?orb_false_r, ?orb_true_r;
      repeat split.
  - destruct n as [? ? ? ? ? ? ? ? ? ? ? [] ? ? ? ? ? ? ? ? ?];
      cbn in *; subst; cbn.
    + intros [= <- <-]. cbn. rewrite ?orb_false_r. repeat split.
    + destruct (jointCommand_loop _ _ _ _); [|discriminate].
      intros [= <- <-]. cbn. rewrite ?orb_false_r. repeat split.
Qed.

Lemma one_shot_run es : forall n k n' k',
  one_shot_waiting n -> publish_flag_current n ->
  getStopNodeFlag n = getPublishCommandsFlag n ->
  Forall (fun e => is_update e = true) es ->
  run es n k = Done (n', k') ->
  received_pelvis_transform_ n'
  = received_pelvis_transform_ n || seen_pose es
  /\ received_joint_command_ n'
     = received_joint_command_ n || seen_joints es
  /\ received_link_ids_ n' = true
  /\ publish_flag_current n'
  /\ getStopNodeFlag n' = getPublishCommandsFlag n'.
Proof.
  induction es as [|e es IH]; intros n k n' k' Hn Hpub Hstop Hes H.
  - injection H as <- <-. cbn. rewrite !orb_false_r.
    destruct Hn as (_ & _ & _ & _ & Hrl). auto.
  - apply Forall_cons in Hes as [He Hes].
    cbn [run] in H. unfold tbind in H.
    destruct (handle e n k) as [[n1 k1]|] eqn:H1; [|discriminate H].
    destruct (one_shot_handle_update e n k n1 k1 Hn He H1)
      as (Hn1 & Ep & Ej & Hpub1 & Hstop1).
    assert (Hs1 : getStopNodeFlag n1 = getPublishCommandsFlag n1).
    { unfold stop_flag_current in Hstop1.
      unfold publish_flag_current in Hpub1. rewrite Hstop1, Hpub1.
      destruct Hn1 as (_ & -> & -> & _ & ->).
      rewrite !negb_involutive, andb_true_r. reflexivity. }
    destruct (IH n1 k1 n' k' Hn1 Hpub1 Hs1 Hes H)
      as (Fp & Fj & Fl & Hpub' & Hstop').
    rewrite Fp, Fj, Ep, Ej. cbn [seen_pose seen_joints existsb].
    rewrite !orb_false_r, !orb_assoc. auto.
Qed.

(** X5.  In one-shot use, from the constructor and over any updates in any order
    and number, the node may publish exactly when a pose and a joint update
    have both been handled, and it asks to stop exactly then: the loop of
    [main] finds its two conditions true together. *)
Theorem one_shot_ready_after_pose_and_joints tf0 es k n' k' :
  Forall (fun e => is_update e = true) es ->
  run es (constructor false tf0) k = Done (n', k') ->
  getPublishCommandsFlag n' = seen_pose es && seen_joints es
  /\ getStopNodeFlag n' = getPublishCommandsFlag n'.
Proof.
  intros Hes H.
  destruct (one_shot_run es (constructor false tf0) k n' k')
    as (Fp & Fj & Fl & Hpub & Hstop); try assumption;
    try (repeat split; fail).
  split; [|exact Hstop]. unfold publish_flag_current in Hpub.
  rewrite Hpub, Fp, Fj, Fl. cbn. now rewrite andb_true_r.
Qed.

Lemma handle_keeps_fixed_links e n k n' k' :
  receive_link_ids_ n = false -> is_status_signal e = false ->
  handle e n k = Done (n', k') ->
  receive_link_ids_ n' = false /\ controlled_links_ n' = controlled_links_ n.
Proof.
  intros Hl He.
  destruct e as [tf_msg|arr_msg|js_msg|s| |]; try discriminate He;
    cbn [handle]; unfold tret, lift.
  - intros [= <- <-]. unfold transformCallback.
    destruct n as [cfc ? ? ? ? ? [] ? ? ? ? ? ? ? ? ? ? ? ? ? ?];
      destruct cfc; cbn in *; auto.
  - intros [= <- <-]. unfold controlledLinkIdsCallback. rewrite Hl.
    destruct n; cbn in *; auto.
  - unfold jointCommandCallback, obind.
    destruct n as [cfc ? ? ? ? ? ? ? ? ? [] ? ? ? ? ? ? ? ? ? ?]; cbn in *.
    + destruct (jointCommand_loop _ _ _ _); [|discriminate].
      intros [= <- <-]. destruct cfc; cbn; auto.
    + intros [= <- <-]. cbn. auto.
  - intros H. apply publishWholeBodyMessage_shape in H as (q & msg & _ & ->).
    destruct n; cbn in *; auto.
  - intros [= <- <-]. rewrite publishGoHomeMessage_spec.
    destruct n; cbn in *; auto.
Qed.

(** X6.  In one-shot use the controlled links are the seven of the constructor
    for good: no update, link-set updates included, and no publication
    changes them. *)
Theorem one_shot_links_are_fixed tf0 es : forall k n' k',
  Forall (fun e => is_status_signal e = false) es ->
  run es (constructor false tf0) k = Done (n', k') ->
  controlled_links_ n' = all_links.
Proof.
  assert (G : forall n k n' k',
             receive_link_ids_ n = false ->
             Forall (fun e => is_status_signal e = false) es ->
             run es n k = Done (n', k') ->
             controlled_links_ n' = controlled_links_ n).
  { induction es as [|e es IH]; intros n k n' k' Hl Hes H.
    - injection H as <- <-. reflexivity.
    - apply Forall_cons in Hes as [He Hes].
      cbn [run] in H. unfold tbind in H.
      destruct (handle e n k) as [[n1 k1]|] eqn:H1; [|discriminate H].
      destruct (handle_keeps_fixed_links e n k n1 k1 Hl He H1) as [Hl1 <-].
      eapply IH; eassumption. }
  intros k n' k' Hes H.
  rewrite (G (constructor false tf0) k n' k' eq_refl Hes H). reflexivity.
Qed.

End Histories.

(** ** Homing requests and the loop of [main] *)

Section Homing.
Context `{V : ValkyrieDefinition} `{C : Collaborators} `{D : MessageDefaults}.
Import IHMCInterfaceNode.

Lemma statusCallback_homing s n :
  home_left_arm_ (statusCallback s n)
  = home_left_arm_ n || String.eqb "HOME-LEFTARM" s
  /\ home_right_arm_ (statusCallback s n)
     = home_right_arm_ n || String.eqb "HOME-RIGHTARM" s
  /\ home_chest_ (statusCallback s n)
     = home_chest_ n || String.eqb "HOME-CHEST" s
  /\ home_pelvis_ (statusCallback s n)
     = home_pelvis_ n || String.eqb "HOME-PELVIS" s
  /\ go_home_pub_ (statusCallback s n) = go_home_pub_ n.
Proof.
  unfold statusCallback.
  rewrite (String.eqb_sym "HOME-LEFTARM"), (String.eqb_sym "HOME-RIGHTARM"),
    (String.eqb_sym "HOME-CHEST"), (String.eqb_sym "HOME-PELVIS").
  repeat match goal with
         | |- context [if String.eqb s ?lit then _ else _] =>
             destruct (String.eqb_spec s lit) as [->|?]
         end;
    repeat match goal with
           | H : ?x <> ?y |- context [String.eqb ?x ?y] =>
               rewrite (proj2 (String.eqb_neq x y) H)
           end;
    destruct n; cbn; rewrite ?orb_false_r, ?orb_true_r; repeat split.
Qed.

Lemma statusCallbacks_homing signals : forall n,
  home_left_arm_ (statusCallbacks signals n)
  = home_left_arm_ n || requested "HOME-LEFTARM" signals
  /\ home_right_arm_ (statusCallbacks signals n)
     = home_right_arm_ n || requested "HOME-RIGHTARM" signals
  /\ home_chest_ (statusCallbacks signals n)
     = home_chest_ n || requested "HOME-CHEST" signals
  /\ home_pelvis_ (statusCallbacks signals n)
     = home_pelvis_ n || requested "HOME-PELVIS" signals
  /\ go_home_pub_ (statusCallbacks signals n) = go_home_pub_ n.
Proof.
  induction signals as [|s signals IH]; intros n.
  - cbn. rewrite !orb_false_r. auto.
  - unfold statusCallbacks in *. cbn [foldl].
    destruct (IH (statusCallback s n)) as (-> & -> & -> & -> & ->).
    destruct (statusCallback_homing s n) as (-> & -> & -> & -> & ->).
    unfold requested. cbn [existsb]. rewrite !orb_assoc. auto.
Qed.

(** X7.  Homing requests do not queue: when nothing is pending, after any
    sequence of status signals one call of [publishGoHomeMessage] publishes
    one command for each body part requested at least once, in the order
    left arm, right arm, chest, pelvis, whatever the order and number of the
    requests and whatever other signals came between. *)
Theorem homing_requests_coalesce n signals :
  nothing_pending n ->
  go_home_pub_ (publishGoHomeMessage (statusCallbacks signals n))
  = go_home_pub_ n
      ++ (if requested "HOME-LEFTARM" signals
          then [HomeCommand HUMANOID_BODY_PART_ARM (Some ROBOT_SIDE_LEFT)]
          else [])
      ++ (if requested "HOME-RIGHTARM" signals
          then [HomeCommand HUMANOID_BODY_PART_ARM (Some ROBOT_SIDE_RIGHT)]
          else [])
      ++ (if requested "HOME-CHEST" signals
          then [HomeCommand HUMANOID_BODY_PART_CHEST None] else [])
      ++ (if requested "HOME-PELVIS" signals
          then [HomeCommand HUMANOID_BODY_PART_PELVIS None] else []).
Proof.
  intros (Hl & Hr & Hc & Hp).
  rewrite publishGoHomeMessage_spec.
  destruct (statusCallbacks_homing signals n) as (El & Er & Ec & Ep & Eg).
  rewrite Hl, Hr, Hc, Hp in *. cbn [orb] in *.
  unfold buildPending. rewrite El, Er, Ec, Ep.
  generalize dependent (statusCallbacks signals n). intros n1 _ _ _ _ Eg.
  destruct n1; cbn in *. now subst.
Qed.

(** X8.  Only [publishGoHomeMessage] publishes home commands or withdraws a
    request: every callback and [publishWholeBodyMessage] keep each homing
    flag that is set and publish no home command. *)
Theorem homing_request_is_kept e n k n' k' :
  e <> go_home_publication ->
  handle e n k = Done (n', k') ->
  (home_left_arm_ n = true -> home_left_arm_ n' = true)
  /\ (home_right_arm_ n = true -> home_right_arm_ n' = true)
  /\ (home_chest_ n = true -> home_chest_ n' = true)
  /\ (home_pelvis_ n = true -> home_pelvis_ n' = true)
  /\ go_home_pub_ n' = go_home_pub_ n.
Proof.
  intros He.
  destruct e as [tf_msg|arr_msg|js_msg|s| |]; [| | | | |contradiction];
    cbn [handle]; unfold tret, lift.
  - intros [= <- <-]. unfold transformCallback.
    destruct n as [cfc ? ? ? ? ? [] ? ? ? ? ? ? ? ? ? ? ? ? ? ?];
      destruct cfc; cbn; auto.
  - intros [= <- <-]. unfold controlledLinkIdsCallback.
    destruct n as [cfc ? ? ? ? ? ? ? [] ? ? ? ? ? ? ? ? ? ? ? ?];
      destruct cfc; cbn; auto.
  - unfold jointCommandCallback, obind.
    destruct n as [cfc ? ? ? ? ? ? ? ? ? [] ? ? ? ? ? ? ? ? ? ?]; cbn.
    + destruct (jointCommand_loop _ _ _ _); [|discriminate].
      intros [= <- <-]. destruct cfc; cbn; auto.
    + intros [= <- <-]. cbn. auto.
  - intros [= <- <-].
    destruct (statusCallback_homing s n) as (-> & -> & -> & -> & ->).
    repeat split; intros ->; reflexivity.
  - intros H. apply publishWholeBodyMessage_shape in H as (q & msg & _ & ->).
    destruct n; cbn; auto.
Qed.

Lemma handle_keeps_home_flag_current e n k n' k' :
  home_flag_current n -> handle e n k = Done (n', k') ->
  home_flag_current n'.
Proof.
  unfold home_flag_current, getPublishGoHomeCommandFlag. intros Hn.
  destruct e as [tf_msg|arr_msg|js_msg|s| |]; cbn [handle];
    unfold tret, lift.
  - intros [= <- <-]. unfold transformCallback.
    destruct n as [cfc ? ? ? ? ? [] ? ? ? ? ? ? ? ? ? ? ? ? ? ?];
      destruct cfc; exact Hn.
  - intros [= <- <-]. unfold controlledLinkIdsCallback.
    destruct n as [cfc ? ? ? ? ? ? ? [] ? ? ? ? ? ? ? ? ? ? ? ?];
      destruct cfc; exact Hn.
  - unfold jointCommandCallback, obind.
    destruct n as [cfc ? ? ? ? ? ? ? ? ? [] ? ? ? ? ? ? ? ? ? ?]; cbn in *.
    + destruct (jointCommand_loop _ _ _ _); [|discriminate].
      intros [= <- <-]. destruct cfc; exact Hn.
    + intros [= <- <-]. exact Hn.
  - intros [= <- <-]. unfold statusCallback.
    repeat (destruct (String.eqb s _)); destruct n; cbn in *;
      first [exact Hn | reflexivity].
  - intros H. apply publishWholeBodyMessage_shape in H as (q & msg & _ & ->).
    destruct n; exact Hn.
  - intros [= <- <-]. rewrite publishGoHomeMessage_spec.
    destruct n; reflexivity.
Qed.

(** X9.  In every state that the node reaches from its constructor,
    [getPublishGoHomeCommandFlag] is true exactly when some body part is
    waiting to be homed. *)
Theorem home_flag_tracks_requests cfc tf0 es : forall k n' k',
  run es (constructor cfc tf0) k = Done (n', k') ->
  getPublishGoHomeCommandFlag n' = true
  <-> home_left_arm_ n' = true \/ home_right_arm_ n' = true
      \/ home_chest_ n' = true \/ home_pelvis_ n' = true.
Proof.
  assert (G : forall n k n' k',
             home_flag_current n -> run es n k = Done (n', k') ->
             home_flag_current n').
  { induction es as [|e es IH]; intros n k n' k' Hn H.
    - injection H as <- <-. exact Hn.
    - cbn [run] in H. unfold tbind in H.
      destruct (handle e n k) as [[n1 k1]|] eqn:H1; [|discriminate H].
      eapply IH; [|exact H].
      eapply handle_keeps_home_flag_current; eassumption. }
  intros k n' k' H.
  assert (Hc : home_flag_current (constructor cfc tf0))
    by (destruct cfc; reflexivity).
  specialize (G _ _ _ _ Hc H). unfold home_flag_current in G.
  rewrite G, !orb_true_iff. tauto.
Qed.

(** X10.  One pass through the loop of [main].  Driven by controllers it never
    leaves the loop, and a pass that finds [getPublishGoHomeCommandFlag]
    true leaves nothing pending.  In one-shot use it publishes no home
    command, leaves the loop exactly when both the publish flag and the stop
    flag are true, and otherwise changes nothing.  In either mode it
    publishes at most one whole-body message and leaves the publish flag as
    it was. *)
Theorem main_loop_body_pass n k n' b k' :
  main_loop_body n k = Done (n', b, k') ->
  (commands_from_controllers_ n = true ->
   b = false
   /\ (getPublishGoHomeCommandFlag n = true -> nothing_pending n'))
  /\ (commands_from_controllers_ n = false ->
      go_home_pub_ n' = go_home_pub_ n
      /\ (b = true <-> getPublishCommandsFlag n && getStopNodeFlag n = true)
      /\ (b = false -> n' = n /\ k' = k))
  /\ (wholebody_pub_ n' = wholebody_pub_ n
      \/ exists msg, wholebody_pub_ n' = wholebody_pub_ n ++ [msg])
  /\ getPublishCommandsFlag n' = getPublishCommandsFlag n.
Proof.
  unfold main_loop_body, getCommandsFromControllersFlag.
  destruct (commands_from_controllers_ n) eqn:Hc.
  - unfold tbind, tret.
    assert (Hhome : forall n1,
               nothing_pending (publishGoHomeMessage n1)
               /\ wholebody_pub_ (publishGoHomeMessage n1) = wholebody_pub_ n1
               /\ getPublishCommandsFlag (publishGoHomeMessage n1)
                  = getPublishCommandsFlag n1).
    { intros n1. rewrite publishGoHomeMessage_spec.
      destruct n1; repeat split. }
    destruct (getPublishCommandsFlag n) eqn:Hp.
    + destruct (publishWholeBodyMessage n k) as [[n1 k1]|] eqn:Hw;
        [|discriminate].
      apply publishWholeBodyMessage_shape in Hw as (q & msg & _ & Hn1).
      assert (Hg1 : getPublishGoHomeCommandFlag n1
                    = getPublishGoHomeCommandFlag n)
        by (subst n1; destruct n; reflexivity).
      assert (Hw1 : wholebody_pub_ n1 = wholebody_pub_ n ++ [msg])
        by (subst n1; destruct n; reflexivity).
      assert (Hp1 : getPublishCommandsFlag n1 = true)
        by (subst n1; destruct n; exact Hp).
      clear Hn1. destruct (Hhome n1) as (Hnp & Hwb & Hpc).
      intros [= <- <- <-].
      split; [intros _; split; [reflexivity|]|split; [discriminate|]].
      * intros Hg. rewrite Hg1, Hg. exact Hnp.
      * destruct (getPublishGoHomeCommandFlag n1).
        -- rewrite Hwb, Hpc. split; [right; eauto | exact Hp1].
        -- split; [right; eauto | exact Hp1].
    + destruct (Hhome n) as (Hnp & Hwb & Hpc).
      intros [= <- <- <-].
      split; [intros _; split; [reflexivity|]|split; [discriminate|]].
      * intros ->. exact Hnp.
      * destruct (getPublishGoHomeCommandFlag n).
        -- rewrite Hwb, Hpc. split; [left; reflexivity | exact Hp].
        -- split; [left; reflexivity | exact Hp].
  - destruct (getPublishCommandsFlag n && getStopNodeFlag n) eqn:Hps.
    + unfold tbind, tret.
      destruct (publishWholeBodyMessage n k) as [[n1 k1]|] eqn:Hw;
        [|discriminate].
      apply publishWholeBodyMessage_shape in Hw as (q & msg & _ & ->).
      intros [= <- <- <-].
      split; [discriminate|]. split.
      * intros _. split; [destruct n; reflexivity|].
        split; [tauto | discriminate].
      * split; [right; exists msg; destruct n; reflexivity|].
        destruct n; reflexivity.
    + unfold tret. intros [= <- <- <-].
      split; [discriminate|]. split.
      * intros _. split; [reflexivity|].
        split; [split; discriminate | auto].
      * split; [left; reflexivity | reflexivity].
Qed.

End Homing.

(** ** The joint update, further *)

Section JointValues.
Context `{V : ValkyrieDefinition} `{C : Collaborators} `{D : MessageDefaults}.
Import IHMCInterfaceNode.

Lemma jointCommand_loop_domain (names : list string) : forall rest i q_joint,
  length q_joint = Z.to_nat num_act_joint ->
  (i <= length names)%nat ->
  is_done (jointCommand_loop names i rest q_joint) = true
  <-> (i + length rest <= length names)%nat
      /\ slots_in_joint_region (take (length rest) (drop i names)).
Proof.
  unfold slots_in_joint_region.
  intros rest. induction rest as [|x rest IH]; intros i q_joint Hq Hi.
  - cbn. split; [intros _; split; [lia | constructor] | reflexivity].
  - cbn [jointCommand_loop length].
    destruct (names !! i) as [name_i|] eqn:Hn.
    2:{ apply lookup_ge_None in Hn. cbn. split; [discriminate | lia]. }
    pose proof (lookup_lt_Some _ _ _ Hn) as Hlt.
    rewrite (drop_S _ _ _ Hn). cbn [take]. rewrite Forall_cons.
    destruct (joint_names_to_indices !! name_i) as [index|] eqn:Hx.
    + unfold obind.
      destruct (set_coeff q_joint (index - num_virtual) x) as [q1|] eqn:Hw.
      * apply set_coeff_inv in Hw as [-> Hr].
        rewrite IH by (rewrite ?length_insert; lia).
        split; intros [A B]; (split; [lia|]); [split; [lia | exact B]|].
        exact (proj2 B).
      * cbn. split; [discriminate|]. intros [_ [Hr _]].
        rewrite set_coeff_in_range in Hw by lia. discriminate Hw.
    + rewrite IH by lia.
      split; intros [A B]; (split; [lia|]); [split; [exact I | exact B]|].
      exact (proj2 B).
Qed.

(** X11.  While the node accepts joints, the joint handler returns exactly for
    the messages that have at least as many names as positions and whose
    names up to the number of positions, where known, have their slots in
    the joint region; names beyond the positions are never looked at. *)
Theorem joint_update_domain js_msg n :
  receive_joint_command_ n = true ->
  is_done (jointCommandCallback js_msg n) = true
  <-> (length (position js_msg) <= length (name js_msg))%nat
      /\ slots_in_joint_region
           (take (length (position js_msg)) (name js_msg)).
Proof.
  intros Hr.
  rewrite <- (jointCommand_loop_domain (name js_msg) (position js_msg) 0
                (resize_setZero num_act_joint))
    by first [apply length_resize_setZero | lia].
  unfold jointCommandCallback. rewrite Hr.
  destruct (jointCommand_loop _ _ _ _); reflexivity.
Qed.

Lemma jointCommand_loop_writes (names : list string) :
  forall rest i q_joint q_joint',
    jointCommand_loop names i rest q_joint = Done q_joint' ->
    Forall (fun pair =>
              match joint_names_to_indices !! pair.1 with
              | Some index =>
                  0 <= index - num_virtual < Z.of_nat (length q_joint)
              | None => True
              end)
      (zip (drop i names) rest).
Proof.
  intros rest. induction rest as [|x rest IH]; intros i q_joint q_joint' H.
  - rewrite zip_with_nil_r. constructor.
  - cbn [jointCommand_loop] in H.
    destruct (names !! i) as [name_i|] eqn:Hn; [|discriminate H].
    rewrite (drop_S _ _ _ Hn). cbn [zip_with]. apply Forall_cons. cbn [fst].
    destruct (joint_names_to_indices !! name_i) as [index|].
    + unfold obind in H.
      destruct (set_coeff q_joint (index - num_virtual) x) as [q1|] eqn:Hw;
        [|discriminate H].
      apply set_coeff_inv in Hw as [-> Hr]. split; [exact Hr|].
      apply IH in H. now rewrite length_insert in H.
    + split; [exact I|]. eapply IH; exact H.
Qed.

Lemma lookup_repeat {A} (x : A) n i :
  (i < n)%nat -> repeat x n !! i = Some x.
Proof.
  revert i. induction n as [|n IH]; intros i Hi; [lia|].
  destruct i as [|i]; [reflexivity|]. cbn. apply IH. lia.
Qed.

Lemma foldl_write_pair_elsewhere pairs : forall (q_joint : Vector) slot,
  Forall (fun pair =>
            match joint_names_to_indices !! pair.1 with
            | Some index => Z.to_nat (index - num_virtual) <> slot
            | None => True
            end) pairs ->
  foldl write_pair q_joint pairs !! slot = q_joint !! slot.
Proof.
  induction pairs as [|pair pairs IH]; intros q_joint slot Hp; [reflexivity|].
  apply Forall_cons in Hp as [Hpair Hp]. cbn [foldl].
  rewrite (IH _ slot Hp). unfold write_pair.
  destruct (joint_names_to_indices !! pair.1); [|reflexivity].
  now apply list_lookup_insert_ne.
Qed.

Lemma leaves_slot_elsewhere (N : nat) index pairs :
  0 <= index - num_virtual ->
  Forall (fun pair =>
            match joint_names_to_indices !! pair.1 with
            | Some index' => 0 <= index' - num_virtual < Z.of_nat N
            | None => True
            end) pairs ->
  Forall (leaves_slot index) pairs ->
  Forall (fun pair =>
            match joint_names_to_indices !! pair.1 with
            | Some index' =>
                Z.to_nat (index' - num_virtual)
                <> Z.to_nat (index - num_virtual)
            | None => True
            end) pairs.
Proof.
  intros Hi Hr Hl. induction pairs as [|pair pairs IH]; [constructor|].
  apply Forall_cons in Hr as [Hr1 Hr]. apply Forall_cons in Hl as [Hl1 Hl].
  apply Forall_cons. split; [|now apply IH].
  unfold leaves_slot in Hl1.
  destruct (joint_names_to_indices !! pair.1); [lia | exact I].
Qed.

(** X12.  A joint update is a full replace, slot by slot.  After the handler
    returns, a slot of the joint region that no pair of the message writes
    holds zero, whatever it held before; and the slot of a known name holds
    the value sent with it, provided no later pair of the message writes the
    same slot. *)
Theorem joint_update_values js_msg n n' :
  receive_joint_command_ n = true ->
  jointCommandCallback js_msg n = Done n' ->
  let pairs := zip (name js_msg) (position js_msg) in
  (forall index,
      num_virtual <= index < num_virtual + num_act_joint ->
      Forall (leaves_slot index) pairs ->
      q_joint_ n' !! Z.to_nat (index - num_virtual) = Some 0%float)
  /\ (forall before name_i value later index,
         pairs = before ++ (name_i, value) :: later ->
         joint_names_to_indices !! name_i = Some index ->
         Forall (leaves_slot index) later ->
         q_joint_ n' !! Z.to_nat (index - num_virtual) = Some value).
Proof.
  intros Hr H pairs. unfold jointCommandCallback in H. rewrite Hr in H.
  destruct (jointCommand_loop _ _ _ _) as [q_joint|] eqn:Hloop;
    [|discriminate H].
  pose proof (jointCommand_loop_writes _ _ _ _ _ Hloop) as Hw.
  apply jointCommand_loop_done in Hloop.
  rewrite drop_0 in Hloop, Hw. fold pairs in Hloop, Hw.
  rewrite length_resize_setZero in Hw.
  cbn [obind] in H. injection H as <-.
  replace (q_joint_ _) with q_joint
    by (destruct n as [cfc ? ? ? ? ? ? ? ? ? ? ? ? ? ? ? ? ? ? ? ?];
        destruct cfc; reflexivity).
  subst q_joint. split.
  - intros index Hi Hl.
    rewrite foldl_write_pair_elsewhere.
    + apply lookup_repeat. lia.
    + eapply leaves_slot_elsewhere; [lia | exact Hw | exact Hl].
  - intros before name_i value later index Hp Hx Hl.
    rewrite Hp in Hw |- *.
    apply Forall_app in Hw as [_ Hw]. apply Forall_cons in Hw as [Hi Hw].
    cbn [fst] in Hi. rewrite Hx in Hi.
    rewrite foldl_app. cbn [foldl].
    rewrite foldl_write_pair_elsewhere
      by (eapply leaves_slot_elsewhere; [lia | exact Hw | exact Hl]).
    unfold write_pair at 1. cbn [fst snd]. rewrite Hx.
    apply list_lookup_insert_eq.
    rewrite length_foldl_write_pair, length_resize_setZero. lia.
Qed.

End JointValues.

(** ** The configuration vector *)

Section Configuration.
Context `{V : ValkyrieDefinition} `{C : Collaborators} `{D : MessageDefaults}.
Import IHMCInterfaceNode IHMCMsgUtils.

Lemma coeff_lookup (v : Vector) i x :
  0 <= i -> v !! Z.to_nat i = Some x -> coeff v i = Done x.
Proof. apply coeff_in_range. Qed.

(** The loop writes the stored joints behind the virtual joints and leaves
    every other slot. *)
Lemma prepareConfiguration_loop_done : forall rest i (q q' : Vector),
  prepareConfiguration_loop i rest q = Done q' ->
  length q' = length q
  /\ (forall j x, rest !! j = Some x ->
                  0 <= Z.of_nat (i + j) + num_virtual
                  /\ q' !! Z.to_nat (Z.of_nat (i + j) + num_virtual)
                     = Some x)
  /\ (forall s, 0 <= s ->
                ~ (Z.of_nat i + num_virtual <= s
                   < Z.of_nat (i + length rest) + num_virtual) ->
                q' !! Z.to_nat s = q !! Z.to_nat s).
Proof.
  intros rest. induction rest as [|x rest IH]; intros i q q' H.
  - injection H as <-. split; [reflexivity|]. split; [|reflexivity].
    intros j y Hj. discriminate Hj.
  - cbn [prepareConfiguration_loop] in H. unfold obind in H.
    destruct (set_coeff q (Z.of_nat i + num_virtual) x) as [q1|] eqn:Hw;
      [|discriminate H].
    apply set_coeff_inv in Hw as [-> Hr].
    destruct (IH _ _ _ H) as (Hlen & Hin & Hout).
    rewrite length_insert in Hlen.
    split; [exact Hlen|]. split.
    + intros [|j] y Hj.
      * injection Hj as <-. rewrite Nat.add_0_r. split; [lia|].
        rewrite Hout by lia. apply list_lookup_insert_eq. lia.
      * cbn in Hj. specialize (Hin j y Hj).
        replace (i + S j)%nat with (S i + j)%nat by lia. exact Hin.
    + intros s Hs Hn. cbn [length] in Hn. rewrite Hout by lia.
      apply list_lookup_insert_ne. lia.
Qed.

Lemma lookup_insert_other (l : Vector) a b x :
  0 <= a -> 0 <= b -> a <> b ->
  <[Z.to_nat a := x]> l !! Z.to_nat b = l !! Z.to_nat b.
Proof. intros Ha Hb Hab. apply list_lookup_insert_ne. lia. Qed.

Lemma lookup_insert_same (l : Vector) a x :
  0 <= a < Z.of_nat (length l) ->
  <[Z.to_nat a := x]> l !! Z.to_nat a = Some x.
Proof. intros Ha. apply list_lookup_insert_eq. lia. Qed.

Lemma prepareConfigurationVector_done n n' :
  prepareConfigurationVector n = Done n' ->
  let origin := m_origin (tf_pelvis_wrt_world_ n) in
  let rot :=
    dynacore_convert (tf_getRotation (m_basis (tf_pelvis_wrt_world_ n))) in
  n' = set_q_ (q_ n') n
  /\ length (q_ n') = Z.to_nat num_q
  /\ (forall j x, q_joint_ n !! j = Some x ->
                  coeff (q_ n') (Z.of_nat j + num_virtual) = Done x)
  /\ (root_slots_apart (q_joint_ n) ->
      selectRelevantJointsConfiguration (q_ n') getRelevantJointIndicesPelvis
      = Done [v_x origin; v_y origin; v_z origin;
              q_x rot; q_y rot; q_z rot; q_w rot]).
Proof.
  intros H origin rot.
  destruct (prepareConfigurationVector_shape _ _ H) as [q ->].
  replace (q_ (set_q_ q n)) with q by (destruct n; reflexivity).
  split; [reflexivity|].
  unfold prepareConfigurationVector, obind in H.
  repeat match type of H with
         | match set_coeff ?v ?i ?x with _ => _ end = _ =>
             let E := fresh "W" in
             destruct (set_coeff v i x) eqn:E; [|discriminate H];
             apply set_coeff_inv in E as [-> E]
         end.
  match type of H with
  | match ?o with _ => _ end = _ =>
      destruct o as [q'|] eqn:Hloop; [|discriminate H]
  end.
  injection H as Hq.
  assert (q' = q) as -> by (destruct n; cbn in Hq; congruence).
  clear Hq.
  match type of Hloop with
  | prepareConfiguration_loop 0 _ ?v = _ => set (q7 := v) in *
  end.
  destruct (prepareConfiguration_loop_done _ _ _ _ Hloop)
    as (Hlen & Hin & Hout).
  unfold q7 in Hlen. rewrite ?length_insert, ?length_resize_setZero in Hlen.
  split; [exact Hlen|]. split.
  - intros j x Hj. destruct (Hin j x Hj) as [H0 Hx].
    apply coeff_lookup; [exact H0 | exact Hx].
  - intros (Hnd & Hapart). clear Hin Hloop Hlen.
    unfold getRelevantJointIndicesPelvis in *. cbn [app] in *.
    repeat match type of Hapart with
           | Forall _ (_ :: _) =>
               let A := fresh "A" in apply Forall_cons in Hapart as [A Hapart]
           end.
    repeat match type of Hnd with
           | NoDup (_ :: _) =>
               let N := fresh "N" in
               apply NoDup_cons in Hnd as [N Hnd];
               rewrite ?not_elem_of_cons in N
           end.
    clear Hnd Hapart.
    destruct N as (? & ? & ? & ? & ? & ? & _).
    destruct N0 as (? & ? & ? & ? & ? & _).
    destruct N1 as (? & ? & ? & ? & _).
    destruct N2 as (? & ? & ? & _).
    destruct N3 as (? & ? & _).
    destruct N4 as (? & _).
    clear N5.
    pose proof (proj1 W) as P. pose proof (proj1 W0) as P0.
    pose proof (proj1 W1) as P1. pose proof (proj1 W2) as P2.
    pose proof (proj1 W3) as P3. pose proof (proj1 W4) as P4.
    pose proof (proj1 W5) as P5.
    assert (O : forall s,
               0 <= s ->
               ~ (num_virtual <= s
                  < num_virtual + Z.of_nat (length (q_joint_ n))) ->
               q !! Z.to_nat s = q7 !! Z.to_nat s).
    { intros s Hs Hn. apply Hout; [exact Hs|]. cbn [Nat.add].
      clear -Hn. lia. }
    clear Hout.
    apply selectRelevantJointsConfiguration_spec.
    repeat constructor;
      match goal with
      | |- (if ?i =? -1 then _ else _) = Done ?x =>
          replace (i =? -1) with false
            by (symmetry; apply Z.eqb_neq; intros E; rewrite E in *;
                match goal with Hneg : 0 <= -1 |- _ => now apply Hneg end);
          apply coeff_lookup; [assumption|];
          rewrite O by assumption; unfold q7;
          repeat first
            [ apply lookup_insert_same;
              rewrite ?length_insert, ?length_resize_setZero in *; assumption
            | rewrite lookup_insert_other
                by first [assumption | congruence] ]
      end.
Qed.

Lemma publishWholeBodyMessage_steps n k n' k' :
  publishWholeBodyMessage n k = Done (n', k') ->
  exists q msg,
    prepareConfigurationVector n = Done (set_q_ q n)
    /\ makeIHMCWholeBodyTrajectoryMessage q WholeBodyTrajectoryMessage.init
         (let msg_params :=
            IHMCMessageParameters.set_controlled_links (controlled_links_ n)
              msg_params_default in
          if commands_from_controllers_ n
          then IHMCMessageParameters.set_time 0.0
                 (IHMCMessageParameters.set_stream_integration_duration 0.13
                    (IHMCMessageParameters.set_execution_mode 2 msg_params))
          else msg_params) k
       = Done (msg, k')
    /\ n' = set_wholebody_pub_ (wholebody_pub_ n ++ [msg]) (set_q_ q n).
Proof.
  unfold publishWholeBodyMessage, tbind, lift. intros H.
  destruct (prepareConfigurationVector n) as [n1|] eqn:Hp; [|discriminate H].
  destruct (prepareConfigurationVector_shape _ _ Hp) as [q ->].
  exists q.
  replace (controlled_links_ (set_q_ q n)) with (controlled_links_ n) in H
    by (destruct n; reflexivity).
  replace (commands_from_controllers_ (set_q_ q n))
    with (commands_from_controllers_ n) in H by (destruct n; reflexivity).
  replace (q_ (set_q_ q n)) with q in H by (destruct n; reflexivity).
  cbv zeta in *.
  match type of H with
  | match ?o with Done _ => _ | Undefined _ => _ end = _ =>
      destruct o as [[msg k1]|] eqn:Hw; [|discriminate H]
  end.
  unfold tret in H. injection H as <- <-. exists msg.
  split; [reflexivity|]. split; [reflexivity|].
  destruct n; reflexivity.
Qed.

(** X13.  The configuration vector on its way out.  When
    [prepareConfigurationVector] returns it has changed nothing but [q_],
    which has [num_q] entries and holds the stored joint [j] at slot
    [j + num_virtual]: the offset that the joint handler subtracted is added
    back.  When the root-pose slots are distinct and apart from the joints,
    the pelvis indices select from it the origin of the stored transform and
    its rotation as converted. *)
Theorem configuration_vector_layout n n' :
  prepareConfigurationVector n = Done n' ->
  n' = set_q_ (q_ n') n
  /\ length (q_ n') = Z.to_nat num_q
  /\ (forall j x, q_joint_ n !! j = Some x ->
                  coeff (q_ n') (Z.of_nat j + num_virtual) = Done x)
  /\ (root_slots_apart (q_joint_ n) ->
      selectRelevantJointsConfiguration (q_ n') getRelevantJointIndicesPelvis
      = Done [v_x (m_origin (tf_pelvis_wrt_world_ n));
              v_y (m_origin (tf_pelvis_wrt_world_ n));
              v_z (m_origin (tf_pelvis_wrt_world_ n));
              q_x (dynacore_convert
                     (tf_getRotation (m_basis (tf_pelvis_wrt_world_ n))));
              q_y (dynacore_convert
                     (tf_getRotation (m_basis (tf_pelvis_wrt_world_ n))));
              q_z (dynacore_convert
                     (tf_getRotation (m_basis (tf_pelvis_wrt_world_ n))));
              q_w (dynacore_convert
                     (tf_getRotation (m_basis (tf_pelvis_wrt_world_ n))))]).
Proof. intros H. exact (prepareConfigurationVector_done n n' H). Qed.

(** X14.  From the joint message to the configuration vector: after an accepted
    joint update and [prepareConfigurationVector], the slot that the
    joint-name index gives for a name holds the value sent with that name,
    provided no later pair of the message writes the same slot. *)
Theorem commanded_joint_reaches_its_slot js_msg n n1 n2
    before name_i value later index :
  receive_joint_command_ n = true ->
  jointCommandCallback js_msg n = Done n1 ->
  prepareConfigurationVector n1 = Done n2 ->
  zip (name js_msg) (position js_msg) = before ++ (name_i, value) :: later ->
  joint_names_to_indices !! name_i = Some index ->
  Forall (leaves_slot index) later ->
  coeff (q_ n2) index = Done value.
Proof.
  intros Hr H1 H2 Hp Hx Hl.
  destruct (prepareConfigurationVector_done n1 n2 H2) as (_ & _ & Hj & _).
  unfold jointCommandCallback in H1. rewrite Hr in H1.
  destruct (jointCommand_loop _ _ _ _) as [q_joint|] eqn:Hloop;
    [|discriminate H1].
  pose proof (jointCommand_loop_writes _ _ _ _ _ Hloop) as Hw.
  apply jointCommand_loop_done in Hloop.
  rewrite drop_0 in Hloop, Hw. rewrite Hp in Hloop, Hw.
  rewrite length_resize_setZero in Hw.
  cbn [obind] in H1. injection H1 as H1.
  assert (Hq : q_joint_ n1 = q_joint).
  { rewrite <- H1. destruct n as [cfc ? ? ? ? ? ? ? ? ? ? ? ? ? ? ? ? ? ? ? ?];
      destruct cfc; reflexivity. }
  rewrite Hq in Hj. clear Hq.
  apply Forall_app in Hw as [_ Hw]. apply Forall_cons in Hw as [Hi Hw].
  cbn [fst] in Hi. rewrite Hx in Hi.
  replace index with (Z.of_nat (Z.to_nat (index - num_virtual)) + num_virtual)
    by lia.
  apply Hj. subst q_joint.
  rewrite foldl_app. cbn [foldl].
  rewrite foldl_write_pair_elsewhere
    by (eapply leaves_slot_elsewhere; [lia | exact Hw | exact Hl]).
  unfold write_pair at 1. cbn [fst snd]. rewrite Hx.
  apply list_lookup_insert_eq.
  rewrite length_foldl_write_pair, length_resize_setZero. lia.
Qed.

(** X15.  From the pose message to the published command: when an accepted pose
    update is followed by [publishWholeBodyMessage], with the pelvis link
    controlled and the root-pose slots distinct and apart from the joints,
    the published message has one pelvis trajectory point; its position is
    the translation of the pose message, unchanged, and its orientation is
    the rotation of the message after tf has stored and returned it. *)
Theorem published_pelvis_follows_pose tf_msg n k n' k' :
  receive_pelvis_transform_ n = true ->
  root_slots_apart (q_joint_ n) ->
  checkControlledLink (controlled_links_ n) link_pelvis = true ->
  publishWholeBodyMessage (transformCallback tf_msg n) k = Done (n', k') ->
  exists msg point,
    wholebody_pub_ n' = wholebody_pub_ n ++ [msg]
    /\ SE3TrajectoryMessage.taskspace_trajectory_points
         (PelvisTrajectoryMessage.se3_trajectory
            (WholeBodyTrajectoryMessage.pelvis_trajectory_message msg))
       = [point]
    /\ SE3TrajectoryPointMessage.position point
       = Point.mk (v_x (translation tf_msg)) (v_y (translation tf_msg))
           (v_z (translation tf_msg))
    /\ SE3TrajectoryPointMessage.orientation point
       = (let rot :=
            dynacore_convert
              (tf_getRotation (tf_setRotation (rotation tf_msg))) in
          QuaternionMsg.mk (q_x rot) (q_y rot) (q_z rot) (q_w rot)).
Proof.
  intros Hr Hapart Hlink H.
  set (n1 := transformCallback tf_msg n) in *.
  assert (Htf : tf_pelvis_wrt_world_ n1
                = mkTransform (tf_setRotation (rotation tf_msg))
                    (translation tf_msg)).
  { unfold n1, transformCallback. rewrite Hr.
    destruct tf_msg as [[? ? ?] [? ? ? ?]].
    destruct n as [cfc ? ? ? ? ? ? ? ? ? ? ? ? ? ? ? ? ? ? ? ?];
      destruct cfc; reflexivity. }
  assert (Hq1 : q_joint_ n1 = q_joint_ n).
  { unfold n1, transformCallback. rewrite Hr.
    destruct n as [cfc ? ? ? ? ? ? ? ? ? ? ? ? ? ? ? ? ? ? ? ?];
      destruct cfc; reflexivity. }
  assert (Hl1 : controlled_links_ n1 = controlled_links_ n).
  { unfold n1, transformCallback. rewrite Hr.
    destruct n as [cfc ? ? ? ? ? ? ? ? ? ? ? ? ? ? ? ? ? ? ? ?];
      destruct cfc; reflexivity. }
  assert (Hw1 : wholebody_pub_ n1 = wholebody_pub_ n).
  { unfold n1, transformCallback. rewrite Hr.
    destruct n as [cfc ? ? ? ? ? ? ? ? ? ? ? ? ? ? ? ? ? ? ? ?];
      destruct cfc; reflexivity. }
  clearbody n1.
  apply publishWholeBodyMessage_steps in H as (q & msg & Hp & Hw & ->).
  destruct (prepareConfigurationVector_done n1 _ Hp) as (_ & _ & _ & Hsel).
  rewrite Hq1 in Hsel. specialize (Hsel Hapart).
  replace (q_ (set_q_ q n1)) with q in Hsel by (destruct n1; reflexivity).
  rewrite Htf in Hsel. cbn [m_origin m_basis] in Hsel.
  apply makeIHMCWholeBodyTrajectoryMessage_parts in Hw
    as (_ & _ & _ & Hpel & _).
  replace (checkControlledLink _ link_pelvis) with true in Hpel.
  2:{ rewrite <- Hlink, <- Hl1. destruct (commands_from_controllers_ n1);
        reflexivity. }
  destruct Hpel as (q_pelvis & k0 & k1 & Hq & Hm).
  rewrite Hsel in Hq. injection Hq as <-.
  match type of Hm with
  | makeIHMCPelvisTrajectoryMessage ?v ?m ?p ?k0 = _ =>
      destruct (makeIHMCPelvisTrajectoryMessage_done v m p k0
                  (mkVect3 (v_x (translation tf_msg))
                     (v_y (translation tf_msg)) (v_z (translation tf_msg)))
                  (let rot :=
                     dynacore_convert
                       (tf_getRotation (tf_setRotation (rotation tf_msg))) in
                   mkQuaternion (q_x rot) (q_y rot) (q_z rot) (q_w rot))
                  eq_refl) as (out & Hout & _ & Hpt)
  end.
  rewrite Hout in Hm. injection Hm as Hm _.
  exists msg. eexists. rewrite <- Hm.
  split; [|split; [exact Hpt|split; reflexivity]].
  rewrite <- Hw1. destruct n1; reflexivity.
Qed.

End Configuration.

(** ** Command assembly, further *)

Section Selection.
Context `{V : ValkyrieDefinition} `{C : Collaborators}.
Import IHMCMsgUtils.

Lemma coeff_inv (v : Vector) i x :
  coeff v i = Done x -> 0 <= i < Z.of_nat (length v).
Proof.
  unfold coeff.
  destruct (0 <=? i) eqn:H0; [|discriminate].
  destruct (i <? Z.of_nat (length v)) eqn:H1; [|discriminate].
  intros _. apply Z.leb_le in H0. apply Z.ltb_lt in H1. auto.
Qed.

Lemma selectRelevantJoints_loop_inv (q : Vector) :
  forall rest i q_joints out,
    selectRelevantJoints_loop q i rest q_joints = Done out ->
    Forall (fun idx => idx = -1 \/ 0 <= idx < Z.of_nat (length q)) rest.
Proof.
  intros rest. induction rest as [|idx rest IH]; intros i q_joints out H.
  - constructor.
  - cbn [selectRelevantJoints_loop] in H. unfold obind in H.
    apply Forall_cons. split.
    + destruct (Z.eqb_spec idx (-1)) as [->|_]; [now left|].
      destruct (coeff q idx) eqn:Hc; [|discriminate H].
      right. eapply coeff_inv; exact Hc.
    + destruct (if idx =? -1 then _ else _); [|discriminate H].
      destruct (set_coeff q_joints (Z.of_nat i) _); [|discriminate H].
      eapply IH; exact H.
Qed.

(** X16.  Selection by an index list returns exactly when every index is the
    sentinel -1 or lies inside the configuration vector, and what it returns
    is, index by index, 0.0 for the sentinel and the coefficient of the
    configuration otherwise; it has as many entries as there are indices. *)
Theorem selection_returns_iff_in_range (q : Vector) joint_indices :
  (is_done (selectRelevantJointsConfiguration q joint_indices) = true
   <-> Forall (fun idx => idx = -1 \/ 0 <= idx < Z.of_nat (length q))
         joint_indices)
  /\ (forall vals,
         selectRelevantJointsConfiguration q joint_indices = Done vals
         <-> Forall2 (fun idx x =>
                        (if idx =? -1 then Done 0%float else coeff q idx)
                        = Done x)
               joint_indices vals)
  /\ (forall vals,
         selectRelevantJointsConfiguration q joint_indices = Done vals ->
         length vals = length joint_indices).
Proof.
  assert (Inv : forall vals,
             selectRelevantJointsConfiguration q joint_indices = Done vals ->
             Forall2 (fun idx x =>
                        (if idx =? -1 then Done 0%float else coeff q idx)
                        = Done x)
               joint_indices vals).
  { intros vals H. pose proof H as H0.
    unfold selectRelevantJointsConfiguration in H0.
    apply selectRelevantJoints_loop_inv in H0.
    destruct (selected_values q joint_indices H0) as (vals' & Hv).
    pose proof (selectRelevantJointsConfiguration_spec q _ _ Hv) as H1.
    rewrite H in H1. injection H1 as ->. exact Hv. }
  split; [|split].
  - split.
    + destruct (selectRelevantJointsConfiguration q joint_indices) eqn:H;
        [|discriminate].
      intros _. unfold selectRelevantJointsConfiguration in H.
      eapply selectRelevantJoints_loop_inv; exact H.
    + intros H.
      destruct (selectRelevantJointsConfiguration_total q _ H)
        as (vals & -> & _).
      reflexivity.
  - intros vals. split; [apply Inv|].
    apply selectRelevantJointsConfiguration_spec.
  - intros vals H. symmetry. eapply Forall2_length. apply Inv. exact H.
Qed.

(** [getPelvisPose] reads the first seven entries of its vector and nothing
    after them; on a shorter vector it stops at the first entry that is
    missing. *)
Theorem getPelvisPose_reads_seven :
  (forall a b c d e f g (rest : Vector),
      getPelvisPose (a :: b :: c :: d :: e :: f :: g :: rest)
      = Done (mkVect3 a b c, mkQuaternion d e f g))
  /\ (forall q_joints : Vector,
         (length q_joints < 7)%nat ->
         getPelvisPose q_joints
         = Undefined (coefficient_out_of_range (Z.of_nat (length q_joints)))).
Proof.
  split.
  - intros a b c d e f g rest. unfold getPelvisPose.
    repeat match goal with
           | |- context [coeff ?v ?i] =>
               rewrite (coeff_in_range v i _ ltac:(lia) eq_refl);
               cbn [obind]
           end.
    reflexivity.
  - intros q_joints H.
    do 7 (destruct q_joints as [|? q_joints]; [reflexivity|]).
    cbn [length] in H. lia.
Qed.

Lemma makeIHMCArmTrajectoryMessage_inv q_joints arm_msg side msg_params k
    out k' :
  makeIHMCArmTrajectoryMessage q_joints arm_msg side msg_params k
  = Done (out, k') ->
  k' = S k
  /\ ArmTrajectoryMessage.robot_side out = narrow8 byte_fields_signed side
  /\ jointspace_target (ArmTrajectoryMessage.jointspace_trajectory out)
     = q_joints
  /\ QueueableMessage.timestamp
       (JointspaceTrajectoryMessage.queueing_properties
          (ArmTrajectoryMessage.jointspace_trajectory out))
     = system_clock_now k
  /\ JointspaceTrajectoryMessage.joint_trajectory_messages
       (ArmTrajectoryMessage.jointspace_trajectory out)
     = map (fun q_joint =>
              makeIHMCOneDoFJointTrajectoryMessage q_joint
                OneDoFJointTrajectoryMessage.init msg_params) q_joints.
Proof.
  unfold makeIHMCArmTrajectoryMessage, makeIHMCJointspaceTrajectoryMessage,
    makeIHMCQueueableMessage, tbind, tret, system_clock.
  intros [= <- <-]. repeat split. apply jointspace_target_map.
Qed.

Lemma makeIHMCNeckTrajectoryMessage_inv q_joints neck_msg msg_params k
    out k' :
  makeIHMCNeckTrajectoryMessage q_joints neck_msg msg_params k
  = Done (out, k') ->
  k' = S k
  /\ jointspace_target (NeckTrajectoryMessage.jointspace_trajectory out)
     = q_joints
  /\ QueueableMessage.timestamp
       (JointspaceTrajectoryMessage.queueing_properties
          (NeckTrajectoryMessage.jointspace_trajectory out))
     = system_clock_now k
  /\ JointspaceTrajectoryMessage.joint_trajectory_messages
       (NeckTrajectoryMessage.jointspace_trajectory out)
     = map (fun q_joint =>
              makeIHMCOneDoFJointTrajectoryMessage q_joint
                OneDoFJointTrajectoryMessage.init msg_params) q_joints.
Proof.
  unfold makeIHMCNeckTrajectoryMessage, makeIHMCJointspaceTrajectoryMessage,
    makeIHMCQueueableMessage, tbind, tret, system_clock.
  intros [= <- <-]. repeat split. apply jointspace_target_map.
Qed.

Lemma makeIHMCChestTrajectoryMessage_inv quat chest_msg msg_params k out k' :
  makeIHMCChestTrajectoryMessage quat chest_msg msg_params k
  = Done (out, k') ->
  k' = S k
  /\ QueueableMessage.timestamp
       (SO3TrajectoryMessage.queueing_properties
          (ChestTrajectoryMessage.so3_trajectory out))
     = system_clock_now k
  /\ length (SO3TrajectoryMessage.taskspace_trajectory_points
               (ChestTrajectoryMessage.so3_trajectory out)) = 1%nat.
Proof.
  unfold makeIHMCChestTrajectoryMessage, makeIHMCSO3TrajectoryMessage,
    makeIHMCQueueableMessage, tbind, tret, system_clock.
  intros [= <- <-]. repeat split.
Qed.

Lemma makeIHMCPelvisTrajectoryMessage_clock q_joints pelvis_msg msg_params k
    out k' :
  makeIHMCPelvisTrajectoryMessage q_joints pelvis_msg msg_params k
  = Done (out, k') ->
  k' = S k
  /\ QueueableMessage.timestamp
       (SE3TrajectoryMessage.queueing_properties
          (PelvisTrajectoryMessage.se3_trajectory out))
     = system_clock_now k
  /\ length (SE3TrajectoryMessage.taskspace_trajectory_points
               (PelvisTrajectoryMessage.se3_trajectory out)) = 1%nat.
Proof.
  unfold makeIHMCPelvisTrajectoryMessage, makeIHMCSE3TrajectoryMessage,
    makeIHMCQueueableMessage, tbind, tret, lift, system_clock.
  destruct (getPelvisPose q_joints); [|discriminate].
  intros [= <- <-]. repeat split.
Qed.

End Selection.

Section WholeBody.
Context `{V : ValkyrieDefinition} `{C : Collaborators}.
Import IHMCMsgUtils.

(** X17.  The right arm is assembled as the left: for a configuration whose five
    right-arm slots hold [a, b, c, d, e] the selection by the right-arm
    indices is [a, b, c, d, e, 0, 0], and a whole-body message assembled
    with the right palm controlled has that target in its right-arm message,
    which carries robot side 1. *)
Theorem right_arm_target_pads_wrist (q : Vector) a b c d e :
  coeff q rightShoulderPitch = Done a ->
  coeff q rightShoulderRoll = Done b ->
  coeff q rightShoulderYaw = Done c ->
  coeff q rightElbowPitch = Done d ->
  coeff q rightForearmYaw = Done e ->
  let target := [a; b; c; d; e; 0; 0]%float in
  selectRelevantJointsConfiguration q getRelevantJointIndicesRightArm
  = Done target
  /\ (forall wb msg_params k msg k',
         checkControlledLink
           (IHMCMessageParameters.controlled_links msg_params) link_rightPalm
         = true ->
         makeIHMCWholeBodyTrajectoryMessage q wb msg_params k
         = Done (msg, k') ->
         jointspace_target
           (ArmTrajectoryMessage.jointspace_trajectory
              (WholeBodyTrajectoryMessage.right_arm_trajectory_message msg))
         = target
         /\ ArmTrajectoryMessage.robot_side
              (WholeBodyTrajectoryMessage.right_arm_trajectory_message msg)
            = 1).
Proof.
  intros Ha Hb Hc Hd He target.
  assert (Hsel : selectRelevantJointsConfiguration q
                   getRelevantJointIndicesRightArm = Done target).
  { apply selectRelevantJointsConfiguration_spec.
    unfold getRelevantJointIndicesRightArm, target. cbn [app].
    repeat constructor;
      match goal with
      | |- (if ?i =? -1 then _ else _) = Done ?x =>
          assert (0 <= i) by (eapply coeff_done_nonneg; eassumption);
          destruct (Z.eqb_spec i (-1)); [lia | assumption]
      end. }
  split; [exact Hsel|].
  intros wb msg_params k msg k' Hlink H.
  apply makeIHMCWholeBodyTrajectoryMessage_parts in H as (_ & Hr & _).
  rewrite Hlink in Hr. destruct Hr as (q_rarm & k0 & k1 & Hq & Hm).
  rewrite Hsel in Hq. injection Hq as <-.
  apply makeIHMCArmTrajectoryMessage_inv in Hm as (_ & Hside & Ht & _).
  split; [assumption|].
  rewrite Hside. destruct byte_fields_signed; reflexivity.
Qed.

(** X18.  The neck takes three joints and no sentinel: for a configuration whose
    neck slots hold [a, b, c], a whole-body message assembled with the head
    controlled has the jointspace target [a, b, c] in its neck message. *)
Theorem neck_target_has_three_joints (q : Vector) a b c :
  coeff q lowerNeckPitch = Done a ->
  coeff q neckYaw = Done b ->
  coeff q upperNeckPitch = Done c ->
  selectRelevantJointsConfiguration q getRelevantJointIndicesNeck
  = Done [a; b; c]
  /\ (forall wb msg_params k msg k',
         checkControlledLink
           (IHMCMessageParameters.controlled_links msg_params) link_head
         = true ->
         makeIHMCWholeBodyTrajectoryMessage q wb msg_params k
         = Done (msg, k') ->
         jointspace_target
           (NeckTrajectoryMessage.jointspace_trajectory
              (WholeBodyTrajectoryMessage.neck_trajectory_message msg))
         = [a; b; c]).
Proof.
  intros Ha Hb Hc.
  assert (Hsel : selectRelevantJointsConfiguration q
                   getRelevantJointIndicesNeck = Done [a; b; c]).
  { apply selectRelevantJointsConfiguration_spec.
    unfold getRelevantJointIndicesNeck. cbn [app].
    repeat constructor;
      match goal with
      | |- (if ?i =? -1 then _ else _) = Done ?x =>
          assert (0 <= i) by (eapply coeff_done_nonneg; eassumption);
          destruct (Z.eqb_spec i (-1)); [lia | assumption]
      end. }
  split; [exact Hsel|].
  intros wb msg_params k msg k' Hlink H.
  apply makeIHMCWholeBodyTrajectoryMessage_parts in H
    as (_ & _ & _ & _ & Hn & _).
  rewrite Hlink in Hn. destruct Hn as (q_neck & k0 & k1 & Hq & Hm).
  rewrite Hsel in Hq. injection Hq as <-.
  apply makeIHMCNeckTrajectoryMessage_inv in Hm as (_ & Ht & _).
  exact Ht.
Qed.

(** X19.  What assembly never fills in.  Whatever the controlled links, also the
    torso and the two foot frames, the spine message and the two foot
    messages of the result are those of the message given; a part whose link
    is not controlled is left as given too.  With none of left palm, right
    palm, torso, pelvis and head controlled, assembly returns for every
    configuration, of any length, without reading the clock, and only
    assigns the sequence id. *)
Theorem assembly_leaves_other_parts q wb msg_params k :
  let links := IHMCMessageParameters.controlled_links msg_params in
  (forall msg k',
      makeIHMCWholeBodyTrajectoryMessage q wb msg_params k = Done (msg, k') ->
      WholeBodyTrajectoryMessage.spine_trajectory_message msg
      = WholeBodyTrajectoryMessage.spine_trajectory_message wb
      /\ WholeBodyTrajectoryMessage.left_foot_trajectory_message msg
         = WholeBodyTrajectoryMessage.left_foot_trajectory_message wb
      /\ WholeBodyTrajectoryMessage.right_foot_trajectory_message msg
         = WholeBodyTrajectoryMessage.right_foot_trajectory_message wb
      /\ (checkControlledLink links link_leftPalm = false ->
          WholeBodyTrajectoryMessage.left_arm_trajectory_message msg
          = WholeBodyTrajectoryMessage.left_arm_trajectory_message wb)
      /\ (checkControlledLink links link_rightPalm = false ->
          WholeBodyTrajectoryMessage.right_arm_trajectory_message msg
          = WholeBodyTrajectoryMessage.right_arm_trajectory_message wb)
      /\ (checkControlledLink links link_torso = false ->
          WholeBodyTrajectoryMessage.chest_trajectory_message msg
          = WholeBodyTrajectoryMessage.chest_trajectory_message wb)
      /\ (checkControlledLink links link_pelvis = false ->
          WholeBodyTrajectoryMessage.pelvis_trajectory_message msg
          = WholeBodyTrajectoryMessage.pelvis_trajectory_message wb)
      /\ (checkControlledLink links link_head = false ->
          WholeBodyTrajectoryMessage.neck_trajectory_message msg
          = WholeBodyTrajectoryMessage.neck_trajectory_message wb))
  /\ (checkControlledLink links link_leftPalm = false ->
      checkControlledLink links link_rightPalm = false ->
      checkControlledLink links link_torso = false ->
      checkControlledLink links link_pelvis = false ->
      checkControlledLink links link_head = false ->
      makeIHMCWholeBodyTrajectoryMessage q wb msg_params k
      = Done
          (WholeBodyTrajectoryMessage.mk
             (IHMCMessageParameters.sequence_id msg_params)
             (WholeBodyTrajectoryMessage.left_arm_trajectory_message wb)
             (WholeBodyTrajectoryMessage.right_arm_trajectory_message wb)
             (WholeBodyTrajectoryMessage.chest_trajectory_message wb)
             (WholeBodyTrajectoryMessage.spine_trajectory_message wb)
             (WholeBodyTrajectoryMessage.pelvis_trajectory_message wb)
             (WholeBodyTrajectoryMessage.left_foot_trajectory_message wb)
             (WholeBodyTrajectoryMessage.right_foot_trajectory_message wb)
             (WholeBodyTrajectoryMessage.neck_trajectory_message wb),
           k)).
Proof.
  intros links. split.
  - intros msg k' H.
    apply makeIHMCWholeBodyTrajectoryMessage_parts in H
      as (Hl & Hr & Hc & Hp & Hn & Hs & Hlf & Hrf).
    fold links in Hl, Hr, Hc, Hp, Hn.
    repeat split; try assumption; intros E;
      match goal with
      | Hx : if checkControlledLink links ?x then _ else _ |- _ =>
          match type of E with
          | checkControlledLink links x = false =>
              rewrite E in Hx; exact Hx
          end
      end.
  - intros El Er Ec Ep En.
    unfold makeIHMCWholeBodyTrajectoryMessage, tbind, tret.
    fold links. rewrite El, Er, Ec, Ep, En. reflexivity.
Qed.

(** X20.  The controlled links count by membership only: two link lists that
    agree on whether they hold the left palm, the right palm, the torso, the
    pelvis and the head give the same assembly, whatever their order, their
    repetitions and the other identifiers in them, the two foot frames
    included. *)
Theorem links_count_by_membership q wb msg_params links1 links2 k :
  Forall (fun link => link ∈ links1 <-> link ∈ links2)
    [link_leftPalm; link_rightPalm; link_torso; link_pelvis; link_head] ->
  makeIHMCWholeBodyTrajectoryMessage q wb
    (IHMCMessageParameters.set_controlled_links links1 msg_params) k
  = makeIHMCWholeBodyTrajectoryMessage q wb
      (IHMCMessageParameters.set_controlled_links links2 msg_params) k.
Proof.
  intros H.
  repeat match type of H with
         | Forall _ (_ :: _) =>
             let E := fresh "E" in
             apply Forall_cons in H as [E H];
             apply (bool_decide_ext _ _) in E
         end.
  unfold makeIHMCWholeBodyTrajectoryMessage, checkControlledLink.
  cbn [IHMCMessageParameters.controlled_links
         IHMCMessageParameters.set_controlled_links].
  rewrite E, E0, E1, E2, E3. cbv zeta.
  destruct msg_params. reflexivity.
Qed.

End WholeBody.

Section Shape.
Context `{V : ValkyrieDefinition} `{C : Collaborators}.
Import IHMCMsgUtils.

Lemma selectRelevantJointsConfiguration_length (q : Vector) joint_indices
    vals :
  selectRelevantJointsConfiguration q joint_indices = Done vals ->
  length vals = length joint_indices.
Proof.
  intros H. pose proof H as H0.
  unfold selectRelevantJointsConfiguration in H0.
  apply selectRelevantJoints_loop_inv in H0.
  destruct (selectRelevantJointsConfiguration_total q _ H0)
    as (vals' & H1 & Hlen).
  rewrite H in H1. injection H1 as ->. exact Hlen.
Qed.

Lemma one_point_at_rest msg_params (q_joints : Vector) :
  Forall (fun j_msg =>
            exists point,
              OneDoFJointTrajectoryMessage.trajectory_points j_msg = [point]
              /\ TrajectoryPoint1DMessage.velocity point = 0%float)
    (map (fun q_joint =>
            makeIHMCOneDoFJointTrajectoryMessage q_joint
              OneDoFJointTrajectoryMessage.init msg_params) q_joints).
Proof.
  induction q_joints as [|x l IH]; [constructor|].
  cbn [map]. apply Forall_cons. split; [|exact IH].
  eexists. split; reflexivity.
Qed.

(** X21.  The shape of the parts that are assembled.  In a whole-body message, a
    controlled arm has seven joint trajectories and a controlled neck three,
    each with exactly one trajectory point whose velocity is zero; a
    controlled chest and a controlled pelvis have exactly one taskspace
    point each. *)
Theorem controlled_parts_have_fixed_shape q wb msg_params k msg k' :
  makeIHMCWholeBodyTrajectoryMessage q wb msg_params k = Done (msg, k') ->
  let links := IHMCMessageParameters.controlled_links msg_params in
  let at_rest n (js_msg : JointspaceTrajectoryMessage.t) :=
    length (JointspaceTrajectoryMessage.joint_trajectory_messages js_msg) = n
    /\ Forall (fun j_msg =>
                 exists point,
                   OneDoFJointTrajectoryMessage.trajectory_points j_msg
                   = [point]
                   /\ TrajectoryPoint1DMessage.velocity point = 0%float)
         (JointspaceTrajectoryMessage.joint_trajectory_messages js_msg) in
  (checkControlledLink links link_leftPalm = true ->
   at_rest 7%nat
     (ArmTrajectoryMessage.jointspace_trajectory
        (WholeBodyTrajectoryMessage.left_arm_trajectory_message msg)))
  /\ (checkControlledLink links link_rightPalm = true ->
      at_rest 7%nat
        (ArmTrajectoryMessage.jointspace_trajectory
           (WholeBodyTrajectoryMessage.right_arm_trajectory_message msg)))
  /\ (checkControlledLink links link_head = true ->
      at_rest 3%nat
        (NeckTrajectoryMessage.jointspace_trajectory
           (WholeBodyTrajectoryMessage.neck_trajectory_message msg)))
  /\ (checkControlledLink links link_torso = true ->
      length (SO3TrajectoryMessage.taskspace_trajectory_points
                (ChestTrajectoryMessage.so3_trajectory
                   (WholeBodyTrajectoryMessage.chest_trajectory_message
                      msg))) = 1%nat)
  /\ (checkControlledLink links link_pelvis = true ->
      length (SE3TrajectoryMessage.taskspace_trajectory_points
                (PelvisTrajectoryMessage.se3_trajectory
                   (WholeBodyTrajectoryMessage.pelvis_trajectory_message
                      msg))) = 1%nat).
Proof.
  intros H links at_rest.
  pose proof (makeIHMCWholeBodyTrajectoryMessage_parts _ _ _ _ _ _ H) as P.
  cbv zeta in P. destruct P as (Hl & Hr & Hc & Hp & Hn & _).
  subst links at_rest. cbv beta.
  repeat match goal with |- _ /\ _ => split end; intros E;
    [split| split | split | |].
  - rewrite E in Hl. destruct Hl as (ql & k0 & k1 & Hs & Hm).
    apply selectRelevantJointsConfiguration_length in Hs.
    apply makeIHMCArmTrajectoryMessage_inv in Hm as (_ & _ & _ & _ & ->).
    rewrite length_map. exact Hs.
  - rewrite E in Hl. destruct Hl as (ql & k0 & k1 & Hs & Hm).
    apply makeIHMCArmTrajectoryMessage_inv in Hm as (_ & _ & _ & _ & ->).
    apply one_point_at_rest.
  - rewrite E in Hr. destruct Hr as (ql & k0 & k1 & Hs & Hm).
    apply selectRelevantJointsConfiguration_length in Hs.
    apply makeIHMCArmTrajectoryMessage_inv in Hm as (_ & _ & _ & _ & ->).
    rewrite length_map. exact Hs.
  - rewrite E in Hr. destruct Hr as (ql & k0 & k1 & Hs & Hm).
    apply makeIHMCArmTrajectoryMessage_inv in Hm as (_ & _ & _ & _ & ->).
    apply one_point_at_rest.
  - rewrite E in Hn. destruct Hn as (ql & k0 & k1 & Hs & Hm).
    apply selectRelevantJointsConfiguration_length in Hs.
    apply makeIHMCNeckTrajectoryMessage_inv in Hm as (_ & _ & _ & ->).
    rewrite length_map. exact Hs.
  - rewrite E in Hn. destruct Hn as (ql & k0 & k1 & Hs & Hm).
    apply makeIHMCNeckTrajectoryMessage_inv in Hm as (_ & _ & _ & ->).
    apply one_point_at_rest.
  - rewrite E in Hc. destruct Hc as (k0 & k1 & Hm).
    apply makeIHMCChestTrajectoryMessage_inv in Hm as (_ & _ & Hm).
    exact Hm.
  - rewrite E in Hp. destruct Hp as (ql & k0 & k1 & Hs & Hm).
    apply makeIHMCPelvisTrajectoryMessage_clock in Hm as (_ & _ & Hm).
    exact Hm.
Qed.

(** X22.  Assembly reads the system clock once for each part it fills in, in the
    order left arm, right arm, chest, pelvis, neck, and stamps the queueing
    properties of each part with its reading. *)
Theorem assembly_stamps_each_part q wb msg_params k msg k' :
  makeIHMCWholeBodyTrajectoryMessage q wb msg_params k = Done (msg, k') ->
  let stamps :=
    map QueueableMessage.timestamp
      (queueing_properties_of msg
         (IHMCMessageParameters.controlled_links msg_params)) in
  k' = (k + length stamps)%nat
  /\ stamps = map system_clock_now (seq k (length stamps)).
Proof.
  intros H. unfold queueing_properties_of.
  unfold makeIHMCWholeBodyTrajectoryMessage, tbind, lift, tret in H.
  repeat
    match type of H with
    | context [checkControlledLink ?l ?x] =>
        let b := fresh "control" in
        destruct (checkControlledLink l x) eqn:b; cbv beta iota in H
    | context [selectRelevantJointsConfiguration ?a ?b] =>
        destruct (selectRelevantJointsConfiguration a b) eqn:?;
          cbv beta iota in H; [|discriminate H]
    | context [makeIHMCArmTrajectoryMessage ?a ?b ?c ?d ?e] =>
        destruct (makeIHMCArmTrajectoryMessage a b c d e) as [[? ?]|] eqn:?;
          cbv beta iota in H; [|discriminate H]
    | context [makeIHMCChestTrajectoryMessage ?a ?b ?c ?d] =>
        destruct (makeIHMCChestTrajectoryMessage a b c d) as [[? ?]|] eqn:?;
          cbv beta iota in H; [|discriminate H]
    | context [makeIHMCPelvisTrajectoryMessage ?a ?b ?c ?d] =>
        destruct (makeIHMCPelvisTrajectoryMessage a b c d) as [[? ?]|] eqn:?;
          cbv beta iota in H; [|discriminate H]
    | context [makeIHMCNeckTrajectoryMessage ?a ?b ?c ?d] =>
        destruct (makeIHMCNeckTrajectoryMessage a b c d) as [[? ?]|] eqn:?;
          cbv beta iota in H; [|discriminate H]
    end;
    injection H as <- <-;
    repeat
      match goal with
      | E : makeIHMCArmTrajectoryMessage _ _ _ _ _ = Done _ |- _ =>
          apply makeIHMCArmTrajectoryMessage_inv in E as (-> & _ & _ & E & _)
      | E : makeIHMCChestTrajectoryMessage _ _ _ _ = Done _ |- _ =>
          apply makeIHMCChestTrajectoryMessage_inv in E as (-> & E & _)
      | E : makeIHMCPelvisTrajectoryMessage _ _ _ _ = Done _ |- _ =>
          apply makeIHMCPelvisTrajectoryMessage_clock in E as (-> & E & _)
      | E : makeIHMCNeckTrajectoryMessage _ _ _ _ = Done _ |- _ =>
          apply makeIHMCNeckTrajectoryMessage_inv in E as (-> & _ & E & _)
      end;
    cbn;
    repeat match goal with
           | E : QueueableMessage.timestamp _ = _ |- _ =>
               rewrite E; clear E
           end;
    (split; [lia | reflexivity]).
Qed.

End Shape.

(** ** Execution mode and trajectory-point times *)

Section Streaming.
Context `{V : ValkyrieDefinition} `{C : Collaborators} `{D : MessageDefaults}.
Import IHMCInterfaceNode IHMCMsgUtils.

Lemma narrow8_small signed x : 0 <= x < 128 -> narrow8 signed x = x.
Proof.
  intros Hx. unfold narrow8. destruct signed.
  - rewrite Z.mod_small by lia. lia.
  - apply Z.mod_small. lia.
Qed.

Lemma jointspace_times_repeat msg_params (q_joints : Vector) :
  flat_map
    (fun j_msg =>
       map TrajectoryPoint1DMessage.time
         (OneDoFJointTrajectoryMessage.trajectory_points j_msg))
    (map (fun q_joint =>
            makeIHMCOneDoFJointTrajectoryMessage q_joint
              OneDoFJointTrajectoryMessage.init msg_params) q_joints)
  = repeat (IHMCTrajectoryPointParams.time
              (IHMCMessageParameters.traj_point_params msg_params))
      (length q_joints).
Proof.
  induction q_joints as [|x l IH]; [reflexivity|].
  cbn [map flat_map length repeat]. rewrite IH. reflexivity.
Qed.

(** Assembled into a fresh message, a whole-body message has the trajectory
    points of its controlled parts and no other, each with the time of the
    parameters. *)
Lemma wholebody_point_times q msg_params k msg k' :
  makeIHMCWholeBodyTrajectoryMessage q WholeBodyTrajectoryMessage.init
    msg_params k = Done (msg, k') ->
  trajectory_point_times msg
  = repeat (IHMCTrajectoryPointParams.time
              (IHMCMessageParameters.traj_point_params msg_params))
      (expected_points (IHMCMessageParameters.controlled_links msg_params)).
Proof.
  intros H.
  pose proof (makeIHMCWholeBodyTrajectoryMessage_parts _ _ _ _ _ _ H) as P.
  cbv zeta in P. destruct P as (Hl & Hr & Hc & Hp & Hn & Hs & Hlf & Hrf).
  set (t := IHMCTrajectoryPointParams.time
              (IHMCMessageParameters.traj_point_params msg_params)).
  set (links := IHMCMessageParameters.controlled_links msg_params) in *.
  assert (Larm :
    jointspace_times
      (ArmTrajectoryMessage.jointspace_trajectory
         (WholeBodyTrajectoryMessage.left_arm_trajectory_message msg))
    = repeat t (if checkControlledLink links link_leftPalm then 7 else 0)).
  { destruct (checkControlledLink links link_leftPalm).
    - destruct Hl as (ql & k0 & k1 & Hsel & Hm).
      apply selectRelevantJointsConfiguration_length in Hsel.
      apply makeIHMCArmTrajectoryMessage_inv in Hm as (_ & _ & _ & _ & Hj).
      unfold jointspace_times. rewrite Hj, jointspace_times_repeat, Hsel.
      reflexivity.
    - rewrite Hl. reflexivity. }
  assert (Rarm :
    jointspace_times
      (ArmTrajectoryMessage.jointspace_trajectory
         (WholeBodyTrajectoryMessage.right_arm_trajectory_message msg))
    = repeat t (if checkControlledLink links link_rightPalm then 7 else 0)).
  { destruct (checkControlledLink links link_rightPalm).
    - destruct Hr as (qr & k0 & k1 & Hsel & Hm).
      apply selectRelevantJointsConfiguration_length in Hsel.
      apply makeIHMCArmTrajectoryMessage_inv in Hm as (_ & _ & _ & _ & Hj).
      unfold jointspace_times. rewrite Hj, jointspace_times_repeat, Hsel.
      reflexivity.
    - rewrite Hr. reflexivity. }
  assert (Chest :
    map SO3TrajectoryPointMessage.time
      (SO3TrajectoryMessage.taskspace_trajectory_points
         (ChestTrajectoryMessage.so3_trajectory
            (WholeBodyTrajectoryMessage.chest_trajectory_message msg)))
    = repeat t (if checkControlledLink links link_torso then 1 else 0)).
  { destruct (checkControlledLink links link_torso).
    - destruct Hc as (k0 & k1 & Hm).
      match type of Hm with
      | makeIHMCChestTrajectoryMessage ?a ?b ?c ?d = _ =>
          destruct (makeIHMCChestTrajectoryMessage_done a b c d)
            as (out & Hout & _ & Ht)
      end.
      rewrite Hout in Hm. injection Hm as <- _. exact Ht.
    - rewrite Hc. reflexivity. }
  assert (Pelvis :
    map SE3TrajectoryPointMessage.time
      (SE3TrajectoryMessage.taskspace_trajectory_points
         (PelvisTrajectoryMessage.se3_trajectory
            (WholeBodyTrajectoryMessage.pelvis_trajectory_message msg)))
    = repeat t (if checkControlledLink links link_pelvis then 1 else 0)).
  { destruct (checkControlledLink links link_pelvis).
    - destruct Hp as (qp & k0 & k1 & _ & Hm).
      destruct (makeIHMCPelvisTrajectoryMessage_inv _ _ _ _ _ _ Hm)
        as (pos & quat & Hpose).
      match type of Hm with
      | makeIHMCPelvisTrajectoryMessage ?a ?b ?c ?d = _ =>
          destruct (makeIHMCPelvisTrajectoryMessage_done a b c d pos quat
                      Hpose) as (out & Hout & _ & Ht)
      end.
      rewrite Hout in Hm. injection Hm as <- _. rewrite Ht. reflexivity.
    - rewrite Hp. reflexivity. }
  assert (Neck :
    jointspace_times
      (NeckTrajectoryMessage.jointspace_trajectory
         (WholeBodyTrajectoryMessage.neck_trajectory_message msg))
    = repeat t (if checkControlledLink links link_head then 3 else 0)).
  { destruct (checkControlledLink links link_head).
    - destruct Hn as (qn & k0 & k1 & Hsel & Hm).
      apply selectRelevantJointsConfiguration_length in Hsel.
      apply makeIHMCNeckTrajectoryMessage_inv in Hm as (_ & _ & _ & Hj).
      unfold jointspace_times. rewrite Hj, jointspace_times_repeat, Hsel.
      reflexivity.
    - rewrite Hn. reflexivity. }
  unfold trajectory_point_times, expected_points.
  rewrite Larm, Rarm, Chest, Pelvis, Neck, Hs, Hlf, Hrf.
  destruct (checkControlledLink links link_leftPalm),
    (checkControlledLink links link_rightPalm),
    (checkControlledLink links link_torso),
    (checkControlledLink links link_pelvis),
    (checkControlledLink links link_head); reflexivity.
Qed.

(** C7.  [makeIHMCQueueableMessage] always returns; the message it fills
    carries the execution mode of the parameters narrowed to the 8-bit
    field, which is the mode itself for every mode from 0 to 127, and its
    stream integration duration is assigned when the mode of the parameters
    is 2 (stream) and left as it was for every other mode.  In the
    whole-body message that [publishWholeBodyMessage] publishes, with
    commands coming from controllers every sub-message selected by the
    controlled links has execution mode 2 and stream integration duration
    0.13, and the trajectory points are those of the controlled parts
    (seven for an arm, three for the neck, one for the chest and for the
    pelvis), each with time 0; in one-shot use, with the default parameters
    of the spec, every such sub-message has execution mode 0 and the stream
    integration duration of a fresh message, and the same trajectory points
    have time 1.0 each. *)
Theorem execution_mode_follows_operating_mode :
  (forall q_msg msg_params k,
      let mode :=
        IHMCQueueableParams.execution_mode
          (IHMCMessageParameters.queueable_params msg_params) in
      exists out,
        makeIHMCQueueableMessage q_msg msg_params k = Done (out, S k)
        /\ QueueableMessage.execution_mode out
           = narrow8 byte_fields_signed mode
        /\ (0 <= mode < 128 -> QueueableMessage.execution_mode out = mode)
        /\ (mode = 2 ->
            QueueableMessage.stream_integration_duration out
            = IHMCQueueableParams.stream_integration_duration
                (IHMCMessageParameters.queueable_params msg_params))
        /\ (mode <> 2 ->
            QueueableMessage.stream_integration_duration out
            = QueueableMessage.stream_integration_duration q_msg))
  /\ (forall n k n' k',
         publishWholeBodyMessage n k = Done (n', k') ->
         exists msg,
           wholebody_pub_ n' = wholebody_pub_ n ++ [msg]
           /\ (commands_from_controllers_ n = true ->
               Forall (fun q_msg =>
                         QueueableMessage.execution_mode q_msg = 2
                         /\ QueueableMessage.stream_integration_duration q_msg
                            = 0.13%float)
                 (queueing_properties_of msg (controlled_links_ n))
               /\ trajectory_point_times msg
                  = repeat 0%float (expected_points (controlled_links_ n)))
           /\ (commands_from_controllers_ n = false ->
               one_shot_defaults ->
               Forall (fun q_msg =>
                         QueueableMessage.execution_mode q_msg = 0
                         /\ QueueableMessage.stream_integration_duration q_msg
                            = QueueableMessage.stream_integration_duration
                                QueueableMessage.init)
                 (queueing_properties_of msg (controlled_links_ n))
               /\ trajectory_point_times msg
                  = repeat 1.0%float
                      (expected_points (controlled_links_ n)))).
Proof.
  split.
  - intros q_msg msg_params k mode.
    destruct (makeIHMCQueueableMessage_done q_msg msg_params k)
      as (out & Hout & Hmode & Hdur).
    exists out. split; [exact Hout|]. split; [exact Hmode|].
    cbv zeta in Hdur. fold mode in Hdur. split; [|split]; intros Hm.
    + rewrite Hmode. apply narrow8_small. exact Hm.
    + rewrite Hm in Hdur. exact Hdur.
    + apply Z.eqb_neq in Hm. rewrite Hm in Hdur. exact Hdur.
  - intros n k n' k' H.
    apply publishWholeBodyMessage_inv in H as (q & msg & Hw & ->).
    exists msg. split; [destruct n; reflexivity|].
    pose proof (wholebody_point_times _ _ _ _ _ Hw) as Ht.
    apply wholebody_from_init in Hw as [Hq _].
    split.
    + intros Hc. rewrite Hc in Hq, Ht. cbn in Hq, Ht. split; [|exact Ht].
      eapply Forall_impl; [exact Hq|].
      intros q_msg [Hmode Hdur]. cbn in Hmode, Hdur.
      split; [|exact Hdur].
      rewrite Hmode. destruct byte_fields_signed; reflexivity.
    + intros Hc [Dmode Dtime]. rewrite Hc in Hq, Ht. cbn in Hq, Ht.
      split.
      * eapply Forall_impl; [exact Hq|].
        intros q_msg [Hmode Hdur]. cbn in Hmode, Hdur.
        rewrite Dmode in Hmode, Hdur. split; [|exact Hdur].
        rewrite Hmode. destruct byte_fields_signed; reflexivity.
      * rewrite Dtime in Ht. exact Ht.
Qed.

End Streaming.

Lemma execution_mode_follows_operating_mode_witness :
  (IHMCInterfaceNode.publishWholeBodyMessage (V:=Sample.valkyrie)
     (C:=Sample.collaborators) (D:=Sample.defaults)
     Sample.streaming_ready 0%nat
   = Done (Sample.streaming_published, 2%nat)
   /\ IHMCInterfaceNode.commands_from_controllers_ Sample.streaming_ready
      = true
   /\ IHMCInterfaceNode.publishWholeBodyMessage (V:=Sample.valkyrie)
        (C:=Sample.collaborators) (D:=Sample.defaults)
        Sample.fresh_one_shot 0%nat
      = Done (Sample.published_unready, 5%nat)
   /\ IHMCInterfaceNode.commands_from_controllers_ Sample.fresh_one_shot
      = false
   /\ IHMCInterfaceNode.one_shot_defaults (D:=Sample.defaults)
   /\ 0 <= 2 < 128
   /\ 258 <> 2)
  /\ (exists msg,
         IHMCInterfaceNode.wholebody_pub_ Sample.streaming_published
         = IHMCInterfaceNode.wholebody_pub_ Sample.streaming_ready ++ [msg]
         /\ Forall (fun q_msg =>
                      QueueableMessage.execution_mode q_msg = 2
                      /\ QueueableMessage.stream_integration_duration q_msg
                         = 0.13%float)
              (IHMCMsgUtils.queueing_properties_of (V:=Sample.valkyrie) msg
                 (IHMCInterfaceNode.controlled_links_
                    Sample.streaming_ready))
         /\ IHMCMsgUtils.trajectory_point_times msg = repeat 0%float 8)
  /\ (exists msg,
         IHMCInterfaceNode.wholebody_pub_ Sample.published_unready
         = IHMCInterfaceNode.wholebody_pub_ Sample.fresh_one_shot ++ [msg]
         /\ Forall (fun q_msg =>
                      QueueableMessage.execution_mode q_msg = 0
                      /\ QueueableMessage.stream_integration_duration q_msg
                         = QueueableMessage.stream_integration_duration
                             QueueableMessage.init)
              (IHMCMsgUtils.queueing_properties_of (V:=Sample.valkyrie) msg
                 (IHMCInterfaceNode.controlled_links_ Sample.fresh_one_shot))
         /\ IHMCMsgUtils.trajectory_point_times msg = repeat 1.0%float 19)
  /\ (exists out,
         IHMCMsgUtils.makeIHMCQueueableMessage (C:=Sample.collaborators)
           QueueableMessage.init
           (IHMCMessageParameters.set_execution_mode 2
              (msg_params_default (MessageDefaults:=Sample.defaults))) 0%nat
         = Done (out, 1%nat)
         /\ QueueableMessage.execution_mode out = 2)
  /\ (exists out,
         IHMCMsgUtils.makeIHMCQueueableMessage (C:=Sample.collaborators)
           QueueableMessage.init
           (IHMCMessageParameters.set_execution_mode 258
              (msg_params_default (MessageDefaults:=Sample.defaults))) 0%nat
         = Done (out, 1%nat)
         /\ QueueableMessage.execution_mode out = 2
         /\ QueueableMessage.stream_integration_duration out
            = QueueableMessage.stream_integration_duration
                QueueableMessage.init).
Proof.
  assert (Hp : IHMCInterfaceNode.publishWholeBodyMessage (V:=Sample.valkyrie)
                 (C:=Sample.collaborators) (D:=Sample.defaults)
                 Sample.streaming_ready 0%nat
               = Done (Sample.streaming_published, 2%nat))
    by (vm_compute; reflexivity).
  assert (Ho : IHMCInterfaceNode.publishWholeBodyMessage (V:=Sample.valkyrie)
                 (C:=Sample.collaborators) (D:=Sample.defaults)
                 Sample.fresh_one_shot 0%nat
               = Done (Sample.published_unready, 5%nat))
    by (vm_compute; reflexivity).
  assert (Hd : IHMCInterfaceNode.one_shot_defaults (D:=Sample.defaults))
    by (split; reflexivity).
  assert (Hsmall : 0 <= 2 < 128) by lia.
  assert (Hwide : 258 <> 2) by lia.
  pose proof (execution_mode_follows_operating_mode
                (V:=Sample.valkyrie) (C:=Sample.collaborators)
                (D:=Sample.defaults)) as (Q & T).
  split;
    [exact (conj Hp (conj eq_refl (conj Ho (conj eq_refl
              (conj Hd (conj Hsmall Hwide))))))|].
  split; [|split; [|split]].
  - destruct (T Sample.streaming_ready 0%nat Sample.streaming_published
                2%nat Hp) as (msg & Hpub & Hstream & _).
    exists msg. split; [exact Hpub|]. exact (Hstream eq_refl).
  - destruct (T Sample.fresh_one_shot 0%nat Sample.published_unready
                5%nat Ho) as (msg & Hpub & _ & Hone).
    exists msg. split; [exact Hpub|]. exact (Hone eq_refl Hd).
  - destruct (Q QueueableMessage.init
                (IHMCMessageParameters.set_execution_mode 2
                   (msg_params_default (MessageDefaults:=Sample.defaults)))
                0%nat) as (out & Hout & _ & Hmode & _).
    exists out. split; [exact Hout | exact (Hmode Hsmall)].
  - destruct (Q QueueableMessage.init
                (IHMCMessageParameters.set_execution_mode 258
                   (msg_params_default (MessageDefaults:=Sample.defaults)))
                0%nat) as (out & Hout & Hmode & _ & _ & Hdur).
    exists out. split; [exact Hout|]. split; [exact Hmode | exact (Hdur Hwide)].
Defined.

(** ** The further properties on the sample robot *)

#[local] Existing Instance Sample.valkyrie.
#[local] Existing Instance Sample.collaborators.
#[local] Existing Instance Sample.defaults.

Lemma stop_listening_drops_updates_witness :
  Forall (fun e => IHMCInterfaceNode.is_update e = true)
    Scenario.malformed_updates
  /\ IHMCInterfaceNode.run Scenario.malformed_updates
       (IHMCInterfaceNode.statusCallback "STOP-LISTENING"
          (IHMCInterfaceNode.constructor true Sample.tf0)) 0%nat
     = Done (IHMCInterfaceNode.statusCallback "STOP-LISTENING"
               (IHMCInterfaceNode.constructor true Sample.tf0), 0%nat).
Proof.
  assert (H : Forall (fun e => IHMCInterfaceNode.is_update e = true)
                Scenario.malformed_updates)
    by (repeat constructor).
  exact (conj H
           (stop_listening_drops_updates
              (IHMCInterfaceNode.constructor true Sample.tf0)
              Scenario.malformed_updates 0%nat H)).
Defined.

Lemma one_shot_takes_first_update_witness :
  (IHMCInterfaceNode.commands_from_controllers_ Sample.fresh_one_shot = false
   /\ IHMCInterfaceNode.jointCommandCallback Sample.elbows
        Sample.fresh_one_shot
      = Done Scenario.joints_first)
  /\ IHMCInterfaceNode.transformCallback Scenario.pose_456
       (IHMCInterfaceNode.transformCallback Sample.pose_123
          Sample.fresh_one_shot)
     = IHMCInterfaceNode.transformCallback Sample.pose_123
         Sample.fresh_one_shot
  /\ IHMCInterfaceNode.jointCommandCallback Scenario.shoulders
       Scenario.joints_first
     = Done Scenario.joints_first.
Proof.
  assert (H : IHMCInterfaceNode.commands_from_controllers_
                Sample.fresh_one_shot = false) by reflexivity.
  assert (Hj : IHMCInterfaceNode.jointCommandCallback Sample.elbows
                 Sample.fresh_one_shot
               = Done Scenario.joints_first) by (vm_compute; reflexivity).
  pose proof (one_shot_takes_first_update Sample.fresh_one_shot H)
    as (Ht & _ & Hjj).
  exact (conj (conj H Hj)
           (conj (Ht Sample.pose_123 Scenario.pose_456)
              (Hjj Sample.elbows Scenario.shoulders Scenario.joints_first
                 Hj))).
Defined.

Lemma streaming_keeps_last_update_witness :
  (IHMCInterfaceNode.commands_from_controllers_ Scenario.listening_node = true
   /\ IHMCInterfaceNode.jointCommandCallback Sample.elbows
        Scenario.listening_node
      = Done Scenario.listening_joints)
  /\ IHMCInterfaceNode.transformCallback Scenario.pose_456
       (IHMCInterfaceNode.transformCallback Sample.pose_123
          Scenario.listening_node)
     = IHMCInterfaceNode.transformCallback Scenario.pose_456
         Scenario.listening_node
  /\ IHMCInterfaceNode.jointCommandCallback Scenario.shoulders
       Scenario.listening_joints
     = IHMCInterfaceNode.jointCommandCallback Scenario.shoulders
         Scenario.listening_node.
Proof.
  assert (H : IHMCInterfaceNode.commands_from_controllers_
                Scenario.listening_node = true) by reflexivity.
  assert (Hj : IHMCInterfaceNode.jointCommandCallback Sample.elbows
                 Scenario.listening_node
               = Done Scenario.listening_joints)
    by (vm_compute; reflexivity).
  pose proof (streaming_keeps_last_update Scenario.listening_node H)
    as (Ht & _ & Hjj).
  exact (conj (conj H Hj)
           (conj (Ht Sample.pose_123 Scenario.pose_456)
              (Hjj Sample.elbows Scenario.shoulders Scenario.listening_joints
                 Hj))).
Defined.

Lemma streaming_ready_after_one_of_each_witness :
  (IHMCInterfaceNode.commands_from_controllers_
     (IHMCInterfaceNode.constructor true Sample.tf0) = true
   /\ Forall (fun e => IHMCInterfaceNode.is_update e = true) Scenario.updates
   /\ IHMCInterfaceNode.run Scenario.updates
        (IHMCInterfaceNode.statusCallback "START-LISTENING"
           (IHMCInterfaceNode.constructor true Sample.tf0)) 0%nat
      = Done (Scenario.streaming_after_updates, 0%nat))
  /\ IHMCInterfaceNode.getPublishCommandsFlag Scenario.streaming_after_updates
     = true
  /\ IHMCInterfaceNode.getStopNodeFlag Scenario.streaming_after_updates
     = false.
Proof.
  assert (H : IHMCInterfaceNode.commands_from_controllers_
                (IHMCInterfaceNode.constructor true Sample.tf0) = true)
    by reflexivity.
  assert (Hu : Forall (fun e => IHMCInterfaceNode.is_update e = true)
                 Scenario.updates) by (repeat constructor).
  assert (Hr : IHMCInterfaceNode.run Scenario.updates
                 (IHMCInterfaceNode.statusCallback "START-LISTENING"
                    (IHMCInterfaceNode.constructor true Sample.tf0)) 0%nat
               = Done (Scenario.streaming_after_updates, 0%nat))
    by (vm_compute; reflexivity).
  exact (conj (conj H (conj Hu Hr))
           (streaming_ready_after_one_of_each
              (IHMCInterfaceNode.constructor true Sample.tf0)
              Scenario.updates 0%nat Scenario.streaming_after_updates 0%nat
              H Hu Hr)).
Defined.

Lemma one_shot_ready_after_pose_and_joints_witness :
  (Forall (fun e => IHMCInterfaceNode.is_update e = true) Scenario.updates
   /\ IHMCInterfaceNode.run Scenario.updates
        (IHMCInterfaceNode.constructor false Sample.tf0) 0%nat
      = Done (Scenario.one_shot_after_updates, 0%nat))
  /\ IHMCInterfaceNode.getPublishCommandsFlag Scenario.one_shot_after_updates
     = true
  /\ IHMCInterfaceNode.getStopNodeFlag Scenario.one_shot_after_updates
     = IHMCInterfaceNode.getPublishCommandsFlag
         Scenario.one_shot_after_updates.
Proof.
  assert (Hu : Forall (fun e => IHMCInterfaceNode.is_update e = true)
                 Scenario.updates) by (repeat constructor).
  assert (Hr : IHMCInterfaceNode.run Scenario.updates
                 (IHMCInterfaceNode.constructor false Sample.tf0) 0%nat
               = Done (Scenario.one_shot_after_updates, 0%nat))
    by (vm_compute; reflexivity).
  exact (conj (conj Hu Hr)
           (one_shot_ready_after_pose_and_joints Sample.tf0 Scenario.updates
              0%nat Scenario.one_shot_after_updates 0%nat Hu Hr)).
Defined.

Lemma one_shot_links_are_fixed_witness :
  (Forall (fun e => is_status_signal e = false) Scenario.updates
   /\ IHMCInterfaceNode.run Scenario.updates
        (IHMCInterfaceNode.constructor false Sample.tf0) 0%nat
      = Done (Scenario.one_shot_after_updates, 0%nat))
  /\ IHMCInterfaceNode.controlled_links_ Scenario.one_shot_after_updates
     = all_links.
Proof.
  assert (Hu : Forall (fun e => is_status_signal e = false) Scenario.updates)
    by (repeat constructor).
  assert (Hr : IHMCInterfaceNode.run Scenario.updates
                 (IHMCInterfaceNode.constructor false Sample.tf0) 0%nat
               = Done (Scenario.one_shot_after_updates, 0%nat))
    by (vm_compute; reflexivity).
  exact (conj (conj Hu Hr)
           (one_shot_links_are_fixed Sample.tf0 Scenario.updates
              0%nat Scenario.one_shot_after_updates 0%nat Hu Hr)).
Defined.

Lemma homing_requests_coalesce_witness :
  IHMCInterfaceNode.nothing_pending
    (IHMCInterfaceNode.constructor true Sample.tf0)
  /\ IHMCInterfaceNode.go_home_pub_
       (IHMCInterfaceNode.publishGoHomeMessage
          (statusCallbacks Scenario.signals
             (IHMCInterfaceNode.constructor true Sample.tf0)))
     = [IHMCInterfaceNode.HomeCommand HUMANOID_BODY_PART_ARM
          (Some ROBOT_SIDE_LEFT);
        IHMCInterfaceNode.HomeCommand HUMANOID_BODY_PART_CHEST None].
Proof.
  assert (H : IHMCInterfaceNode.nothing_pending
                (IHMCInterfaceNode.constructor true Sample.tf0))
    by (repeat split).
  exact (conj H
           (homing_requests_coalesce
              (IHMCInterfaceNode.constructor true Sample.tf0)
              Scenario.signals H)).
Defined.

Lemma homing_request_is_kept_witness :
  (IHMCInterfaceNode.status_signal "START-LISTENING"
   <> IHMCInterfaceNode.go_home_publication
   /\ IHMCInterfaceNode.handle
        (IHMCInterfaceNode.status_signal "START-LISTENING")
        Sample.homing_left_arm 0%nat
      = Done (Scenario.homing_then_listening, 0%nat)
   /\ IHMCInterfaceNode.home_left_arm_ Sample.homing_left_arm = true)
  /\ IHMCInterfaceNode.home_left_arm_ Scenario.homing_then_listening = true
  /\ IHMCInterfaceNode.go_home_pub_ Scenario.homing_then_listening
     = IHMCInterfaceNode.go_home_pub_ Sample.homing_left_arm.
Proof.
  assert (He : IHMCInterfaceNode.status_signal "START-LISTENING"
               <> IHMCInterfaceNode.go_home_publication)
    by (intros E; discriminate E).
  assert (Hh : IHMCInterfaceNode.handle
                 (IHMCInterfaceNode.status_signal "START-LISTENING")
                 Sample.homing_left_arm 0%nat
               = Done (Scenario.homing_then_listening, 0%nat))
    by (vm_compute; reflexivity).
  assert (Hl : IHMCInterfaceNode.home_left_arm_ Sample.homing_left_arm
               = true) by reflexivity.
  pose proof (homing_request_is_kept
                (IHMCInterfaceNode.status_signal "START-LISTENING")
                Sample.homing_left_arm 0%nat Scenario.homing_then_listening
                0%nat He Hh) as (Hkept & _ & _ & _ & Hpub).
  exact (conj (conj He (conj Hh Hl)) (conj (Hkept Hl) Hpub)).
Defined.

Lemma home_flag_tracks_requests_witness :
  IHMCInterfaceNode.run
    [IHMCInterfaceNode.status_signal "HOME-CHEST";
     IHMCInterfaceNode.pose_update Sample.pose_123]
    (IHMCInterfaceNode.constructor true Sample.tf0) 0%nat
  = Done (Scenario.chest_requested, 0%nat)
  /\ (IHMCInterfaceNode.getPublishGoHomeCommandFlag Scenario.chest_requested
      = true
      <-> IHMCInterfaceNode.home_left_arm_ Scenario.chest_requested = true
          \/ IHMCInterfaceNode.home_right_arm_ Scenario.chest_requested = true
          \/ IHMCInterfaceNode.home_chest_ Scenario.chest_requested = true
          \/ IHMCInterfaceNode.home_pelvis_ Scenario.chest_requested = true).
Proof.
  assert (Hr : IHMCInterfaceNode.run
                 [IHMCInterfaceNode.status_signal "HOME-CHEST";
                  IHMCInterfaceNode.pose_update Sample.pose_123]
                 (IHMCInterfaceNode.constructor true Sample.tf0) 0%nat
               = Done (Scenario.chest_requested, 0%nat))
    by (vm_compute; reflexivity).
  exact (conj Hr
           (home_flag_tracks_requests true Sample.tf0 _ 0%nat
              Scenario.chest_requested 0%nat Hr)).
Defined.

Lemma main_loop_body_pass_witness :
  (IHMCInterfaceNode.main_loop_body Sample.after_pose_and_joints 0%nat
   = Done (Scenario.one_shot_done, true, 5%nat)
   /\ IHMCInterfaceNode.commands_from_controllers_
        Sample.after_pose_and_joints = false)
  /\ IHMCInterfaceNode.go_home_pub_ Scenario.one_shot_done
     = IHMCInterfaceNode.go_home_pub_ Sample.after_pose_and_joints
  /\ (true = true
      <-> IHMCInterfaceNode.getPublishCommandsFlag
            Sample.after_pose_and_joints
          && IHMCInterfaceNode.getStopNodeFlag Sample.after_pose_and_joints
          = true)
  /\ IHMCInterfaceNode.getPublishCommandsFlag Scenario.one_shot_done
     = IHMCInterfaceNode.getPublishCommandsFlag Sample.after_pose_and_joints.
Proof.
  assert (Hm : IHMCInterfaceNode.main_loop_body Sample.after_pose_and_joints
                 0%nat
               = Done (Scenario.one_shot_done, true, 5%nat))
    by (vm_compute; reflexivity).
  assert (Hc : IHMCInterfaceNode.commands_from_controllers_
                 Sample.after_pose_and_joints = false) by reflexivity.
  pose proof (main_loop_body_pass Sample.after_pose_and_joints 0%nat
                Scenario.one_shot_done true 5%nat Hm)
    as (_ & Hone & _ & Hflag).
  pose proof (Hone Hc) as (Hpub & Hleave & _).
  exact (conj (conj Hm Hc) (conj Hpub (conj Hleave Hflag))).
Defined.

Lemma joint_update_domain_witness :
  IHMCInterfaceNode.receive_joint_command_ Sample.after_pose = true
  /\ (is_done
        (IHMCInterfaceNode.jointCommandCallback Sample.elbows
           Sample.after_pose) = true
      <-> (length (position Sample.elbows) <= length (name Sample.elbows))%nat
          /\ IHMCInterfaceNode.slots_in_joint_region
               (take (length (position Sample.elbows))
                  (name Sample.elbows))).
Proof.
  assert (H : IHMCInterfaceNode.receive_joint_command_ Sample.after_pose
              = true) by reflexivity.
  exact (conj H (joint_update_domain Sample.elbows Sample.after_pose H)).
Defined.

Lemma joint_update_values_witness :
  (IHMCInterfaceNode.receive_joint_command_ Sample.after_pose = true
   /\ IHMCInterfaceNode.jointCommandCallback Sample.elbows Sample.after_pose
      = Done Sample.after_pose_and_joints
   /\ num_virtual <= 22 < num_virtual + num_act_joint
   /\ Forall (leaves_slot 22)
        (zip (name Sample.elbows) (position Sample.elbows))
   /\ zip (name Sample.elbows) (position Sample.elbows)
      = [] ++ ("leftElbowPitch", 0.5%float)
             :: [("hokuyo_joint", 9%float);
                 ("rightElbowPitch", (-0.5)%float)]
   /\ joint_names_to_indices !! "leftElbowPitch" = Some 25
   /\ Forall (leaves_slot 25)
        [("hokuyo_joint", 9%float); ("rightElbowPitch", (-0.5)%float)])
  /\ IHMCInterfaceNode.q_joint_ Sample.after_pose_and_joints
       !! Z.to_nat (22 - num_virtual) = Some 0%float
  /\ IHMCInterfaceNode.q_joint_ Sample.after_pose_and_joints
       !! Z.to_nat (25 - num_virtual) = Some 0.5%float.
Proof.
  assert (H : IHMCInterfaceNode.receive_joint_command_ Sample.after_pose
              = true) by reflexivity.
  assert (Hj : IHMCInterfaceNode.jointCommandCallback Sample.elbows
                 Sample.after_pose
               = Done Sample.after_pose_and_joints)
    by (vm_compute; reflexivity).
  assert (Hr : num_virtual <= 22 < num_virtual + num_act_joint)
    by (vm_compute; split; [intros E | ]; [discriminate E | reflexivity]).
  assert (H22 : Forall (leaves_slot 22)
                  (zip (name Sample.elbows) (position Sample.elbows)))
    by (repeat (constructor;
                [vm_compute; first [exact I | intros E; discriminate E]|]);
        constructor).
  assert (Hz : zip (name Sample.elbows) (position Sample.elbows)
               = [] ++ ("leftElbowPitch", 0.5%float)
                      :: [("hokuyo_joint", 9%float);
                          ("rightElbowPitch", (-0.5)%float)])
    by reflexivity.
  assert (Hi : joint_names_to_indices !! "leftElbowPitch" = Some 25)
    by (vm_compute; reflexivity).
  assert (H25 : Forall (leaves_slot 25)
                  [("hokuyo_joint", 9%float);
                   ("rightElbowPitch", (-0.5)%float)])
    by (repeat (constructor;
                [vm_compute; first [exact I | intros E; discriminate E]|]);
        constructor).
  pose proof (joint_update_values Sample.elbows Sample.after_pose
                Sample.after_pose_and_joints H Hj) as (Hzero & Hvalue).
  exact (conj (conj H (conj Hj (conj Hr (conj H22 (conj Hz (conj Hi H25))))))
           (conj (Hzero 22 Hr H22)
              (Hvalue [] "leftElbowPitch" 0.5%float _ 25 Hz Hi H25))).
Defined.

Lemma configuration_vector_layout_witness :
  (IHMCInterfaceNode.prepareConfigurationVector Sample.after_pose_and_joints
   = Done Scenario.prepared
   /\ IHMCInterfaceNode.q_joint_ Sample.after_pose_and_joints !! 18%nat
      = Some 0.5%float
   /\ root_slots_apart
        (IHMCInterfaceNode.q_joint_ Sample.after_pose_and_joints))
  /\ length (IHMCInterfaceNode.q_ Scenario.prepared) = 35%nat
  /\ coeff (IHMCInterfaceNode.q_ Scenario.prepared) 25 = Done 0.5%float
  /\ IHMCMsgUtils.selectRelevantJointsConfiguration
       (IHMCInterfaceNode.q_ Scenario.prepared)
       IHMCMsgUtils.getRelevantJointIndicesPelvis
     = Done [1; 2; 3; 0; 0; 0; 1]%float.
Proof.
  assert (Hp : IHMCInterfaceNode.prepareConfigurationVector
                 Sample.after_pose_and_joints
               = Done Scenario.prepared) by (vm_compute; reflexivity).
  assert (Hq : IHMCInterfaceNode.q_joint_ Sample.after_pose_and_joints
                 !! 18%nat = Some 0.5%float) by reflexivity.
  assert (Ha : root_slots_apart
                 (IHMCInterfaceNode.q_joint_ Sample.after_pose_and_joints))
    by (split; refine (bool_decide_unpack _ _); vm_compute; exact I).
  pose proof (configuration_vector_layout Sample.after_pose_and_joints
                Scenario.prepared Hp) as (_ & Hlen & Hjoint & Hroot).
  exact (conj (conj Hp (conj Hq Ha))
           (conj Hlen (conj (Hjoint 18%nat 0.5%float Hq) (Hroot Ha)))).
Defined.

Lemma commanded_joint_reaches_its_slot_witness :
  (IHMCInterfaceNode.receive_joint_command_ Sample.after_pose = true
   /\ IHMCInterfaceNode.jointCommandCallback Sample.elbows Sample.after_pose
      = Done Sample.after_pose_and_joints
   /\ IHMCInterfaceNode.prepareConfigurationVector
        Sample.after_pose_and_joints
      = Done Scenario.prepared
   /\ zip (name Sample.elbows) (position Sample.elbows)
      = [("leftElbowPitch", 0.5%float); ("hokuyo_joint", 9%float)]
          ++ ("rightElbowPitch", (-0.5)%float) :: []
   /\ joint_names_to_indices !! "rightElbowPitch" = Some 33
   /\ Forall (leaves_slot 33) [])
  /\ coeff (IHMCInterfaceNode.q_ Scenario.prepared) 33
     = Done (-0.5)%float.
Proof.
  assert (H : IHMCInterfaceNode.receive_joint_command_ Sample.after_pose
              = true) by reflexivity.
  assert (Hj : IHMCInterfaceNode.jointCommandCallback Sample.elbows
                 Sample.after_pose
               = Done Sample.after_pose_and_joints)
    by (vm_compute; reflexivity).
  assert (Hp : IHMCInterfaceNode.prepareConfigurationVector
                 Sample.after_pose_and_joints
               = Done Scenario.prepared) by (vm_compute; reflexivity).
  assert (Hz : zip (name Sample.elbows) (position Sample.elbows)
               = [("leftElbowPitch", 0.5%float); ("hokuyo_joint", 9%float)]
                   ++ ("rightElbowPitch", (-0.5)%float) :: [])
    by reflexivity.
  assert (Hi : joint_names_to_indices !! "rightElbowPitch" = Some 33)
    by (vm_compute; reflexivity).
  assert (Hl : Forall (leaves_slot 33) []) by constructor.
  exact (conj (conj H (conj Hj (conj Hp (conj Hz (conj Hi Hl)))))
           (commanded_joint_reaches_its_slot Sample.elbows Sample.after_pose
              Sample.after_pose_and_joints Scenario.prepared _
              "rightElbowPitch" (-0.5)%float [] 33 H Hj Hp Hz Hi Hl)).
Defined.

Lemma published_pelvis_follows_pose_witness :
  (IHMCInterfaceNode.receive_pelvis_transform_ Sample.fresh_one_shot = true
   /\ root_slots_apart (IHMCInterfaceNode.q_joint_ Sample.fresh_one_shot)
   /\ IHMCMsgUtils.checkControlledLink
        (IHMCInterfaceNode.controlled_links_ Sample.fresh_one_shot)
        link_pelvis = true
   /\ IHMCInterfaceNode.publishWholeBodyMessage
        (IHMCInterfaceNode.transformCallback Sample.pose_123
           Sample.fresh_one_shot) 0%nat
      = Done (Scenario.pose_published, 5%nat))
  /\ exists msg point,
      IHMCInterfaceNode.wholebody_pub_ Scenario.pose_published
      = IHMCInterfaceNode.wholebody_pub_ Sample.fresh_one_shot ++ [msg]
      /\ SE3TrajectoryMessage.taskspace_trajectory_points
           (PelvisTrajectoryMessage.se3_trajectory
              (WholeBodyTrajectoryMessage.pelvis_trajectory_message msg))
         = [point]
      /\ SE3TrajectoryPointMessage.position point = Point.mk 1 2 3
      /\ SE3TrajectoryPointMessage.orientation point
         = QuaternionMsg.mk 0 0 0 1.
Proof.
  assert (H : IHMCInterfaceNode.receive_pelvis_transform_
                Sample.fresh_one_shot = true) by reflexivity.
  assert (Ha : root_slots_apart
                 (IHMCInterfaceNode.q_joint_ Sample.fresh_one_shot))
    by (split; refine (bool_decide_unpack _ _); vm_compute; exact I).
  assert (Hc : IHMCMsgUtils.checkControlledLink
                 (IHMCInterfaceNode.controlled_links_ Sample.fresh_one_shot)
                 link_pelvis = true) by reflexivity.
  assert (Hp : IHMCInterfaceNode.publishWholeBodyMessage
                 (IHMCInterfaceNode.transformCallback Sample.pose_123
                    Sample.fresh_one_shot) 0%nat
               = Done (Scenario.pose_published, 5%nat))
    by (vm_compute; reflexivity).
  exact (conj (conj H (conj Ha (conj Hc Hp)))
           (published_pelvis_follows_pose Sample.pose_123
              Sample.fresh_one_shot 0%nat Scenario.pose_published 5%nat
              H Ha Hc Hp)).
Defined.

Lemma selection_returns_iff_in_range_witness :
  IHMCMsgUtils.selectRelevantJointsConfiguration Sample.q_sample
    IHMCMsgUtils.getRelevantJointIndicesLeftArm
  = Done [0.1; 0.2; 0.3; 0.4; 0.5; 0; 0]%float
  /\ length [0.1; 0.2; 0.3; 0.4; 0.5; 0; 0]%float
     = length IHMCMsgUtils.getRelevantJointIndicesLeftArm
  /\ Forall2 (fun idx x =>
                (if idx =? -1 then Done 0%float
                 else coeff Sample.q_sample idx) = Done x)
       IHMCMsgUtils.getRelevantJointIndicesLeftArm
       [0.1; 0.2; 0.3; 0.4; 0.5; 0; 0]%float.
Proof.
  assert (Hs : IHMCMsgUtils.selectRelevantJointsConfiguration Sample.q_sample
                 IHMCMsgUtils.getRelevantJointIndicesLeftArm
               = Done [0.1; 0.2; 0.3; 0.4; 0.5; 0; 0]%float)
    by (vm_compute; reflexivity).
  pose proof (selection_returns_iff_in_range Sample.q_sample
                IHMCMsgUtils.getRelevantJointIndicesLeftArm)
    as (_ & Hvals & Hlen).
  exact (conj Hs (conj (Hlen _ Hs) (proj1 (Hvals _) Hs))).
Defined.

Lemma right_arm_target_pads_wrist_witness :
  (coeff Scenario.q_upper rightShoulderPitch = Done 0.6%float
   /\ coeff Scenario.q_upper rightShoulderRoll = Done 0.7%float
   /\ coeff Scenario.q_upper rightShoulderYaw = Done 0.8%float
   /\ coeff Scenario.q_upper rightElbowPitch = Done 0.9%float
   /\ coeff Scenario.q_upper rightForearmYaw = Done 1.0%float
   /\ IHMCMsgUtils.checkControlledLink
        (IHMCMessageParameters.controlled_links Sample.params_all_links)
        link_rightPalm = true
   /\ IHMCMsgUtils.makeIHMCWholeBodyTrajectoryMessage Scenario.q_upper
        WholeBodyTrajectoryMessage.init Sample.params_all_links 0%nat
      = Done (Scenario.wholebody_upper, 5%nat))
  /\ IHMCMsgUtils.selectRelevantJointsConfiguration Scenario.q_upper
       IHMCMsgUtils.getRelevantJointIndicesRightArm
     = Done [0.6; 0.7; 0.8; 0.9; 1.0; 0; 0]%float
  /\ IHMCMsgUtils.jointspace_target
       (ArmTrajectoryMessage.jointspace_trajectory
          (WholeBodyTrajectoryMessage.right_arm_trajectory_message
             Scenario.wholebody_upper))
     = [0.6; 0.7; 0.8; 0.9; 1.0; 0; 0]%float
  /\ ArmTrajectoryMessage.robot_side
       (WholeBodyTrajectoryMessage.right_arm_trajectory_message
          Scenario.wholebody_upper) = 1.
Proof.
  assert (Hw : IHMCMsgUtils.makeIHMCWholeBodyTrajectoryMessage
                 Scenario.q_upper WholeBodyTrajectoryMessage.init
                 Sample.params_all_links 0%nat
               = Done (Scenario.wholebody_upper, 5%nat))
    by (vm_compute; reflexivity).
  pose proof (right_arm_target_pads_wrist Scenario.q_upper
                0.6 0.7 0.8 0.9 1.0 eq_refl eq_refl eq_refl eq_refl eq_refl)
    as (Hsel & Hwb).
  split; [repeat split; first [reflexivity | exact Hw]|].
  split; [exact Hsel|].
  exact (Hwb WholeBodyTrajectoryMessage.init Sample.params_all_links 0%nat
           Scenario.wholebody_upper 5%nat eq_refl Hw).
Defined.

Lemma neck_target_has_three_joints_witness :
  (coeff Scenario.q_upper lowerNeckPitch = Done 0.1%float
   /\ coeff Scenario.q_upper neckYaw = Done 0.2%float
   /\ coeff Scenario.q_upper upperNeckPitch = Done 0.3%float
   /\ IHMCMsgUtils.checkControlledLink
        (IHMCMessageParameters.controlled_links Sample.params_all_links)
        link_head = true
   /\ IHMCMsgUtils.makeIHMCWholeBodyTrajectoryMessage Scenario.q_upper
        WholeBodyTrajectoryMessage.init Sample.params_all_links 0%nat
      = Done (Scenario.wholebody_upper, 5%nat))
  /\ IHMCMsgUtils.selectRelevantJointsConfiguration Scenario.q_upper
       IHMCMsgUtils.getRelevantJointIndicesNeck
     = Done [0.1; 0.2; 0.3]%float
  /\ IHMCMsgUtils.jointspace_target
       (NeckTrajectoryMessage.jointspace_trajectory
          (WholeBodyTrajectoryMessage.neck_trajectory_message
             Scenario.wholebody_upper))
     = [0.1; 0.2; 0.3]%float.
Proof.
  assert (Hw : IHMCMsgUtils.makeIHMCWholeBodyTrajectoryMessage
                 Scenario.q_upper WholeBodyTrajectoryMessage.init
                 Sample.params_all_links 0%nat
               = Done (Scenario.wholebody_upper, 5%nat))
    by (vm_compute; reflexivity).
  pose proof (neck_target_has_three_joints Scenario.q_upper
                0.1 0.2 0.3 eq_refl eq_refl eq_refl)
    as (Hsel & Hwb).
  split; [repeat split; first [reflexivity | exact Hw]|].
  split; [exact Hsel|].
  exact (Hwb WholeBodyTrajectoryMessage.init Sample.params_all_links 0%nat
           Scenario.wholebody_upper 5%nat eq_refl Hw).
Defined.

Lemma assembly_leaves_other_parts_witness :
  (IHMCMsgUtils.checkControlledLink
     (IHMCMessageParameters.controlled_links Scenario.params_feet_only)
     link_leftPalm = false
   /\ IHMCMsgUtils.checkControlledLink
        (IHMCMessageParameters.controlled_links Scenario.params_feet_only)
        link_rightPalm = false
   /\ IHMCMsgUtils.checkControlledLink
        (IHMCMessageParameters.controlled_links Scenario.params_feet_only)
        link_torso = false
   /\ IHMCMsgUtils.checkControlledLink
        (IHMCMessageParameters.controlled_links Scenario.params_feet_only)
        link_pelvis = false
   /\ IHMCMsgUtils.checkControlledLink
        (IHMCMessageParameters.controlled_links Scenario.params_feet_only)
        link_head = false)
  /\ exists msg,
      IHMCMsgUtils.makeIHMCWholeBodyTrajectoryMessage [] 
        WholeBodyTrajectoryMessage.init Scenario.params_feet_only 7%nat
      = Done (msg, 7%nat)
      /\ WholeBodyTrajectoryMessage.left_foot_trajectory_message msg
         = FootTrajectoryMessage.init
      /\ WholeBodyTrajectoryMessage.left_arm_trajectory_message msg
         = ArmTrajectoryMessage.init.
Proof.
  pose proof (assembly_leaves_other_parts [] WholeBodyTrajectoryMessage.init
                Scenario.params_feet_only 7%nat) as (Hparts & Hnone).
  pose proof (Hnone eq_refl eq_refl eq_refl eq_refl eq_refl) as Hdone.
  pose proof (Hparts _ _ Hdone) as (_ & Hfoot & _ & Harm & _).
  split; [repeat split|].
  eexists. split; [exact Hdone|].
  split; [exact Hfoot | exact (Harm eq_refl)].
Defined.

Lemma links_count_by_membership_witness :
  Forall (fun link => link ∈ [5; 0; 5; 3] <-> link ∈ [0; 5; 17])
    [link_leftPalm; link_rightPalm; link_torso; link_pelvis; link_head]
  /\ IHMCMsgUtils.makeIHMCWholeBodyTrajectoryMessage Sample.q_sample
       WholeBodyTrajectoryMessage.init
       (IHMCMessageParameters.set_controlled_links [5; 0; 5; 3]
          msg_params_default) 0%nat
     = IHMCMsgUtils.makeIHMCWholeBodyTrajectoryMessage Sample.q_sample
         WholeBodyTrajectoryMessage.init
         (IHMCMessageParameters.set_controlled_links [0; 5; 17]
            msg_params_default) 0%nat.
Proof.
  assert (H : Forall (fun link => link ∈ [5; 0; 5; 3] <-> link ∈ [0; 5; 17])
                [link_leftPalm; link_rightPalm; link_torso; link_pelvis;
                 link_head])
    by (refine (bool_decide_unpack _ _); vm_compute; exact I).
  exact (conj H
           (links_count_by_membership Sample.q_sample
              WholeBodyTrajectoryMessage.init msg_params_default
              [5; 0; 5; 3] [0; 5; 17] 0%nat H)).
Defined.

Lemma controlled_parts_have_fixed_shape_witness :
  (IHMCMsgUtils.makeIHMCWholeBodyTrajectoryMessage Sample.q_sample
     WholeBodyTrajectoryMessage.init Sample.params_all_links 0%nat
   = Done (Sample.wholebody_sample, 5%nat)
   /\ IHMCMsgUtils.checkControlledLink
        (IHMCMessageParameters.controlled_links Sample.params_all_links)
        link_leftPalm = true
   /\ IHMCMsgUtils.checkControlledLink
        (IHMCMessageParameters.controlled_links Sample.params_all_links)
        link_head = true
   /\ IHMCMsgUtils.checkControlledLink
        (IHMCMessageParameters.controlled_links Sample.params_all_links)
        link_pelvis = true)
  /\ (length (JointspaceTrajectoryMessage.joint_trajectory_messages
                (ArmTrajectoryMessage.jointspace_trajectory
                   (WholeBodyTrajectoryMessage.left_arm_trajectory_message
                      Sample.wholebody_sample))) = 7%nat
      /\ Forall (fun j_msg =>
                   exists point,
                     OneDoFJointTrajectoryMessage.trajectory_points j_msg
                     = [point]
                     /\ TrajectoryPoint1DMessage.velocity point = 0%float)
           (JointspaceTrajectoryMessage.joint_trajectory_messages
              (ArmTrajectoryMessage.jointspace_trajectory
                 (WholeBodyTrajectoryMessage.left_arm_trajectory_message
                    Sample.wholebody_sample))))
  /\ length (JointspaceTrajectoryMessage.joint_trajectory_messages
               (NeckTrajectoryMessage.jointspace_trajectory
                  (WholeBodyTrajectoryMessage.neck_trajectory_message
                     Sample.wholebody_sample))) = 3%nat
  /\ length (SE3TrajectoryMessage.taskspace_trajectory_points
               (PelvisTrajectoryMessage.se3_trajectory
                  (WholeBodyTrajectoryMessage.pelvis_trajectory_message
                     Sample.wholebody_sample))) = 1%nat.
Proof.
  assert (Hw : IHMCMsgUtils.makeIHMCWholeBodyTrajectoryMessage
                 Sample.q_sample WholeBodyTrajectoryMessage.init
                 Sample.params_all_links 0%nat
               = Done (Sample.wholebody_sample, 5%nat))
    by (vm_compute; reflexivity).
  pose proof (controlled_parts_have_fixed_shape Sample.q_sample
                WholeBodyTrajectoryMessage.init Sample.params_all_links
                0%nat Sample.wholebody_sample 5%nat Hw)
    as (Hl & _ & Hn & _ & Hp).
  split; [repeat split; first [reflexivity | exact Hw]|].
  split; [exact (Hl eq_refl)|].
  split; [exact (proj1 (Hn eq_refl)) | exact (Hp eq_refl)].
Defined.

Lemma assembly_stamps_each_part_witness :
  IHMCMsgUtils.makeIHMCWholeBodyTrajectoryMessage Sample.q_sample
    WholeBodyTrajectoryMessage.init Sample.params_all_links 0%nat
  = Done (Sample.wholebody_sample, 5%nat)
  /\ 5%nat
     = (0 + length
              (map QueueableMessage.timestamp
                 (IHMCMsgUtils.queueing_properties_of Sample.wholebody_sample
                    (IHMCMessageParameters.controlled_links
                       Sample.params_all_links))))%nat
  /\ map QueueableMessage.timestamp
       (IHMCMsgUtils.queueing_properties_of Sample.wholebody_sample
          (IHMCMessageParameters.controlled_links Sample.params_all_links))
     = map system_clock_now [0; 1; 2; 3; 4]%nat.
Proof.
  assert (Hw : IHMCMsgUtils.makeIHMCWholeBodyTrajectoryMessage
                 Sample.q_sample WholeBodyTrajectoryMessage.init
                 Sample.params_all_links 0%nat
               = Done (Sample.wholebody_sample, 5%nat))
    by (vm_compute; reflexivity).
  exact (conj Hw
           (assembly_stamps_each_part Sample.q_sample
              WholeBodyTrajectoryMessage.init Sample.params_all_links
              0%nat Sample.wholebody_sample 5%nat Hw)).
Defined.
